(** * RegWatch API: the circular-matching pipeline

    A shallow embedding of [app/main.py]: the two completion-backed helpers
    [ai_filter_circulars] and [suggest_regulators], the document serialiser
    [serialize_doc] and the endpoint [match_circulars_for_company], together
    with the parts of the Python runtime they rely on (text operations on
    code points, dynamically typed values, exceptions) and a model of the
    two collaborators the endpoint talks to: the document store and the
    chat-completion service. *)

From Stdlib Require Import List NArith ZArith QArith Bool Lia String Ascii.
Import ListNotations.
Close Scope Q_scope.

Set Warnings "-register-all".

(** ** Character data of the runtime

    A Python [str] is a sequence of Unicode code points.  The character
    classes and case mappings below are those of CPython 3.11 (Unicode
    14.0.0), given as ranges of code points. *)

Module Unicode.

Local Open Scope N_scope.

Definition in_ranges (rs : list (N * N)) (c : N) : bool :=
  existsb (fun r => (fst r <=? c) && (c <=? snd r)) rs.

(** A run of simple case mappings: every [run_step]-th code point from
    [run_lo] to [run_hi] maps to itself plus [run_delta]. *)
Record case_run : Set := run
  { run_lo : N; run_hi : N; run_step : N; run_delta : Z }.

Definition in_run (c : N) (r : case_run) : bool :=
  (run_lo r <=? c) && (c <=? run_hi r) && ((c - run_lo r) mod run_step r =? 0).

Definition apply_run (c : N) (r : case_run) : N :=
  Z.to_N (Z.of_N c + run_delta r).

Definition case_map (runs : list case_run) (special : list (N * list N))
    (c : N) : list N :=
  match find (fun e => fst e =? c) special with
  | Some e => snd e
  | None =>
      match find (in_run c) runs with
      | Some r => [apply_run c r]
      | None => [c]
      end
  end.

(** Code points for which [str.isspace] holds; [str.strip] and [str.split] use the same class. *)
Definition space_ranges : list (N * N) :=
  [
   (9, 13); (28, 32); (133, 133); (160, 160); (5760, 5760); (8192, 8202);
   (8232, 8233); (8239, 8239); (8287, 8287); (12288, 12288)
  ]%N.

(** Decimal digits (category Nd), in runs of ten: the value of a digit is its offset in its run modulo ten. *)
Definition decimal_ranges : list (N * N) :=
  [
   (48, 57); (1632, 1641); (1776, 1785); (1984, 1993); (2406, 2415); (2534, 2543);
   (2662, 2671); (2790, 2799); (2918, 2927); (3046, 3055); (3174, 3183); (3302, 3311);
   (3430, 3439); (3558, 3567); (3664, 3673); (3792, 3801); (3872, 3881); (4160, 4169);
   (4240, 4249); (6112, 6121); (6160, 6169); (6470, 6479); (6608, 6617); (6784, 6793);
   (6800, 6809); (6992, 7001); (7088, 7097); (7232, 7241); (7248, 7257); (42528, 42537);
   (43216, 43225); (43264, 43273); (43472, 43481); (43504, 43513); (43600, 43609); (44016, 44025);
   (65296, 65305); (66720, 66729); (68912, 68921); (69734, 69743); (69872, 69881); (69942, 69951);
   (70096, 70105); (70384, 70393); (70736, 70745); (70864, 70873); (71248, 71257); (71360, 71369);
   (71472, 71481); (71904, 71913); (72016, 72025); (72784, 72793); (73040, 73049); (73120, 73129);
   (92768, 92777); (92864, 92873); (93008, 93017); (120782, 120831); (123200, 123209); (123632, 123641);
   (125264, 125273); (130032, 130041)
  ]%N.

(** Code points for which [str.isdigit] holds: the decimal digits and the other characters of numeric type Digit (superscripts, circled digits, ...). *)
Definition digit_ranges : list (N * N) :=
  [
   (48, 57); (178, 179); (185, 185); (1632, 1641); (1776, 1785); (1984, 1993);
   (2406, 2415); (2534, 2543); (2662, 2671); (2790, 2799); (2918, 2927); (3046, 3055);
   (3174, 3183); (3302, 3311); (3430, 3439); (3558, 3567); (3664, 3673); (3792, 3801);
   (3872, 3881); (4160, 4169); (4240, 4249); (4969, 4977); (6112, 6121); (6160, 6169);
   (6470, 6479); (6608, 6618); (6784, 6793); (6800, 6809); (6992, 7001); (7088, 7097);
   (7232, 7241); (7248, 7257); (8304, 8304); (8308, 8313); (8320, 8329); (9312, 9320);
   (9332, 9340); (9352, 9360); (9450, 9450); (9461, 9469); (9471, 9471); (10102, 10110);
   (10112, 10120); (10122, 10130); (42528, 42537); (43216, 43225); (43264, 43273); (43472, 43481);
   (43504, 43513); (43600, 43609); (44016, 44025); (65296, 65305); (66720, 66729); (68160, 68163);
   (68912, 68921); (69216, 69224); (69714, 69722); (69734, 69743); (69872, 69881); (69942, 69951);
   (70096, 70105); (70384, 70393); (70736, 70745); (70864, 70873); (71248, 71257); (71360, 71369);
   (71472, 71481); (71904, 71913); (72016, 72025); (72784, 72793); (73040, 73049); (73120, 73129);
   (92768, 92777); (92864, 92873); (93008, 93017); (120782, 120831); (123200, 123209); (123632, 123641);
   (125264, 125273); (127232, 127242); (130032, 130041)
  ]%N.

(** Cased code points (Lowercase, Uppercase or titlecase letters). *)
Definition cased_ranges : list (N * N) :=
  [
   (65, 90); (97, 122); (170, 170); (181, 181); (186, 186); (192, 214);
   (216, 246); (248, 442); (444, 447); (452, 659); (661, 696); (704, 705);
   (736, 740); (837, 837); (880, 883); (886, 887); (890, 893); (895, 895);
   (902, 902); (904, 906); (908, 908); (910, 929); (931, 1013); (1015, 1153);
   (1162, 1327); (1329, 1366); (1376, 1416); (4256, 4293); (4295, 4295); (4301, 4301);
   (4304, 4346); (4349, 4351); (5024, 5109); (5112, 5117); (7296, 7304); (7312, 7354);
   (7357, 7359); (7424, 7615); (7680, 7957); (7960, 7965); (7968, 8005); (8008, 8013);
   (8016, 8023); (8025, 8025); (8027, 8027); (8029, 8029); (8031, 8061); (8064, 8116);
   (8118, 8124); (8126, 8126); (8130, 8132); (8134, 8140); (8144, 8147); (8150, 8155);
   (8160, 8172); (8178, 8180); (8182, 8188); (8305, 8305); (8319, 8319); (8336, 8348);
   (8450, 8450); (8455, 8455); (8458, 8467); (8469, 8469); (8473, 8477); (8484, 8484);
   (8486, 8486); (8488, 8488); (8490, 8493); (8495, 8500); (8505, 8505); (8508, 8511);
   (8517, 8521); (8526, 8526); (8544, 8575); (8579, 8580); (9398, 9449); (11264, 11492);
   (11499, 11502); (11506, 11507); (11520, 11557); (11559, 11559); (11565, 11565); (42560, 42605);
   (42624, 42653); (42786, 42887); (42891, 42894); (42896, 42954); (42960, 42961); (42963, 42963);
   (42965, 42969); (42997, 42998); (43000, 43002); (43824, 43866); (43868, 43880); (43888, 43967);
   (64256, 64262); (64275, 64279); (65313, 65338); (65345, 65370); (66560, 66639); (66736, 66771);
   (66776, 66811); (66928, 66938); (66940, 66954); (66956, 66962); (66964, 66965); (66967, 66977);
   (66979, 66993); (66995, 67001); (67003, 67004); (67456, 67456); (67459, 67461); (67463, 67504);
   (67506, 67514); (68736, 68786); (68800, 68850); (71840, 71903); (93760, 93823); (119808, 119892);
   (119894, 119964); (119966, 119967); (119970, 119970); (119973, 119974); (119977, 119980); (119982, 119993);
   (119995, 119995); (119997, 120003); (120005, 120069); (120071, 120074); (120077, 120084); (120086, 120092);
   (120094, 120121); (120123, 120126); (120128, 120132); (120134, 120134); (120138, 120144); (120146, 120485);
   (120488, 120512); (120514, 120538); (120540, 120570); (120572, 120596); (120598, 120628); (120630, 120654);
   (120656, 120686); (120688, 120712); (120714, 120744); (120746, 120770); (120772, 120779); (122624, 122633);
   (122635, 122654); (125184, 125251); (127280, 127305); (127312, 127337); (127344, 127369)
  ]%N.

(** Case-ignorable code points, skipped by the final-sigma scan. *)
Definition case_ignorable_ranges : list (N * N) :=
  [
   (39, 39); (46, 46); (58, 58); (94, 94); (96, 96); (168, 168);
   (173, 173); (175, 175); (180, 180); (183, 184); (688, 879); (884, 885);
   (890, 890); (900, 901); (903, 903); (1155, 1161); (1369, 1369); (1375, 1375);
   (1425, 1469); (1471, 1471); (1473, 1474); (1476, 1477); (1479, 1479); (1524, 1524);
   (1536, 1541); (1552, 1562); (1564, 1564); (1600, 1600); (1611, 1631); (1648, 1648);
   (1750, 1757); (1759, 1768); (1770, 1773); (1807, 1807); (1809, 1809); (1840, 1866);
   (1958, 1968); (2027, 2037); (2042, 2042); (2045, 2045); (2070, 2093); (2137, 2139);
   (2184, 2184); (2192, 2193); (2200, 2207); (2249, 2306); (2362, 2362); (2364, 2364);
   (2369, 2376); (2381, 2381); (2385, 2391); (2402, 2403); (2417, 2417); (2433, 2433);
   (2492, 2492); (2497, 2500); (2509, 2509); (2530, 2531); (2558, 2558); (2561, 2562);
   (2620, 2620); (2625, 2626); (2631, 2632); (2635, 2637); (2641, 2641); (2672, 2673);
   (2677, 2677); (2689, 2690); (2748, 2748); (2753, 2757); (2759, 2760); (2765, 2765);
   (2786, 2787); (2810, 2815); (2817, 2817); (2876, 2876); (2879, 2879); (2881, 2884);
   (2893, 2893); (2901, 2902); (2914, 2915); (2946, 2946); (3008, 3008); (3021, 3021);
   (3072, 3072); (3076, 3076); (3132, 3132); (3134, 3136); (3142, 3144); (3146, 3149);
   (3157, 3158); (3170, 3171); (3201, 3201); (3260, 3260); (3263, 3263); (3270, 3270);
   (3276, 3277); (3298, 3299); (3328, 3329); (3387, 3388); (3393, 3396); (3405, 3405);
   (3426, 3427); (3457, 3457); (3530, 3530); (3538, 3540); (3542, 3542); (3633, 3633);
   (3636, 3642); (3654, 3662); (3761, 3761); (3764, 3772); (3782, 3782); (3784, 3789);
   (3864, 3865); (3893, 3893); (3895, 3895); (3897, 3897); (3953, 3966); (3968, 3972);
   (3974, 3975); (3981, 3991); (3993, 4028); (4038, 4038); (4141, 4144); (4146, 4151);
   (4153, 4154); (4157, 4158); (4184, 4185); (4190, 4192); (4209, 4212); (4226, 4226);
   (4229, 4230); (4237, 4237); (4253, 4253); (4348, 4348); (4957, 4959); (5906, 5908);
   (5938, 5939); (5970, 5971); (6002, 6003); (6068, 6069); (6071, 6077); (6086, 6086);
   (6089, 6099); (6103, 6103); (6109, 6109); (6155, 6159); (6211, 6211); (6277, 6278);
   (6313, 6313); (6432, 6434); (6439, 6440); (6450, 6450); (6457, 6459); (6679, 6680);
   (6683, 6683); (6742, 6742); (6744, 6750); (6752, 6752); (6754, 6754); (6757, 6764);
   (6771, 6780); (6783, 6783); (6823, 6823); (6832, 6862); (6912, 6915); (6964, 6964);
   (6966, 6970); (6972, 6972); (6978, 6978); (7019, 7027); (7040, 7041); (7074, 7077);
   (7080, 7081); (7083, 7085); (7142, 7142); (7144, 7145); (7149, 7149); (7151, 7153);
   (7212, 7219); (7222, 7223); (7288, 7293); (7376, 7378); (7380, 7392); (7394, 7400);
   (7405, 7405); (7412, 7412); (7416, 7417); (7468, 7530); (7544, 7544); (7579, 7679);
   (8125, 8125); (8127, 8129); (8141, 8143); (8157, 8159); (8173, 8175); (8189, 8190);
   (8203, 8207); (8216, 8217); (8228, 8228); (8231, 8231); (8234, 8238); (8288, 8292);
   (8294, 8303); (8305, 8305); (8319, 8319); (8336, 8348); (8400, 8432); (11388, 11389);
   (11503, 11505); (11631, 11631); (11647, 11647); (11744, 11775); (11823, 11823); (12293, 12293);
   (12330, 12333); (12337, 12341); (12347, 12347); (12441, 12446); (12540, 12542); (40981, 40981);
   (42232, 42237); (42508, 42508); (42607, 42610); (42612, 42621); (42623, 42623); (42652, 42655);
   (42736, 42737); (42752, 42785); (42864, 42864); (42888, 42890); (42994, 42996); (43000, 43001);
   (43010, 43010); (43014, 43014); (43019, 43019); (43045, 43046); (43052, 43052); (43204, 43205);
   (43232, 43249); (43263, 43263); (43302, 43309); (43335, 43345); (43392, 43394); (43443, 43443);
   (43446, 43449); (43452, 43453); (43471, 43471); (43493, 43494); (43561, 43566); (43569, 43570);
   (43573, 43574); (43587, 43587); (43596, 43596); (43632, 43632); (43644, 43644); (43696, 43696);
   (43698, 43700); (43703, 43704); (43710, 43711); (43713, 43713); (43741, 43741); (43756, 43757);
   (43763, 43764); (43766, 43766); (43867, 43871); (43881, 43883); (44005, 44005); (44008, 44008);
   (44013, 44013); (64286, 64286); (64434, 64450); (65024, 65039); (65043, 65043); (65056, 65071);
   (65106, 65106); (65109, 65109); (65279, 65279); (65287, 65287); (65294, 65294); (65306, 65306);
   (65342, 65342); (65344, 65344); (65392, 65392); (65438, 65439); (65507, 65507); (65529, 65531);
   (66045, 66045); (66272, 66272); (66422, 66426); (67456, 67461); (67463, 67504); (67506, 67514);
   (68097, 68099); (68101, 68102); (68108, 68111); (68152, 68154); (68159, 68159); (68325, 68326);
   (68900, 68903); (69291, 69292); (69446, 69456); (69506, 69509); (69633, 69633); (69688, 69702);
   (69744, 69744); (69747, 69748); (69759, 69761); (69811, 69814); (69817, 69818); (69821, 69821);
   (69826, 69826); (69837, 69837); (69888, 69890); (69927, 69931); (69933, 69940); (70003, 70003);
   (70016, 70017); (70070, 70078); (70089, 70092); (70095, 70095); (70191, 70193); (70196, 70196);
   (70198, 70199); (70206, 70206); (70367, 70367); (70371, 70378); (70400, 70401); (70459, 70460);
   (70464, 70464); (70502, 70508); (70512, 70516); (70712, 70719); (70722, 70724); (70726, 70726);
   (70750, 70750); (70835, 70840); (70842, 70842); (70847, 70848); (70850, 70851); (71090, 71093);
   (71100, 71101); (71103, 71104); (71132, 71133); (71219, 71226); (71229, 71229); (71231, 71232);
   (71339, 71339); (71341, 71341); (71344, 71349); (71351, 71351); (71453, 71455); (71458, 71461);
   (71463, 71467); (71727, 71735); (71737, 71738); (71995, 71996); (71998, 71998); (72003, 72003);
   (72148, 72151); (72154, 72155); (72160, 72160); (72193, 72202); (72243, 72248); (72251, 72254);
   (72263, 72263); (72273, 72278); (72281, 72283); (72330, 72342); (72344, 72345); (72752, 72758);
   (72760, 72765); (72767, 72767); (72850, 72871); (72874, 72880); (72882, 72883); (72885, 72886);
   (73009, 73014); (73018, 73018); (73020, 73021); (73023, 73029); (73031, 73031); (73104, 73105);
   (73109, 73109); (73111, 73111); (73459, 73460); (78896, 78904); (92912, 92916); (92976, 92982);
   (92992, 92995); (94031, 94031); (94095, 94111); (94176, 94177); (94179, 94180); (110576, 110579);
   (110581, 110587); (110589, 110590); (113821, 113822); (113824, 113827); (118528, 118573); (118576, 118598);
   (119143, 119145); (119155, 119170); (119173, 119179); (119210, 119213); (119362, 119364); (121344, 121398);
   (121403, 121452); (121461, 121461); (121476, 121476); (121499, 121503); (121505, 121519); (122880, 122886);
   (122888, 122904); (122907, 122913); (122915, 122916); (122918, 122922); (123184, 123197); (123566, 123566);
   (123628, 123631); (125136, 125142); (125252, 125259); (127995, 127999); (917505, 917505); (917536, 917631);
   (917760, 917999)
  ]%N.
(** Simple lowercase mappings. *)
Definition lower_runs : list case_run :=
  [
   run 65 90 1 (32); run 192 214 1 (32); run 216 222 1 (32);
   run 256 302 2 (1); run 306 310 2 (1); run 313 327 2 (1);
   run 330 374 2 (1); run 376 376 1 (-121); run 377 381 2 (1);
   run 385 385 1 (210); run 386 388 2 (1); run 390 390 1 (206);
   run 391 391 1 (1); run 393 394 1 (205); run 395 395 1 (1);
   run 398 398 1 (79); run 399 399 1 (202); run 400 400 1 (203);
   run 401 401 1 (1); run 403 403 1 (205); run 404 404 1 (207);
   run 406 406 1 (211); run 407 407 1 (209); run 408 408 1 (1);
   run 412 412 1 (211); run 413 413 1 (213); run 415 415 1 (214);
   run 416 420 2 (1); run 422 422 1 (218); run 423 423 1 (1);
   run 425 425 1 (218); run 428 428 1 (1); run 430 430 1 (218);
   run 431 431 1 (1); run 433 434 1 (217); run 435 437 2 (1);
   run 439 439 1 (219); run 440 440 1 (1); run 444 444 1 (1);
   run 452 452 1 (2); run 453 453 1 (1); run 455 455 1 (2);
   run 456 456 1 (1); run 458 458 1 (2); run 459 475 2 (1);
   run 478 494 2 (1); run 497 497 1 (2); run 498 500 2 (1);
   run 502 502 1 (-97); run 503 503 1 (-56); run 504 542 2 (1);
   run 544 544 1 (-130); run 546 562 2 (1); run 570 570 1 (10795);
   run 571 571 1 (1); run 573 573 1 (-163); run 574 574 1 (10792);
   run 577 577 1 (1); run 579 579 1 (-195); run 580 580 1 (69);
   run 581 581 1 (71); run 582 590 2 (1); run 880 882 2 (1);
   run 886 886 1 (1); run 895 895 1 (116); run 902 902 1 (38);
   run 904 906 1 (37); run 908 908 1 (64); run 910 911 1 (63);
   run 913 929 1 (32); run 931 939 1 (32); run 975 975 1 (8);
   run 984 1006 2 (1); run 1012 1012 1 (-60); run 1015 1015 1 (1);
   run 1017 1017 1 (-7); run 1018 1018 1 (1); run 1021 1023 1 (-130);
   run 1024 1039 1 (80); run 1040 1071 1 (32); run 1120 1152 2 (1);
   run 1162 1214 2 (1); run 1216 1216 1 (15); run 1217 1229 2 (1);
   run 1232 1326 2 (1); run 1329 1366 1 (48); run 4256 4293 1 (7264);
   run 4295 4295 1 (7264); run 4301 4301 1 (7264); run 5024 5103 1 (38864);
   run 5104 5109 1 (8); run 7312 7354 1 (-3008); run 7357 7359 1 (-3008);
   run 7680 7828 2 (1); run 7838 7838 1 (-7615); run 7840 7934 2 (1);
   run 7944 7951 1 (-8); run 7960 7965 1 (-8); run 7976 7983 1 (-8);
   run 7992 7999 1 (-8); run 8008 8013 1 (-8); run 8025 8031 2 (-8);
   run 8040 8047 1 (-8); run 8072 8079 1 (-8); run 8088 8095 1 (-8);
   run 8104 8111 1 (-8); run 8120 8121 1 (-8); run 8122 8123 1 (-74);
   run 8124 8124 1 (-9); run 8136 8139 1 (-86); run 8140 8140 1 (-9);
   run 8152 8153 1 (-8); run 8154 8155 1 (-100); run 8168 8169 1 (-8);
   run 8170 8171 1 (-112); run 8172 8172 1 (-7); run 8184 8185 1 (-128);
   run 8186 8187 1 (-126); run 8188 8188 1 (-9); run 8486 8486 1 (-7517);
   run 8490 8490 1 (-8383); run 8491 8491 1 (-8262); run 8498 8498 1 (28);
   run 8544 8559 1 (16); run 8579 8579 1 (1); run 9398 9423 1 (26);
   run 11264 11311 1 (48); run 11360 11360 1 (1); run 11362 11362 1 (-10743);
   run 11363 11363 1 (-3814); run 11364 11364 1 (-10727); run 11367 11371 2 (1);
   run 11373 11373 1 (-10780); run 11374 11374 1 (-10749); run 11375 11375 1 (-10783);
   run 11376 11376 1 (-10782); run 11378 11378 1 (1); run 11381 11381 1 (1);
   run 11390 11391 1 (-10815); run 11392 11490 2 (1); run 11499 11501 2 (1);
   run 11506 11506 1 (1); run 42560 42604 2 (1); run 42624 42650 2 (1);
   run 42786 42798 2 (1); run 42802 42862 2 (1); run 42873 42875 2 (1);
   run 42877 42877 1 (-35332); run 42878 42886 2 (1); run 42891 42891 1 (1);
   run 42893 42893 1 (-42280); run 42896 42898 2 (1); run 42902 42920 2 (1);
   run 42922 42922 1 (-42308); run 42923 42923 1 (-42319); run 42924 42924 1 (-42315);
   run 42925 42925 1 (-42305); run 42926 42926 1 (-42308); run 42928 42928 1 (-42258);
   run 42929 42929 1 (-42282); run 42930 42930 1 (-42261); run 42931 42931 1 (928);
   run 42932 42946 2 (1); run 42948 42948 1 (-48); run 42949 42949 1 (-42307);
   run 42950 42950 1 (-35384); run 42951 42953 2 (1); run 42960 42960 1 (1);
   run 42966 42968 2 (1); run 42997 42997 1 (1); run 65313 65338 1 (32);
   run 66560 66599 1 (40); run 66736 66771 1 (40); run 66928 66964 2 (39);
   run 66929 66937 2 (39); run 66941 66953 2 (39); run 66957 66961 2 (39);
   run 66965 66965 1 (39); run 68736 68786 1 (64); run 71840 71871 1 (32);
   run 93760 93791 1 (32); run 125184 125217 1 (34)
  ].

(** Lowercase mappings to more than one code point. *)
Definition lower_special : list (N * list N) :=
  [
   (304, [105; 775])
  ]%N.

(** Simple uppercase mappings. *)
Definition upper_runs : list case_run :=
  [
   run 97 122 1 (-32); run 181 181 1 (743); run 224 246 1 (-32);
   run 248 254 1 (-32); run 255 255 1 (121); run 257 303 2 (-1);
   run 305 305 1 (-232); run 307 311 2 (-1); run 314 328 2 (-1);
   run 331 375 2 (-1); run 378 382 2 (-1); run 383 383 1 (-300);
   run 384 384 1 (195); run 387 389 2 (-1); run 392 392 1 (-1);
   run 396 396 1 (-1); run 402 402 1 (-1); run 405 405 1 (97);
   run 409 409 1 (-1); run 410 410 1 (163); run 414 414 1 (130);
   run 417 421 2 (-1); run 424 424 1 (-1); run 429 429 1 (-1);
   run 432 432 1 (-1); run 436 438 2 (-1); run 441 441 1 (-1);
   run 445 445 1 (-1); run 447 447 1 (56); run 453 453 1 (-1);
   run 454 454 1 (-2); run 456 456 1 (-1); run 457 457 1 (-2);
   run 459 459 1 (-1); run 460 460 1 (-2); run 462 476 2 (-1);
   run 477 477 1 (-79); run 479 495 2 (-1); run 498 498 1 (-1);
   run 499 499 1 (-2); run 501 501 1 (-1); run 505 543 2 (-1);
   run 547 563 2 (-1); run 572 572 1 (-1); run 575 576 1 (10815);
   run 578 578 1 (-1); run 583 591 2 (-1); run 592 592 1 (10783);
   run 593 593 1 (10780); run 594 594 1 (10782); run 595 595 1 (-210);
   run 596 596 1 (-206); run 598 599 1 (-205); run 601 601 1 (-202);
   run 603 603 1 (-203); run 604 604 1 (42319); run 608 608 1 (-205);
   run 609 609 1 (42315); run 611 611 1 (-207); run 613 613 1 (42280);
   run 614 614 1 (42308); run 616 616 1 (-209); run 617 617 1 (-211);
   run 618 618 1 (42308); run 619 619 1 (10743); run 620 620 1 (42305);
   run 623 623 1 (-211); run 625 625 1 (10749); run 626 626 1 (-213);
   run 629 629 1 (-214); run 637 637 1 (10727); run 640 640 1 (-218);
   run 642 642 1 (42307); run 643 643 1 (-218); run 647 647 1 (42282);
   run 648 648 1 (-218); run 649 649 1 (-69); run 650 651 1 (-217);
   run 652 652 1 (-71); run 658 658 1 (-219); run 669 669 1 (42261);
   run 670 670 1 (42258); run 837 837 1 (84); run 881 883 2 (-1);
   run 887 887 1 (-1); run 891 893 1 (130); run 940 940 1 (-38);
   run 941 943 1 (-37); run 945 961 1 (-32); run 962 962 1 (-31);
   run 963 971 1 (-32); run 972 972 1 (-64); run 973 974 1 (-63);
   run 976 976 1 (-62); run 977 977 1 (-57); run 981 981 1 (-47);
   run 982 982 1 (-54); run 983 983 1 (-8); run 985 1007 2 (-1);
   run 1008 1008 1 (-86); run 1009 1009 1 (-80); run 1010 1010 1 (7);
   run 1011 1011 1 (-116); run 1013 1013 1 (-96); run 1016 1016 1 (-1);
   run 1019 1019 1 (-1); run 1072 1103 1 (-32); run 1104 1119 1 (-80);
   run 1121 1153 2 (-1); run 1163 1215 2 (-1); run 1218 1230 2 (-1);
   run 1231 1231 1 (-15); run 1233 1327 2 (-1); run 1377 1414 1 (-48);
   run 4304 4346 1 (3008); run 4349 4351 1 (3008); run 5112 5117 1 (-8);
   run 7296 7296 1 (-6254); run 7297 7297 1 (-6253); run 7298 7298 1 (-6244);
   run 7299 7300 1 (-6242); run 7301 7301 1 (-6243); run 7302 7302 1 (-6236);
   run 7303 7303 1 (-6181); run 7304 7304 1 (35266); run 7545 7545 1 (35332);
   run 7549 7549 1 (3814); run 7566 7566 1 (35384); run 7681 7829 2 (-1);
   run 7835 7835 1 (-59); run 7841 7935 2 (-1); run 7936 7943 1 (8);
   run 7952 7957 1 (8); run 7968 7975 1 (8); run 7984 7991 1 (8);
   run 8000 8005 1 (8); run 8017 8023 2 (8); run 8032 8039 1 (8);
   run 8048 8049 1 (74); run 8050 8053 1 (86); run 8054 8055 1 (100);
   run 8056 8057 1 (128); run 8058 8059 1 (112); run 8060 8061 1 (126);
   run 8112 8113 1 (8); run 8126 8126 1 (-7205); run 8144 8145 1 (8);
   run 8160 8161 1 (8); run 8165 8165 1 (7); run 8526 8526 1 (-28);
   run 8560 8575 1 (-16); run 8580 8580 1 (-1); run 9424 9449 1 (-26);
   run 11312 11359 1 (-48); run 11361 11361 1 (-1); run 11365 11365 1 (-10795);
   run 11366 11366 1 (-10792); run 11368 11372 2 (-1); run 11379 11379 1 (-1);
   run 11382 11382 1 (-1); run 11393 11491 2 (-1); run 11500 11502 2 (-1);
   run 11507 11507 1 (-1); run 11520 11557 1 (-7264); run 11559 11559 1 (-7264);
   run 11565 11565 1 (-7264); run 42561 42605 2 (-1); run 42625 42651 2 (-1);
   run 42787 42799 2 (-1); run 42803 42863 2 (-1); run 42874 42876 2 (-1);
   run 42879 42887 2 (-1); run 42892 42892 1 (-1); run 42897 42899 2 (-1);
   run 42900 42900 1 (48); run 42903 42921 2 (-1); run 42933 42947 2 (-1);
   run 42952 42954 2 (-1); run 42961 42961 1 (-1); run 42967 42969 2 (-1);
   run 42998 42998 1 (-1); run 43859 43859 1 (-928); run 43888 43967 1 (-38864);
   run 65345 65370 1 (-32); run 66600 66639 1 (-40); run 66776 66811 1 (-40);
   run 66967 67003 2 (-39); run 66968 66976 2 (-39); run 66980 66992 2 (-39);
   run 66996 67000 2 (-39); run 67004 67004 1 (-39); run 68800 68850 1 (-64);
   run 71872 71903 1 (-32); run 93792 93823 1 (-32); run 125218 125251 1 (-34)
  ].

(** Uppercase mappings to more than one code point. *)
Definition upper_special : list (N * list N) :=
  [
   (223, [83; 83]); (329, [700; 78]); (496, [74; 780]); (912, [921; 776; 769]);
   (944, [933; 776; 769]); (1415, [1333; 1362]); (7830, [72; 817]); (7831, [84; 776]);
   (7832, [87; 778]); (7833, [89; 778]); (7834, [65; 702]); (8016, [933; 787]);
   (8018, [933; 787; 768]); (8020, [933; 787; 769]); (8022, [933; 787; 834]); (8064, [7944; 921]);
   (8065, [7945; 921]); (8066, [7946; 921]); (8067, [7947; 921]); (8068, [7948; 921]);
   (8069, [7949; 921]); (8070, [7950; 921]); (8071, [7951; 921]); (8072, [7944; 921]);
   (8073, [7945; 921]); (8074, [7946; 921]); (8075, [7947; 921]); (8076, [7948; 921]);
   (8077, [7949; 921]); (8078, [7950; 921]); (8079, [7951; 921]); (8080, [7976; 921]);
   (8081, [7977; 921]); (8082, [7978; 921]); (8083, [7979; 921]); (8084, [7980; 921]);
   (8085, [7981; 921]); (8086, [7982; 921]); (8087, [7983; 921]); (8088, [7976; 921]);
   (8089, [7977; 921]); (8090, [7978; 921]); (8091, [7979; 921]); (8092, [7980; 921]);
   (8093, [7981; 921]); (8094, [7982; 921]); (8095, [7983; 921]); (8096, [8040; 921]);
   (8097, [8041; 921]); (8098, [8042; 921]); (8099, [8043; 921]); (8100, [8044; 921]);
   (8101, [8045; 921]); (8102, [8046; 921]); (8103, [8047; 921]); (8104, [8040; 921]);
   (8105, [8041; 921]); (8106, [8042; 921]); (8107, [8043; 921]); (8108, [8044; 921]);
   (8109, [8045; 921]); (8110, [8046; 921]); (8111, [8047; 921]); (8114, [8122; 921]);
   (8115, [913; 921]); (8116, [902; 921]); (8118, [913; 834]); (8119, [913; 834; 921]);
   (8124, [913; 921]); (8130, [8138; 921]); (8131, [919; 921]); (8132, [905; 921]);
   (8134, [919; 834]); (8135, [919; 834; 921]); (8140, [919; 921]); (8146, [921; 776; 768]);
   (8147, [921; 776; 769]); (8150, [921; 834]); (8151, [921; 776; 834]); (8162, [933; 776; 768]);
   (8163, [933; 776; 769]); (8164, [929; 787]); (8166, [933; 834]); (8167, [933; 776; 834]);
   (8178, [8186; 921]); (8179, [937; 921]); (8180, [911; 921]); (8182, [937; 834]);
   (8183, [937; 834; 921]); (8188, [937; 921]); (64256, [70; 70]); (64257, [70; 73]);
   (64258, [70; 76]); (64259, [70; 70; 73]); (64260, [70; 70; 76]); (64261, [83; 84]);
   (64262, [83; 84]); (64275, [1348; 1350]); (64276, [1348; 1333]); (64277, [1348; 1339]);
   (64278, [1358; 1350]); (64279, [1348; 1341])
  ]%N.

Definition isspace (c : N) : bool := in_ranges space_ranges c.
Definition isdigit (c : N) : bool := in_ranges digit_ranges c.
Definition isdecimal (c : N) : bool := in_ranges decimal_ranges c.
Definition is_cased (c : N) : bool := in_ranges cased_ranges c.
Definition is_case_ignorable (c : N) : bool := in_ranges case_ignorable_ranges c.

(** The value of a decimal digit, [Py_UNICODE_TODECIMAL]. *)
Definition decimal_value (c : N) : option N :=
  match find (fun r => (fst r <=? c) && (c <=? snd r)) decimal_ranges with
  | Some r => Some ((c - fst r) mod 10)
  | None => None
  end.

Definition tolower_full (c : N) : list N := case_map lower_runs lower_special c.
Definition toupper_full (c : N) : list N := case_map upper_runs upper_special c.

(** The code points of a run, listed. *)
Definition run_members (r : case_run) : list N :=
  map (fun k => run_lo r + N.of_nat k * run_step r)
      (seq 0 (S (N.to_nat ((run_hi r - run_lo r) / run_step r)))).

(** A code point that lower-casing leaves alone wherever it stands: it is
    its own lowercase mapping and is not the capital sigma. *)
Definition is_lower_stable (c : N) : bool :=
  negb (c =? 931)
  && match tolower_full c with
     | [d] => d =? c
     | _ => false
     end.

(** The letters of [NONE] in upper case. *)
Definition is_NOE (c : N) : bool := (c =? 69) || (c =? 78) || (c =? 79).

End Unicode.

(** ** Text operations of [str] *)

Module PyStr.

Import Unicode.
Local Open Scope N_scope.

Definition str : Set := list N.

(** Source literals are ASCII; [lit] reads one as a sequence of code points. *)
Definition lit (s : string) : str := map N_of_ascii (list_ascii_of_string s).

Definition str_eqb (a b : str) : bool :=
  if list_eq_dec N.eq_dec a b then true else false.

Definition len (s : str) : Z := Z.of_nat (List.length s).

(** [s.strip()] *)
Fixpoint lstrip (s : str) : str :=
  match s with
  | [] => []
  | c :: r => if isspace c then lstrip r else s
  end.

Definition rstrip (s : str) : str := rev (lstrip (rev s)).

Definition strip (s : str) : str := rstrip (lstrip s).

(** [s.split(sep)] for a one-character separator: empty fields are kept. *)
Fixpoint split_on (sep : N) (s : str) : list str :=
  match s with
  | [] => [[]]
  | c :: r =>
      if c =? sep then [] :: split_on sep r
      else match split_on sep r with
           | t :: ts => (c :: t) :: ts
           | [] => [[c]]
           end
  end.

(** [s.split()]: fields are the maximal runs of non-space characters.
    [tok] is the field being read, last character first. *)
Fixpoint split_from (tok : str) (s : str) : list str :=
  match s with
  | [] => match tok with [] => [] | _ => [rev tok] end
  | c :: r =>
      if isspace c
      then match tok with [] => split_from [] r | _ => rev tok :: split_from [] r end
      else split_from (c :: tok) r
  end.

Definition split (s : str) : list str := split_from [] s.

(** [sep.join(parts)] *)
Fixpoint join (sep : str) (parts : list str) : str :=
  match parts with
  | [] => []
  | [p] => p
  | p :: ps => p ++ sep ++ join sep ps
  end.

(** [s.isdigit()]: at least one character, all of them digits. *)
Definition str_isdigit (s : str) : bool :=
  match s with
  | [] => false
  | _ => forallb isdigit s
  end.

(** [s.upper()] maps every code point through its full uppercase mapping. *)
Definition upper (s : str) : str := flat_map toupper_full s.

(** [s.lower()].  A capital sigma becomes a final sigma when a cased letter
    precedes it and none follows, case-ignorable characters being skipped
    on both sides ([handle_capital_sigma]); [before] lists the characters
    to the left of the sigma, nearest first. *)
Fixpoint skip_ignorable (s : str) : str :=
  match s with
  | [] => []
  | c :: r => if is_case_ignorable c then skip_ignorable r else s
  end.

Definition handle_capital_sigma (before after : str) : N :=
  match skip_ignorable before with
  | [] => 963
  | c :: _ =>
      if is_cased c then
        match skip_ignorable after with
        | [] => 962
        | c' :: _ => if is_cased c' then 963 else 962
        end
      else 963
  end.

Fixpoint lower_from (before : str) (s : str) : str :=
  match s with
  | [] => []
  | c :: r =>
      (if c =? 931 then [handle_capital_sigma before r] else tolower_full c)
        ++ lower_from (c :: before) r
  end.

Definition lower (s : str) : str := lower_from [] s.

(** [int(s)] in base ten, [None] standing for [ValueError].  The text is
    first brought to ASCII ([_PyUnicode_TransformDecimalAndSpaceToASCII]):
    decimal digits of any script become ['0'..'9'], other spaces become a
    blank, and the first other non-ASCII character ends the text with a
    ['?'].  Then come optional blanks, an optional sign, digits with single
    underscores between them, and optional blanks.  Texts of more than
    [int_max_str_digits] digits are refused. *)
Fixpoint to_ascii_decimal (s : str) : str :=
  match s with
  | [] => []
  | c :: r =>
      if c <? 127 then c :: to_ascii_decimal r
      else if isspace c then 32 :: to_ascii_decimal r
      else match decimal_value c with
           | Some d => (48 + d) :: to_ascii_decimal r
           | None => [63]
           end
  end.

Definition c_isspace (c : N) : bool := ((9 <=? c) && (c <=? 13)) || (c =? 32).

Fixpoint skip_c_space (s : str) : str :=
  match s with
  | [] => []
  | c :: r => if c_isspace c then skip_c_space r else s
  end.

Definition ascii_digit (c : N) : bool := (48 <=? c) && (c <=? 57).

Definition int_max_str_digits : nat := 4300.

(** Reads digits and underscores; returns the value, the number of digits
    and the rest of the text, or [None] at a doubled or trailing
    underscore.  [prev] tells whether the last character was an underscore. *)
Fixpoint scan_digits (acc : Z) (digits : nat) (prev : bool) (s : str)
    : option (Z * nat * str) :=
  match s with
  | [] => if prev then None else Some (acc, digits, [])
  | c :: r =>
      if ascii_digit c
      then scan_digits (10 * acc + Z.of_N (c - 48))%Z (S digits) false r
      else if c =? 95
      then if prev then None else scan_digits acc digits true r
      else if prev then None else Some (acc, digits, s)
  end.

Definition int_of_str (s : str) : option Z :=
  let t := skip_c_space (to_ascii_decimal s) in
  let negative := match t with c :: _ => c =? 45 | [] => false end in
  let t :=
    match t with
    | c :: r => if (c =? 43) || (c =? 45) then r else t
    | [] => t
    end in
  if match t with c :: _ => c =? 95 | [] => false end then None
  else
    match scan_digits 0%Z 0 false t with
    | Some (v, digits, rest) =>
        match digits, skip_c_space rest with
        | O, _ => None
        | _, [] =>
            if Nat.ltb int_max_str_digits digits then None
            else Some (if negative then (- v)%Z else v)
        | _, _ => None
        end
    | None => None
    end.

(** The number written by a text of ASCII digits. *)
Definition digits_value (s : str) : Z :=
  fold_left (fun acc c => (10 * acc + Z.of_N (c - 48))%Z) s 0%Z.

(** [s] is [t] up to the case of ASCII letters, for a [t] of upper-case
    ASCII letters. *)
Fixpoint eq_ascii_nocase (s t : str) : bool :=
  match s, t with
  | [], [] => true
  | c :: s', u :: t' => ((c =? u) || (c =? u + 32)) && eq_ascii_nocase s' t'
  | _, _ => false
  end.

End PyStr.

(** ** Values, exceptions and documents *)

Module Py.

Import PyStr.

(** The exceptions the modelled code can meet.  All of them derive from
    [Exception], so an [except Exception] clause and a bare [except] catch
    every one of them.  [APIError] stands for the errors of the completion
    client, [PyMongoError] for those of the store's driver, the errors of
    its BSON codec included. *)
Inductive exn : Set :=
| HTTPException (status_code : nat) (detail : str)
| AttributeError
| TypeError
| ValueError
| IndexError
| KeyError
| InvalidId
| ValidationError
| APIError (message : str)
| PyMongoError (message : str).

Definition is_http (e : exn) : bool :=
  match e with
  | HTTPException _ _ => true
  | _ => false
  end.

(** The outcome of running a piece of code: a value or a raised exception. *)
Inductive res (A : Type) : Type :=
| Ok (a : A)
| Raise (e : exn).

Arguments Ok {A} a.
Arguments Raise {A} e.

Definition bind {A B : Type} (r : res A) (k : A -> res B) : res B :=
  match r with
  | Ok a => k a
  | Raise e => Raise e
  end.

Declare Scope res_scope.
Delimit Scope res_scope with res.
Notation "x <- r ;; k" := (bind r (fun x => k))
  (at level 61, r at next level, right associativity) : res_scope.

(** [try: body except Exception: handler] *)
Definition try_except {A : Type} (body : res A) (handler : exn -> res A) : res A :=
  match body with
  | Ok a => Ok a
  | Raise e => handler e
  end.

Fixpoint map_res {A B : Type} (f : A -> res B) (l : list A) : res (list B) :=
  match l with
  | [] => Ok []
  | a :: r =>
      match f a with
      | Ok b => match map_res f r with Ok bs => Ok (b :: bs) | Raise e => Raise e end
      | Raise e => Raise e
      end
  end.

(** Dynamically typed values: the fragment of Python and BSON data that
    company and regulation documents are built from (numbers with a
    fraction and dates are left out).  A dictionary keeps its items in
    insertion order. *)
Inductive value : Set :=
| VNone
| VBool (b : bool)
| VInt (n : Z)
| VStr (s : str)
| VObjectId (binary : list N)
| VList (items : list value)
| VDict (fields : list (str * value)).

Definition doc : Set := list (str * value).

Fixpoint value_eqb (a b : value) {struct a} : bool :=
  match a, b with
  | VNone, VNone => true
  | VBool x, VBool y => Bool.eqb x y
  | VInt x, VInt y => Z.eqb x y
  | VStr x, VStr y => str_eqb x y
  | VObjectId x, VObjectId y => str_eqb x y
  | VList xs, VList ys =>
      (fix items_eqb (xs ys : list value) {struct xs} : bool :=
         match xs, ys with
         | [], [] => true
         | x :: xs', y :: ys' => value_eqb x y && items_eqb xs' ys'
         | _, _ => false
         end) xs ys
  | VDict xs, VDict ys =>
      (fix fields_eqb (xs ys : list (str * value)) {struct xs} : bool :=
         match xs, ys with
         | [], [] => true
         | (k, x) :: xs', (k', y) :: ys' =>
             str_eqb k k' && value_eqb x y && fields_eqb xs' ys'
         | _, _ => false
         end) xs ys
  | _, _ => false
  end.

(** Truth value of a value, as tested by [if x] and [not x]. *)
Definition truthy (v : value) : bool :=
  match v with
  | VNone => false
  | VBool b => b
  | VInt n => negb (Z.eqb n 0)
  | VStr s => match s with [] => false | _ => true end
  | VObjectId _ => true
  | VList l => match l with [] => false | _ => true end
  | VDict d => match d with [] => false | _ => true end
  end.

(** *** Dictionaries *)

Fixpoint lookup (k : str) (d : doc) : option value :=
  match d with
  | [] => None
  | (k', v) :: r => if str_eqb k' k then Some v else lookup k r
  end.

(** [d.get(k, default)] *)
Definition get (d : doc) (k : str) (default : value) : value :=
  match lookup k d with
  | Some v => v
  | None => default
  end.

(** [d[k] = v] *)
Fixpoint set_item (d : doc) (k : str) (v : value) : doc :=
  match d with
  | [] => [(k, v)]
  | (k', v') :: r => if str_eqb k' k then (k, v) :: r else (k', v') :: set_item r k v
  end.

(** [x.get(k, default)] on an arbitrary value: only a dictionary has [get]. *)
Definition py_get (x : value) (k : str) (default : value) : res value :=
  match x with
  | VDict d => Ok (get d k default)
  | _ => Raise AttributeError
  end.

(** [x[:n]] *)
Definition slice_to (n : nat) (x : value) : res value :=
  match x with
  | VStr s => Ok (VStr (firstn n s))
  | VList l => Ok (VList (firstn n l))
  | _ => Raise TypeError
  end.

(** The items an iteration over [x] yields. *)
Definition iterate (x : value) : res (list value) :=
  match x with
  | VList l => Ok l
  | VStr s => Ok (map (fun c => VStr [c]) s)
  | VDict d => Ok (map (fun kv => VStr (fst kv)) d)
  | _ => Raise TypeError
  end.

Definition as_str (x : value) : res str :=
  match x with
  | VStr s => Ok s
  | _ => Raise TypeError
  end.

(** [sep.join(x)]: [x] must be iterable and yield only [str]. *)
Definition join_value (sep : str) (x : value) : res str :=
  match iterate x with
  | Ok items =>
      match map_res as_str items with
      | Ok parts => Ok (join sep parts)
      | Raise e => Raise e
      end
  | Raise e => Raise e
  end.

(** [x.lower()] on an arbitrary value: only [str] has [lower] here. *)
Definition lower_value (x : value) : res str :=
  match x with
  | VStr s => Ok (lower s)
  | _ => Raise AttributeError
  end.

(** [xs[i]] for a list and an integer index, negative indices counting
    from the end. *)
Definition list_index {A : Type} (xs : list A) (i : Z) : res A :=
  let n := Z.of_nat (List.length xs) in
  let j := if (i <? 0)%Z then (i + n)%Z else i in
  if (j <? 0)%Z then Raise IndexError
  else match nth_error xs (Z.to_nat j) with
       | Some x => Ok x
       | None => Raise IndexError
       end.

(** *** ObjectId *)

Definition hex_value (c : N) : option N :=
  if ((48 <=? c) && (c <=? 57))%N then Some (c - 48)%N
  else if ((97 <=? c) && (c <=? 102))%N then Some (c - 87)%N
  else if ((65 <=? c) && (c <=? 70))%N then Some (c - 55)%N
  else None.

(** The characters [bytes.fromhex] skips: tab, line feed, vertical tab,
    form feed, carriage return and space. *)
Definition hex_space (c : N) : bool :=
  ((9 <=? c) && (c <=? 13) || (c =? 32))%N.

(** [bytes.fromhex(s)]: pairs of hexadecimal digits, with any run of
    ASCII whitespace skipped before a pair and at the end; [None] stands
    for its [ValueError]. *)
Fixpoint bytes_fromhex (s : str) : option (list N) :=
  match s with
  | [] => Some []
  | h :: r =>
      if hex_space h then bytes_fromhex r
      else
        match r with
        | [] => None
        | l :: r' =>
            match hex_value h, hex_value l, bytes_fromhex r' with
            | Some a, Some b, Some bs => Some ((16 * a + b)%N :: bs)
            | _, _, _ => None
            end
        end
  end.

(** [ObjectId(s)] for a [str], as the identifier type builds it: a text
    of twenty-four characters is converted with [bytes.fromhex], and
    [InvalidId] is raised when its length is another or the conversion
    fails.  Twenty-four hexadecimal digits give twelve bytes; a text with
    whitespace between its pairs of digits gives fewer. *)
Definition ObjectId (s : str) : res value :=
  if Nat.eqb (List.length s) 24 then
    match bytes_fromhex s with
    | Some b => Ok (VObjectId b)
    | None => Raise InvalidId
    end
  else Raise InvalidId.

Definition hex_digit (n : N) : N := (if n <? 10 then 48 + n else 87 + n)%N.

(** [str(oid)] *)
Definition hex_of_bytes (b : list N) : str :=
  flat_map (fun x : N => [hex_digit (x / 16)%N; hex_digit (x mod 16)%N]) b.

(** [serialize_doc]: an [ObjectId] becomes its text, lists and
    dictionaries are rebuilt item by item, anything else is returned as it
    is. *)
Fixpoint serialize_doc (doc : value) : value :=
  match doc with
  | VList items => VList (map serialize_doc items)
  | VDict fields =>
      VDict (map (fun kv : str * value => let (key, v) := kv in (key, serialize_doc v)) fields)
  | VObjectId b => VStr (hex_of_bytes b)
  | _ => doc
  end.

End Py.

(** ** The document store

    The store is a collaborator of the endpoint: a collection is the list
    of its documents in storage order, and queries are evaluated with the
    semantics of the store's query language under its default (binary)
    string comparison.  How a regular expression is matched is left to the
    parameter [regex_search].  The store does not answer every query: it
    may be out of reach, and it refuses a query it cannot parse, as it
    does a [$regex] that is not a regular expression.  The parameter
    [failure] gives, for such a query, the message of the error the driver
    raises. *)

Module Store.

Import PyStr Py.

Inductive cond : Set :=
| QEq (v : value)
| QIn (vs : list value)
| QRegex (pattern options : str)
| QExists (b : bool).

Inductive query : Set :=
| Field (path : str) (c : cond)
| Or (alternatives : list query).

(** The values a dotted path reaches in a document; an array on the way
    is searched in each of its embedded documents. *)
Fixpoint path_values (keys : list str) (v : value) : list value :=
  match keys with
  | [] => [v]
  | k :: rest =>
      match v with
      | VDict d =>
          match lookup k d with
          | Some x => path_values rest x
          | None => []
          end
      | VList items =>
          flat_map (fun e =>
                      match e with
                      | VDict d =>
                          match lookup k d with
                          | Some x => path_values rest x
                          | None => []
                          end
                      | _ => []
                      end) items
      | _ => []
      end
  end.

(** A condition on a field is tested against the field's value and, when
    that value is an array, against each of its elements. *)
Definition operands (found : list value) : list value :=
  flat_map (fun x => x :: match x with VList l => l | _ => [] end) found.

Section Matching.

Variable regex_search : str -> str -> str -> bool.
Variable failure : query -> option str.

Definition cond_holds (c : cond) (found : list value) : bool :=
  match c with
  | QEq v => existsb (value_eqb v) (operands found)
  | QIn vs => existsb (fun x => existsb (value_eqb x) vs) (operands found)
  | QRegex pattern options =>
      existsb (fun x =>
                 match x with
                 | VStr s => regex_search pattern options s
                 | _ => false
                 end) (operands found)
  | QExists b => Bool.eqb b (match found with [] => false | _ => true end)
  end.

Fixpoint matches (q : query) (d : doc) : bool :=
  match q with
  | Field path c => cond_holds c (path_values (split_on 46 path) (VDict d))
  | Or alternatives => existsb (fun q' => matches q' d) alternatives
  end.

(** [collection.find(q).to_list(length=None)]: the documents that match,
    in storage order, or the driver's error. *)
Definition find (q : query) (collection : list doc) : res (list doc) :=
  match failure q with
  | Some message => Raise (PyMongoError message)
  | None => Ok (filter (matches q) collection)
  end.

(** [collection.find_one(q)]: the first match, or [None]. *)
Definition find_one (q : query) (collection : list doc) : res value :=
  (found <- find q collection ;;
   Ok (match found with
       | d :: _ => VDict d
       | [] => VNone
       end))%res.

End Matching.

End Store.

(** ** The completion service

    A prompt is kept as the f-string that builds it: literal text with the
    formatted values in place.  The service is an oracle: given the
    requests made so far and the present one it either raises an error of
    its client library or answers with a list of choices, each carrying an
    optional message content. *)

Module Completion.

Import PyStr Py.

Inductive piece : Set :=
| Text (s : str)
| Fmt (v : value).

Definition prompt : Set := list piece.

Record message : Set := { role : str; content : prompt }.

Record request : Set :=
  { model : str;
    messages : list message;
    temperature : Q;
    max_tokens : nat }.

Inductive outcome : Set :=
| Raises (message : str)
| Response (choices : list (option str)).

(** [response.choices[0].message.content.strip()] up to the call of
    [strip]: an empty list of choices raises [IndexError], a missing
    content [AttributeError]. *)
Definition first_content (choices : list (option str)) : res str :=
  match choices with
  | [] => Raise IndexError
  | None :: _ => Raise AttributeError
  | Some s :: _ => Ok s
  end.

End Completion.

(** ** The application: [app/main.py] *)

Module App.

Import PyStr Py Store Completion.

(** What the endpoint runs against: the two collections, the configured
    deployment name, the completion service, the store's regular-expression
    matcher, the queries each of the two databases does not answer, and
    the order in which the runtime enumerates a set of strings
    ([list(set(xs))]).  *)
Record World : Type :=
  { ecosystem_companies : list doc;
    regulations : list doc;
    AZURE_OPENAI_DEPLOYMENT : str;
    completions_create : list request -> request -> outcome;
    regex_search : str -> str -> str -> bool;
    ecosystem_failure : query -> option str;
    regulations_failure : query -> option str;
    list_of_set : list str -> list str }.

(** What is known of the order of [list(set(xs))]: every element of [xs]
    comes up once. *)
Definition set_order_ok (w : World) : Prop :=
  forall xs : list str,
    NoDup (list_of_set w xs) /\ forall x, In x (list_of_set w xs) <-> In x xs.

(** The values the [tags] condition of a query is tested against: the
    field and, when it is an array, its elements. *)
Definition tags_of (d : doc) : list value :=
  operands (path_values [lit "tags"] (VDict d)).

(** Code that may call the completion service: it runs from the list of
    requests made so far and returns its outcome with the extended list. *)
Definition M (A : Type) : Type := list request -> res A * list request.

Definition ret {A : Type} (a : A) : M A := fun calls => (Ok a, calls).

Definition raise {A : Type} (e : exn) : M A := fun calls => (Raise e, calls).

Definition lift {A : Type} (r : res A) : M A := fun calls => (r, calls).

Definition bindM {A B : Type} (m : M A) (k : A -> M B) : M B :=
  fun calls =>
    match m calls with
    | (Ok a, calls') => k a calls'
    | (Raise e, calls') => (Raise e, calls')
    end.

Definition try_exceptM {A : Type} (body : M A) (handler : exn -> M A) : M A :=
  fun calls =>
    match body calls with
    | (Ok a, calls') => (Ok a, calls')
    | (Raise e, calls') => handler e calls'
    end.

Declare Scope M_scope.
Delimit Scope M_scope with M.
Notation "x <- m ;; k" := (bindM m (fun x => k))
  (at level 61, m at next level, right associativity) : M_scope.

(** Pieces of prompt text. *)
Definition txt (s : string) : piece := Text (lit s).
Definition dq : piece := Text [34%N].

Fixpoint lines (ls : list prompt) : prompt :=
  match ls with
  | [] => []
  | [l] => l
  | l :: r => l ++ Text [10%N] :: lines r
  end.

Section Pipeline.

Variable w : World.

(** [client.chat.completions.create(...)], getting the client and the
    settings included: the request is recorded, and the service's outcome
    is a list of choices or an exception. *)
Definition create (req : request) : M (list (option str)) :=
  fun calls =>
    (match completions_create w calls req with
     | Raises message => Raise (APIError message)
     | Response choices => Ok choices
     end, calls ++ [req]).

(** *** [ai_filter_circulars] *)

Open Scope res_scope.

(** The four lines that describe one circular in the batch prompt. *)
Definition circular_text (idx : nat) (circular : doc) : res prompt :=
  let title := get circular (lit "title") (VStr (lit "N/A")) in
  description_summary <-
    py_get (get circular (lit "description") (VDict [])) (lit "summary")
           (VStr (lit "N/A")) ;;
  summary <- slice_to 200 description_summary ;;
  entities <- slice_to 5 (get circular (lit "affected_entities") (VList [])) ;;
  affected_entities <- join_value (lit ", ") entities ;;
  first_tags <- slice_to 10 (get circular (lit "tags") (VList [])) ;;
  tags <- join_value (lit ", ") first_tags ;;
  Ok (lines
        [ [];
          [Fmt (VInt (Z.of_nat idx + 1)); txt ". Title: "; Fmt title];
          [txt "   Summary: "; Fmt summary; txt "..."];
          [txt "   Affected Entities: "; Fmt (VStr affected_entities)];
          [txt "   Tags: "; Fmt (VStr tags)];
          [] ]).

(** The loop [for idx, circular in enumerate(circulars)]. *)
Fixpoint circulars_text_from (idx : nat) (circulars : list doc) : res prompt :=
  match circulars with
  | [] => Ok []
  | circular :: rest =>
      block <- circular_text idx circular ;;
      blocks <- circulars_text_from (S idx) rest ;;
      Ok (block ++ blocks)
  end.

Definition filter_prompt (company_profile : doc) (circulars_text : prompt)
    : res prompt :=
  let na := VStr (lit "N/A") in
  services <- join_value (lit ", ") (get company_profile (lit "services") (VList [])) ;;
  description <- slice_to 200 (get company_profile (lit "description") na) ;;
  Ok (lines
        [ [txt "You are a Nigerian regulatory compliance expert. Analyze which circulars are relevant to this company."];
          [];
          [txt "Company Profile:"];
          [txt "- Name: "; Fmt (get company_profile (lit "name") na)];
          [txt "- Industry: "; Fmt (get company_profile (lit "industry") na)];
          [txt "- Business Category: ";
           Fmt (get company_profile (lit "businessCategory") na)];
          [txt "- Services: "; Fmt (VStr services)];
          [txt "- Description: "; Fmt description];
          [];
          [txt "Circulars to Analyze:"];
          circulars_text;
          [];
          [txt "Instructions:"];
          [txt "1. Determine which circulars are DIRECTLY relevant to this company's operations"];
          [txt "2. Consider the company's industry, services, and business activities"];
          [txt "3. Return ONLY the numbers of relevant circulars as a comma-separated list (e.g., ";
           dq; txt "1, 3, 5, 7"; dq; txt ")"];
          [txt "4. If none are relevant, return "; dq; txt "NONE"; dq];
          [txt "5. Do not include explanations"];
          [];
          [txt "Response (comma-separated numbers only):"] ]).

Definition filter_request (user_prompt : prompt) : request :=
  {| model := AZURE_OPENAI_DEPLOYMENT w;
     messages :=
       [ {| role := lit "system";
            content := [txt "You are a regulatory compliance expert. Respond only with comma-separated numbers."] |};
         {| role := lit "user"; content := user_prompt |} ];
     temperature := (2 # 10)%Q;
     max_tokens := 200 |}.

(** [[int(num.strip()) - 1 for num in result.split(',') if num.strip().isdigit()]] *)
Definition relevant_indices (result : str) : res (list Z) :=
  map_res (fun num =>
             match int_of_str (strip num) with
             | Some n => Ok (n - 1)%Z
             | None => Raise ValueError
             end)
          (filter (fun num => str_isdigit (strip num)) (split_on 44 result)).

(** [[circulars[idx] for idx in relevant_indices if 0 <= idx < len(circulars)]] *)
Definition pick_circulars (circulars : list doc) (indices : list Z)
    : res (list doc) :=
  map_res (list_index circulars)
          (filter (fun idx => (0 <=? idx)%Z && (idx <? Z.of_nat (List.length circulars))%Z)
                  indices).

(** What the [try] block does with the choices the service answered. *)
Definition read_reply (circulars : list doc) (choices : list (option str))
    : res (list doc) :=
  message_content <- first_content choices ;;
  let result := strip message_content in
  if str_eqb (upper result) (lit "NONE") then Ok []
  else
    indices <- relevant_indices result ;;
    pick_circulars circulars indices.

(** The selection a reply describes, read off the reply text field by
    field: a field that is a number names the candidate at that position,
    counted from one; positions outside the list name nothing. *)
Definition circular_at (circulars : list doc) (idx : Z) : list doc :=
  if (0 <=? idx)%Z && (idx <? Z.of_nat (List.length circulars))%Z
  then match nth_error circulars (Z.to_nat idx) with
       | Some c => [c]
       | None => []
       end
  else [].

Definition reply_selection (circulars : list doc) (result : str) : list doc :=
  flat_map (fun num =>
              if str_isdigit (strip num)
              then match int_of_str (strip num) with
                   | Some n => circular_at circulars (n - 1)
                   | None => []
                   end
              else [])
           (split_on 44 result).

Definition ai_filter_circulars (company_profile : doc) (circulars : list doc)
    : M (list doc) :=
  match circulars with
  | [] => ret []
  | _ =>
      (circulars_text <- lift (circulars_text_from 0 circulars) ;;
       user_prompt <- lift (filter_prompt company_profile circulars_text) ;;
       try_exceptM
         (response <- create (filter_request user_prompt) ;;
          lift (read_reply circulars response))
         (fun _ => ret circulars))%M
  end.

(** *** [suggest_regulators] *)

(** The fixed table of regulator codes and their descriptions. *)
Definition regulators : list (str * str) :=
  [ (lit "CBN", lit "Central Bank of Nigeria - Regulates banks, payment service providers, fintech, and financial institutions");
    (lit "NDPC", lit "Nigeria Data Protection Commission - Regulates data protection and privacy compliance");
    (lit "NDIC", lit "Nigeria Deposit Insurance Corporation - Regulates deposit-taking institutions");
    (lit "SEC", lit "Securities and Exchange Commission - Regulates capital markets, investments, securities");
    (lit "FCCPC", lit "Federal Competition and Consumer Protection Commission - Regulates consumer protection and fair competition");
    (lit "EFCC", lit "Economic and Financial Crimes Commission - Regulates anti-money laundering and financial crimes prevention");
    (lit "NAICOM", lit "National Insurance Commission - Regulates insurance companies and related services") ].

(** [code in regulators] *)
Definition in_regulators (code : str) : bool :=
  existsb (fun entry => str_eqb (fst entry) code) regulators.

Definition suggest_prompt (company_profile : doc) : res prompt :=
  let na := VStr (lit "N/A") in
  services <- join_value (lit ", ") (get company_profile (lit "services") (VList [])) ;;
  Ok (lines
        [ [txt "You are a Nigerian regulatory compliance expert. Based on the company profile below, suggest which regulators are relevant."];
          [];
          [txt "Company Profile:"];
          [txt "- Industry: "; Fmt (get company_profile (lit "industry") na)];
          [txt "- Business Category: ";
           Fmt (get company_profile (lit "businessCategory") na)];
          [txt "- Business Sub-Category: ";
           Fmt (get company_profile (lit "businessSubCategory") na)];
          [txt "- Services: "; Fmt (VStr services)];
          [txt "- Category: "; Fmt (get company_profile (lit "category") na)];
          [txt "- Description: "; Fmt (get company_profile (lit "description") na)];
          [txt "- Country: "; Fmt (get company_profile (lit "country") na)];
          [];
          [txt "Available Regulators:"];
          lines (map (fun entry =>
                        [txt "- "; Text (fst entry); txt ": "; Text (snd entry)])
                     regulators);
          [];
          [txt "Instructions:"];
          [txt "1. Analyze the company's industry, services, and business activities"];
          [txt "2. Suggest ONLY the regulators that are directly relevant to this company"];
          [txt "3. Return ONLY the regulator codes as a comma-separated list (e.g., ";
           dq; txt "CBN, NDPC, FCCPC"; dq; txt ")"];
          [txt "4. Do not include explanations or additional text"];
          [txt "5. If the company operates in Nigeria and handles financial services, CBN is likely relevant"];
          [txt "6. If they handle customer data, NDPC is relevant"];
          [txt "7. If they take deposits, NDIC is relevant"];
          [txt "8. If they deal with securities/investments, SEC is relevant"];
          [txt "9. If they provide insurance, NAICOM is relevant"];
          [];
          [txt "Response (comma-separated regulator codes only):"] ]).

Definition suggest_request (user_prompt : prompt) : request :=
  {| model := AZURE_OPENAI_DEPLOYMENT w;
     messages :=
       [ {| role := lit "system";
            content := [txt "You are a Nigerian regulatory compliance expert. Respond only with comma-separated regulator codes."] |};
         {| role := lit "user"; content := user_prompt |} ];
     temperature := (3 # 10)%Q;
     max_tokens := 100 |}.

(** The codes read from the reply text: split on commas, stripped, and
    kept when they are keys of [regulators]. *)
Definition valid_codes (message_content : str) : list str :=
  let suggested := strip message_content in
  let regulator_codes := map strip (split_on 44 suggested) in
  filter in_regulators regulator_codes.

Definition suggest_regulators (company_profile : doc) : M (list str) :=
  (user_prompt <- lift (suggest_prompt company_profile) ;;
   response <- create (suggest_request user_prompt) ;;
   message_content <- lift (first_content response) ;;
   let codes := valid_codes message_content in
   ret (match codes with [] => [] | _ => codes end))%M.

(** *** [match_circulars_for_company] *)

(** The response model: [company_name] must be a [str] and every circular
    a dictionary, or building the response raises a validation error. *)
Record CircularMatchResponse : Set :=
  { company_name : str;
    total_relevant_circulars : Z;
    circulars : list value }.

Definition is_dict (v : value) : bool :=
  match v with
  | VDict _ => true
  | _ => false
  end.

Definition new_CircularMatchResponse (name : value) (total : Z) (docs : value)
    : res CircularMatchResponse :=
  match name, docs with
  | VStr s, VList items =>
      if forallb is_dict items
      then Ok {| company_name := s;
                 total_relevant_circulars := total;
                 circulars := items |}
      else Raise ValidationError
  | _, _ => Raise ValidationError
  end.

(** [ecosystem_collection.find_one({"_id": v})] *)
Definition find_one_by_id (v : value) : res value :=
  find_one (regex_search w) (ecosystem_failure w) (Field (lit "_id") (QEq v))
           (ecosystem_companies w).

(** The company lookup: by [ObjectId] inside the [try], and by the
    identifier as text in the bare [except], which is entered when
    building the [ObjectId] raises and when the first lookup does. *)
Definition find_company (company_id : str) : res value :=
  try_except
    (oid <- ObjectId company_id ;; find_one_by_id oid)
    (fun _ => find_one_by_id (VStr company_id)).

(** The profile built from the company document. *)
Definition company_profile (ecosystem_data : value) : res doc :=
  name <- py_get ecosystem_data (lit "name") (VStr (lit "Unknown Company")) ;;
  industry <- py_get ecosystem_data (lit "industry") (VStr []) ;;
  businessCategory <- py_get ecosystem_data (lit "businessCategory") (VStr []) ;;
  businessSubCategory <- py_get ecosystem_data (lit "businessSubCategory") (VStr []) ;;
  services <- py_get ecosystem_data (lit "services") (VList []) ;;
  description <- py_get ecosystem_data (lit "description") (VStr []) ;;
  country_doc <- py_get ecosystem_data (lit "country") (VDict []) ;;
  country <- py_get country_doc (lit "name") (VStr (lit "Nigeria")) ;;
  Ok [ (lit "name", name);
       (lit "industry", industry);
       (lit "businessCategory", businessCategory);
       (lit "businessSubCategory", businessSubCategory);
       (lit "services", services);
       (lit "description", description);
       (lit "country", country) ].

(** [company_profile[key]] *)
Definition subscript (d : doc) (key : str) : res value :=
  match lookup key d with
  | Some v => Ok v
  | None => Raise KeyError
  end.

(** The keyword of a profile field that is present and true: its text in
    lower case. *)
Definition field_keywords (profile : doc) (key : str) : res (list str) :=
  if truthy (get profile key VNone)
  then (v <- subscript profile key ;; s <- lower_value v ;; Ok [s])
  else Ok [].

(** The loop over the services: the words of each one, in lower case. *)
Fixpoint service_keywords (services : list value) : res (list str) :=
  match services with
  | [] => Ok []
  | service :: rest =>
      s <- lower_value service ;;
      more <- service_keywords rest ;;
      Ok (split s ++ more)
  end.

Definition search_keywords (profile : doc) : res (list str) :=
  industry <- field_keywords profile (lit "industry") ;;
  category <- field_keywords profile (lit "businessCategory") ;;
  services <- iterate (get profile (lit "services") (VList [])) ;;
  words <- service_keywords services ;;
  Ok (list_of_set w
        (filter (fun kw => (3 <? len kw)%Z) (industry ++ category ++ words))).

Definition mongo_query (suggested_regulators keywords : list str) : query :=
  Or [ Field (lit "regulator.code") (QIn (map VStr suggested_regulators));
       Field (lit "tags") (QIn (map VStr keywords));
       match keywords with
       | [] => Field (lit "affected_entities") (QExists true)
       | _ =>
           Field (lit "affected_entities")
                 (QRegex (join (lit "|") (firstn 5 keywords)) (lit "i"))
       end ].

(** The endpoint, returning the candidates of the first stage next to the
    response. *)
Definition match_circulars (company_id : str)
    : M (list doc * CircularMatchResponse) :=
  (ecosystem_data <- lift (find_company company_id) ;;
   if negb (truthy ecosystem_data)
   then raise (HTTPException 404 (lit "Company not found in ecosystem database"))
   else
     profile <- lift (company_profile ecosystem_data) ;;
     suggested_regulators <- suggest_regulators profile ;;
     let profile :=
       set_item profile (lit "suggested_regulators")
                (VList (map VStr suggested_regulators)) in
     keywords <- lift (search_keywords profile) ;;
     candidate_circulars <-
       lift (find (regex_search w) (regulations_failure w)
                  (mongo_query suggested_regulators keywords) (regulations w)) ;;
     relevant_circulars <-
       (if (0 <? Z.of_nat (List.length candidate_circulars))%Z
        then ai_filter_circulars profile candidate_circulars
        else ret []) ;;
     name <- lift (subscript profile (lit "name")) ;;
     response <-
       lift (new_CircularMatchResponse name
               (Z.of_nat (List.length relevant_circulars))
               (serialize_doc (VList (map VDict relevant_circulars)))) ;;
     ret (candidate_circulars, response))%M.

Definition match_circulars_for_company (company_id : str)
    : M CircularMatchResponse :=
  (run <- match_circulars company_id ;; ret (snd run))%M.

(** The status the HTTP layer answers with. *)
Definition status_code {A : Type} (outcome : res A) : nat :=
  match outcome with
  | Ok _ => 200
  | Raise (HTTPException code _) => code
  | Raise _ => 500
  end.

End Pipeline.

End App.

(** ** Sample worlds

    A small store and scripted completion services, used to run the
    endpoint on concrete requests. *)

Module Sample.

Import PyStr Py Store Completion App.

(** [list(set(xs))] enumerated in order of last occurrence. *)
Definition dedupe (xs : list str) : list str := nodup (list_eq_dec N.eq_dec) xs.

(** A matcher for patterns that are alternatives of plain words: some
    alternative occurs in the text, letter case being ignored when the
    options contain [i]. *)
Fixpoint is_prefix (p s : str) : bool :=
  match p, s with
  | [], _ => true
  | a :: p', b :: s' => (a =? b)%N && is_prefix p' s'
  | _ :: _, [] => false
  end.

Fixpoint occurs (p s : str) : bool :=
  is_prefix p s || match s with [] => false | _ :: s' => occurs p s' end.

Definition word_search (pattern options text : str) : bool :=
  let fold := if existsb (N.eqb 105) options then lower else (fun s => s) in
  existsb (fun alt => occurs (fold alt) (fold text)) (split_on 124 pattern).

Definition company_id : str := lit "65a1b2c3d4e5f60718293a4b".

Definition company_oid : value :=
  match ObjectId company_id with
  | Ok oid => oid
  | Raise _ => VNone
  end.

Definition bank : doc :=
  [ (lit "_id", company_oid);
    (lit "name", VStr (lit "Acme Bank"));
    (lit "industry", VStr (lit "Banking"));
    (lit "services", VList [VStr (lit "Retail Lending")]) ].

Definition circular (n : N) (title : string) (code : string) (tags : list string) : doc :=
  [ (lit "_id", VObjectId [n; 0; 0; 0; 0; 0; 0; 0; 0; 0; 0; 1]%N);
    (lit "title", VStr (lit title));
    (lit "regulator", VDict [(lit "code", VStr (lit code))]);
    (lit "tags", VList (map (fun t => VStr (lit t)) tags)) ].

Definition circular_tagged : doc := circular 1 "Lending limits" "XYZ" ["banking"%string].
Definition circular_cbn : doc := circular 2 "Capital adequacy" "CBN" ["capital"%string].
Definition circular_other : doc := circular 3 "Film licensing" "NFVCB" ["cinema"%string].

(** The service answers the first request with [advisor] and every later
    one with [classifier]. *)
Definition scripted (advisor classifier : outcome) (calls : list request)
    (_ : request) : outcome :=
  match calls with
  | [] => advisor
  | _ => classifier
  end.

(** A store that answers every query. *)
Definition answered (_ : query) : option str := None.

Definition world (companies circulars : list doc) (advisor classifier : outcome)
    : World :=
  {| ecosystem_companies := companies;
     regulations := circulars;
     AZURE_OPENAI_DEPLOYMENT := lit "gpt-4o";
     completions_create := scripted advisor classifier;
     regex_search := word_search;
     ecosystem_failure := answered;
     regulations_failure := answered;
     list_of_set := dedupe |}.

Definition says (reply : string) : outcome := Response [Some (lit reply)].

Definition store : list doc := [circular_tagged; circular_cbn; circular_other].

(** The profile of the bank. *)
Definition bank_profile : doc :=
  match company_profile (VDict bank) with
  | Ok p => p
  | Raise _ => []
  end.

(** The prompt [ai_filter_circulars] builds for a profile and candidates. *)
Definition text_of (circulars : list doc) : prompt :=
  match circulars_text_from 0 circulars with
  | Ok text => text
  | Raise _ => []
  end.

Definition prompt_of (profile : doc) (circulars : list doc) : prompt :=
  match filter_prompt profile (text_of circulars) with
  | Ok p => p
  | Raise _ => []
  end.

(** The prompt [suggest_regulators] builds for a profile. *)
Definition advisor_prompt_of (profile : doc) : prompt :=
  match suggest_prompt profile with
  | Ok p => p
  | Raise _ => []
  end.

(** The requests made before the classifier runs: the advisor's. *)
Definition advisor_call (w : World) : list request :=
  [suggest_request w (advisor_prompt_of bank)].

(** The service is down for the classifier. *)
Definition world_classifier_down : World :=
  world [bank] store (says "CBN") (Raises (lit "connection error")).

(** The service is down for the advisor. *)
Definition world_advisor_down : World :=
  world [bank] store (Raises (lit "connection error")) (says "1").

(** The classifier answers with a superscript two (U+00B2). *)
Definition world_superscript : World :=
  world [bank] store (says "CBN") (Response [Some [178%N]]).

(** The classifier answers with a signed number. *)
Definition world_signed : World :=
  world [bank] store (says "CBN") (says "+1").

(** The advisor names a code that is not in the table. *)
Definition world_unknown_code : World :=
  world [bank] store (says "CBN, FIRS ,ndpc, SEC") (says "1").

(** The company is stored under its identifier as a text. *)
Definition bank_text_key : doc :=
  [ (lit "_id", VStr company_id);
    (lit "name", VStr (lit "Acme Bank"));
    (lit "industry", VStr (lit "Banking")) ].

Definition world_text_key : World :=
  world [bank_text_key] store (says "CBN") (says "1").

(** The company is stored under an identifier of twenty-four characters
    that ends in two spaces. *)
Definition spaced_id : str := lit "65a1b2c3d4e5f60718293a  ".

Definition bank_spaced_key : doc :=
  [ (lit "_id", VStr spaced_id);
    (lit "name", VStr (lit "Acme Bank"));
    (lit "industry", VStr (lit "Banking")) ].

Definition world_spaced_key : World :=
  world [bank_spaced_key] store (says "CBN") (says "1").

(** The store of companies does not answer a lookup by [ObjectId]. *)
Definition no_objectid_lookup (q : query) : option str :=
  match q with
  | Field _ (QEq (VObjectId _)) => Some (lit "connection reset")
  | _ => None
  end.

Definition world_lookup_fails : World :=
  {| ecosystem_companies := [bank_text_key];
     regulations := store;
     AZURE_OPENAI_DEPLOYMENT := lit "gpt-4o";
     completions_create := scripted (says "CBN") (says "1");
     regex_search := word_search;
     ecosystem_failure := no_objectid_lookup;
     regulations_failure := answered;
     list_of_set := dedupe |}.

(** A store that refuses a [$regex] whose parentheses do not balance, as
    the store's expression compiler does. *)
Fixpoint balanced (opened : nat) (pattern : str) : bool :=
  match pattern with
  | [] => Nat.eqb opened 0
  | c :: r =>
      if (c =? 40)%N then balanced (S opened) r
      else if (c =? 41)%N
           then match opened with
                | O => false
                | S n => balanced n r
                end
           else balanced opened r
  end.

Fixpoint unbalanced_refused (q : query) : option str :=
  match q with
  | Field _ (QRegex pattern _) =>
      if balanced 0 pattern then None
      else Some (lit "Regular expression is invalid")
  | Field _ _ => None
  | Or alternatives =>
      (fix first (qs : list query) : option str :=
         match qs with
         | [] => None
         | q' :: rest =>
             match unbalanced_refused q' with
             | Some message => Some message
             | None => first rest
             end
         end) alternatives
  end.

(** A company whose service holds a parenthesis. *)
Definition lender : doc :=
  [ (lit "_id", company_oid);
    (lit "name", VStr (lit "Acme Loans"));
    (lit "industry", VStr (lit "Banking"));
    (lit "services", VList [VStr (lit "Loans (SME")]) ].

Definition lender_profile : doc :=
  match company_profile (VDict lender) with
  | Ok p => p
  | Raise _ => []
  end.

Definition world_lender : World :=
  {| ecosystem_companies := [lender];
     regulations := store;
     AZURE_OPENAI_DEPLOYMENT := lit "gpt-4o";
     completions_create := scripted (says "CBN") (says "1");
     regex_search := word_search;
     ecosystem_failure := answered;
     regulations_failure := unbalanced_refused;
     list_of_set := dedupe |}.

(** No company is stored. *)
Definition world_no_company : World :=
  world [] store (says "CBN") (says "1").

(** The classifier keeps the first candidate. *)
Definition world_first : World :=
  world [bank] store (says "CBN") (says "1").

(** The run of the endpoint in [world_first], its candidates and its
    response. *)
Definition first_run : res (list doc * CircularMatchResponse) * list request :=
  match_circulars world_first company_id [].

Definition first_candidates : list doc :=
  match fst first_run with
  | Ok (candidates, _) => candidates
  | Raise _ => []
  end.

Definition first_response : CircularMatchResponse :=
  match fst first_run with
  | Ok (_, response) => response
  | Raise _ =>
      {| company_name := []; total_relevant_circulars := 0; circulars := [] |}
  end.

End Sample.

(** ** More of [app/main.py]: documents and the suggestion endpoint *)

Module Documents.

Import PyStr Py App.

(** An [ObjectId] occurs somewhere in the value. *)
Fixpoint has_objectid (v : value) : bool :=
  match v with
  | VObjectId _ => true
  | VList items => existsb has_objectid items
  | VDict fields =>
      existsb (fun kv : str * value => let (_, x) := kv in has_objectid x) fields
  | _ => false
  end.

(** Shapes of stored documents: fields that, when present, hold a text,
    a list of texts or a dictionary. *)
Definition is_text (v : value) : bool :=
  match v with
  | VStr _ => true
  | _ => false
  end.

Definition is_texts (v : value) : bool :=
  match v with
  | VList items => forallb is_text items
  | _ => false
  end.

Definition absent_or (shape : value -> bool) (d : doc) (key : string) : bool :=
  match lookup (lit key) d with
  | None => true
  | Some v => shape v
  end.

Definition company_shape (d : doc) : bool :=
  absent_or is_text d "name"
  && absent_or is_text d "industry"
  && absent_or is_text d "businessCategory"
  && absent_or is_texts d "services"
  && absent_or is_text d "description"
  && absent_or is_dict d "country".

Definition circular_shape (c : doc) : bool :=
  absent_or (fun v =>
               match v with
               | VDict description => absent_or is_text description "summary"
               | _ => false
               end) c "description"
  && absent_or is_texts c "affected_entities"
  && absent_or is_texts c "tags".

(** A profile whose fields have these shapes. *)
Definition shaped_profile (name industry category : str) (subcategory : value)
    (services : list str) (description : str) (country : value) : doc :=
  [ (lit "name", VStr name);
    (lit "industry", VStr industry);
    (lit "businessCategory", VStr category);
    (lit "businessSubCategory", subcategory);
    (lit "services", VList (map VStr services));
    (lit "description", VStr description);
    (lit "country", country) ].

End Documents.

Module Suggest.

Import PyStr Py Store Completion App.

(** The response model of the suggestion endpoint. *)
Record RegulatorSuggestionResponse : Set :=
  { company_name : str;
    suggested_regulators : list str }.

Definition new_RegulatorSuggestionResponse (name : value) (suggested : list str)
    : res RegulatorSuggestionResponse :=
  match name with
  | VStr s => Ok {| company_name := s; suggested_regulators := suggested |}
  | _ => Raise ValidationError
  end.

(** The profile this endpoint builds for the advisor: as in the matching
    endpoint, without the name. *)
Definition company_profile (ecosystem_data : value) : res doc :=
  (industry <- py_get ecosystem_data (lit "industry") (VStr []) ;;
   businessCategory <- py_get ecosystem_data (lit "businessCategory") (VStr []) ;;
   businessSubCategory <- py_get ecosystem_data (lit "businessSubCategory") (VStr []) ;;
   services <- py_get ecosystem_data (lit "services") (VList []) ;;
   description <- py_get ecosystem_data (lit "description") (VStr []) ;;
   country_doc <- py_get ecosystem_data (lit "country") (VDict []) ;;
   country <- py_get country_doc (lit "name") (VStr (lit "Nigeria")) ;;
   Ok [ (lit "industry", industry);
        (lit "businessCategory", businessCategory);
        (lit "businessSubCategory", businessSubCategory);
        (lit "services", services);
        (lit "description", description);
        (lit "country", country) ])%res.

Definition suggest_regulators_for_company (w : World) (company_id : str)
    : M RegulatorSuggestionResponse :=
  (ecosystem_data <- lift (find_company w company_id) ;;
   if negb (truthy ecosystem_data)
   then raise (HTTPException 404 (lit "Company not found in ecosystem database"))
   else
     profile <- lift (company_profile ecosystem_data) ;;
     suggested <- suggest_regulators w profile ;;
     name <- lift (py_get ecosystem_data (lit "name")
                          (VStr (lit "Unknown Company"))) ;;
     lift (new_RegulatorSuggestionResponse name suggested))%M.

End Suggest.

(** The two endpoints run one after the other, the suggestion endpoint
    last, against a service that tells the advisor's request from the
    classifier's by its token limit, whatever was asked before. *)

Module SampleRuns.

Import PyStr Py Store Completion App.

Definition by_request (advisor classifier : outcome) (_ : list request)
    (req : request) : outcome :=
  if Nat.eqb (max_tokens req) 100 then advisor else classifier.

Definition world_by_request : World :=
  {| ecosystem_companies := [Sample.bank];
     regulations := Sample.store;
     AZURE_OPENAI_DEPLOYMENT := lit "gpt-4o";
     completions_create := by_request (Sample.says "CBN") (Sample.says "1");
     regex_search := Sample.word_search;
     ecosystem_failure := Sample.answered;
     regulations_failure := Sample.answered;
     list_of_set := Sample.dedupe |}.

Definition matching : res (list doc * CircularMatchResponse) * list request :=
  match_circulars world_by_request Sample.company_id [].

Definition candidates : list doc :=
  match fst matching with
  | Ok (found, _) => found
  | Raise _ => []
  end.

Definition response : CircularMatchResponse :=
  match fst matching with
  | Ok (_, r) => r
  | Raise _ =>
      {| company_name := []; total_relevant_circulars := 0; circulars := [] |}
  end.

Definition suggesting
    : res Suggest.RegulatorSuggestionResponse * list request :=
  Suggest.suggest_regulators_for_company world_by_request Sample.company_id
    (snd matching).

Definition suggestion : Suggest.RegulatorSuggestionResponse :=
  match fst suggesting with
  | Ok s => s
  | Raise _ =>
      {| Suggest.company_name := []; Suggest.suggested_regulators := [] |}
  end.

End SampleRuns.

(** ** More of [app/main.py]: received webhooks *)

Module Webhooks.

Import PyStr Py.

Record PreassessmentWebhookPayload : Set :=
  { organization_id : str;
    preassessment_id : str;
    regulation_id : str }.

(** The decimal text of a count, as an f-string formats it. *)
Fixpoint uint_text (d : Decimal.uint) : str :=
  match d with
  | Decimal.Nil => []
  | Decimal.D0 r => 48%N :: uint_text r
  | Decimal.D1 r => 49%N :: uint_text r
  | Decimal.D2 r => 50%N :: uint_text r
  | Decimal.D3 r => 51%N :: uint_text r
  | Decimal.D4 r => 52%N :: uint_text r
  | Decimal.D5 r => 53%N :: uint_text r
  | Decimal.D6 r => 54%N :: uint_text r
  | Decimal.D7 r => 55%N :: uint_text r
  | Decimal.D8 r => 56%N :: uint_text r
  | Decimal.D9 r => 57%N :: uint_text r
  end.

Definition str_of_nat (n : nat) : str := uint_text (Nat.to_uint n).

Definition payload_fields (payload : PreassessmentWebhookPayload) : doc :=
  [ (lit "organization_id", VStr (organization_id payload));
    (lit "preassessment_id", VStr (preassessment_id payload));
    (lit "regulation_id", VStr (regulation_id payload)) ].

Definition webhook_data (timestamp : str) (payload : PreassessmentWebhookPayload)
    : doc :=
  (lit "timestamp", VStr timestamp) :: payload_fields payload.

(** The three handlers work on the module-level list
    [received_preassessment_webhooks], passed in and returned here;
    [timestamp] and [received_at] are the two readings of the clock. *)
Definition receive_preassessment_webhook (timestamp received_at : str)
    (payload : PreassessmentWebhookPayload) (received : list doc)
    : doc * list doc :=
  ([ (lit "status", VStr (lit "success"));
     (lit "message", VStr (lit "Webhook received successfully"));
     (lit "received_at", VStr received_at);
     (lit "payload", VDict (payload_fields payload)) ],
   received ++ [webhook_data timestamp payload]).

Definition get_received_webhooks (received : list doc) : doc :=
  [ (lit "total_received", VInt (Z.of_nat (List.length received)));
    (lit "webhooks", VList (map VDict received)) ].

Definition clear_received_webhooks (received : list doc) : doc * list doc :=
  let count := List.length received in
  ([ (lit "status", VStr (lit "success"));
     (lit "message", VStr (lit "Cleared " ++ str_of_nat count ++ lit " webhooks")) ],
   []).

(** A call of one of the three handlers, and a sequence of calls run from
    a state of the list: the responses and the final list. *)
Inductive call : Set :=
| Receive (timestamp received_at : str) (payload : PreassessmentWebhookPayload)
| View
| Clear.

Definition handle (c : call) (received : list doc) : doc * list doc :=
  match c with
  | Receive timestamp received_at payload =>
      receive_preassessment_webhook timestamp received_at payload received
  | View => (get_received_webhooks received, received)
  | Clear => clear_received_webhooks received
  end.

Fixpoint run (cs : list call) (received : list doc) : list doc * list doc :=
  match cs with
  | [] => ([], received)
  | c :: rest =>
      let (response, received') := handle c received in
      let (responses, final) := run rest received' in
      (response :: responses, final)
  end.



End Webhooks.

(** ** More of [app/main.py]: tasks for RegComply *)

Module RegComply.

Import PyStr Py.

Record Settings : Set :=
  { REGCOMPLY_WEBHOOK_URL : str;
    REGCOMPLY_WEBHOOK_SECRET : str }.

(** A post of the HTTP client and what comes back: an exception, or a
    response with its status and text. *)
Record post : Set :=
  { url : str;
    json : doc;
    headers : list (str * str);
    timeout : Q }.

Inductive reply : Set :=
| PostRaises
| PostResponse (status_code : Z) (text : str).

Record Hook : Type :=
  { settings : Settings;
    http_post : list post -> post -> reply }.

Definition task_post (h : Hook) (tasks_payload : doc) : post :=
  {| url := REGCOMPLY_WEBHOOK_URL (settings h);
     json := tasks_payload;
     headers :=
       (lit "Content-Type", lit "application/json")
       :: match REGCOMPLY_WEBHOOK_SECRET (settings h) with
          | [] => []
          | secret => [(lit "X-Webhook-Secret", secret)]
          end;
     timeout := (30 # 1)%Q |}.

Definition accepted (r : reply) : bool :=
  match r with
  | PostRaises => false
  | PostResponse status_code _ =>
      existsb (Z.eqb status_code) [200; 201; 202]%Z
  end.

(** [send_tasks_to_regcomply], from the posts made so far to the answer
    and the posts made. *)
Definition send_tasks_to_regcomply (h : Hook) (tasks_payload : doc)
    (posts : list post) : bool * list post :=
  match REGCOMPLY_WEBHOOK_URL (settings h) with
  | [] => (false, posts)
  | _ =>
      (accepted (http_post h posts (task_post h tasks_payload)),
       posts ++ [task_post h tasks_payload])
  end.

(** The loop of the task endpoint that sends the tasks one by one. *)
Fixpoint send_each (h : Hook) (regcomply_tasks : list doc)
    (webhook_success : bool) (posts : list post) : bool * list post :=
  match regcomply_tasks with
  | [] => (webhook_success, posts)
  | task_payload :: rest =>
      let (success, posts') := send_tasks_to_regcomply h task_payload posts in
      send_each h rest (if success then true else webhook_success) posts'
  end.

Definition send_all (h : Hook) (regcomply_tasks : list doc) (posts : list post)
    : bool * list post :=
  match regcomply_tasks with
  | [] => (false, posts)
  | _ => send_each h regcomply_tasks false posts
  end.

(** Equality of values as [==] decides it: [True] and [False] are the
    numbers one and zero, dictionaries are compared as mappings. *)
Definition as_number (v : value) : option Z :=
  match v with
  | VBool b => Some (if b then 1 else 0)%Z
  | VInt n => Some n
  | _ => None
  end.

Fixpoint py_eqb (a b : value) {struct a} : bool :=
  match a, b with
  | VNone, VNone => true
  | VBool x, _ =>
      match as_number b with
      | Some n => Z.eqb (if x then 1 else 0) n
      | None => false
      end
  | VInt x, _ =>
      match as_number b with
      | Some n => Z.eqb x n
      | None => false
      end
  | VStr x, VStr y => str_eqb x y
  | VObjectId x, VObjectId y => str_eqb x y
  | VList xs, VList ys =>
      (fix items_eqb (xs ys : list value) {struct xs} : bool :=
         match xs, ys with
         | [], [] => true
         | x :: xs', y :: ys' => py_eqb x y && items_eqb xs' ys'
         | _, _ => false
         end) xs ys
  | VDict xs, VDict ys =>
      Nat.eqb (List.length xs) (List.length ys)
      && (fix fields_eqb (xs : list (str * value)) {struct xs} : bool :=
            match xs with
            | [] => true
            | (k, x) :: xs' =>
                match lookup k ys with
                | Some y => py_eqb x y
                | None => false
                end && fields_eqb xs'
            end) xs
  | _, _ => false
  end.

(** [x in xs] *)
Definition py_in (x : value) (xs : list value) : bool :=
  existsb (fun el => py_eqb el x) xs.

(** The standards of a regulation: the [standard_name] of every mapped
    standard of every obligation, gathered in one list by the two loops. *)
Fixpoint add_standards (mapped_standards : list value) (standards : list value)
    : res (list value) :=
  match mapped_standards with
  | [] => Ok standards
  | standard :: rest =>
      (standard_name <- py_get standard (lit "standard_name") (VStr []) ;;
       add_standards rest
         (if truthy standard_name && negb (py_in standard_name standards)
          then standards ++ [standard_name]
          else standards))%res
  end.

Fixpoint add_obligations (obligations : list value) (standards : list value)
    : res (list value) :=
  match obligations with
  | [] => Ok standards
  | obligation :: rest =>
      (mapped <- py_get obligation (lit "mapped_standards") (VList []) ;;
       mapped_standards <- iterate mapped ;;
       standards' <- add_standards mapped_standards standards ;;
       add_obligations rest standards')%res
  end.

Definition standards (regulation : doc) : res (list value) :=
  (obligations <- iterate (get regulation (lit "obligations") (VList [])) ;;
   add_obligations obligations [])%res.

(** A regulation with two obligations that share a standard. *)
Definition regulation_with_standards : doc :=
  [(lit "title", VStr (lit "Cybersecurity framework"));
   (lit "obligations",
    VList
      [VDict
         [(lit "mapped_standards",
           VList
             [VDict [(lit "standard_name", VStr (lit "ISO 27001"))];
              VDict [(lit "standard_name", VStr (lit "NIST CSF"))];
              VDict [(lit "control", VStr (lit "A.5"))]])];
       VDict [(lit "text", VStr (lit "Report incidents"))];
       VDict
         [(lit "mapped_standards",
           VList
             [VDict [(lit "standard_name", VStr (lit "NIST CSF"))];
              VDict [(lit "standard_name", VStr (lit "PCI DSS"))];
              VDict [(lit "standard_name", VStr [])]])]])].

Definition obligations_with_standards : list value :=
  match iterate (get regulation_with_standards (lit "obligations") (VList [])) with
  | Ok obligations => obligations
  | Raise _ => []
  end.

(** A list of truthy values, no two of them equal under [==]. *)
Definition standards_distinct (l : list value) : Prop :=
  Forall (fun v => truthy v = true) l
  /\ ForallOrdPairs (fun a b => py_eqb a b = false) l.

(** The names a list of mapped standards offers. *)
Definition offers (mapped : list value) (name : value) : Prop :=
  exists standard,
    In (VDict standard) mapped
    /\ lookup (lit "standard_name") standard = Some name.

(** The names the obligations offer: those of the mapped standards of
    any of them. *)
Definition obligations_offer (obligations : list value) (name : value) : Prop :=
  exists obligation mapped,
    In (VDict obligation) obligations
    /\ iterate (get obligation (lit "mapped_standards") (VList [])) = Ok mapped
    /\ offers mapped name.

End RegComply.

(** The requests [calls'] are the requests [calls] followed by at most
    [n] requests to the configured deployment. *)
Definition extends (w : App.World) (n : nat)
    (calls calls' : list Completion.request) : Prop :=
  exists new,
    calls' = calls ++ new
    /\ (List.length new <= n)%nat
    /\ forall req, In req new -> Completion.model req = App.AZURE_OPENAI_DEPLOYMENT w.

(** * Properties *)

Import PyStr Py Store Completion App.

(** ** Running code in [M] *)

Lemma bindM_ok {A B : Type} (m : M A) (k : A -> M B) calls a calls' :
  m calls = (Ok a, calls') -> bindM m k calls = k a calls'.
Proof. intros H. unfold bindM. rewrite H. reflexivity. Qed.

Lemma bindM_raise {A B : Type} (m : M A) (k : A -> M B) calls e calls' :
  m calls = (Raise e, calls') -> bindM m k calls = (Raise e, calls').
Proof. intros H. unfold bindM. rewrite H. reflexivity. Qed.

Lemma bindM_lift_ok {A B : Type} (r : res A) (k : A -> M B) calls a :
  r = Ok a -> bindM (lift r) k calls = k a calls.
Proof. intros ->. reflexivity. Qed.

Lemma bind_ok_inv {A B : Type} (r : res A) (k : A -> res B) b :
  bind r k = Ok b -> exists a, r = Ok a /\ k a = Ok b.
Proof. destruct r as [a|e]; simpl; intros H; [eauto | discriminate]. Qed.

Lemma bindM_ok_inv {A B : Type} (m : M A) (k : A -> M B) calls b calls'' :
  bindM m k calls = (Ok b, calls'') ->
  exists a calls', m calls = (Ok a, calls') /\ k a calls' = (Ok b, calls'').
Proof.
  unfold bindM. destruct (m calls) as [[a|e] calls'] eqn:E; intros H.
  - eauto.
  - discriminate.
Qed.

Lemma lift_inv {A : Type} (r x : res A) calls calls' :
  lift r calls = (x, calls') -> r = x /\ calls' = calls.
Proof. unfold lift. intros H. injection H as -> ->. auto. Qed.

Lemma ret_inv {A : Type} (a : A) x calls calls' :
  ret a calls = (x, calls') -> x = Ok a /\ calls' = calls.
Proof. unfold ret. intros H. injection H as <- <-. auto. Qed.

Lemma map_res_ok_inv {A B : Type} (f : A -> res B) (l : list A) (bs : list B) :
  map_res f l = Ok bs -> Forall2 (fun a b => f a = Ok b) l bs.
Proof.
  revert bs. induction l as [|a l IH]; simpl; intros bs H.
  - injection H as <-. constructor.
  - destruct (f a) as [b|e] eqn:Ea; [|discriminate].
    destruct (map_res f l) as [bs'|e]; [|discriminate].
    injection H as <-. constructor; auto.
Qed.

Lemma str_eqb_eq (a b : str) : str_eqb a b = true <-> a = b.
Proof.
  unfold str_eqb. destruct (list_eq_dec N.eq_dec a b); split; congruence.
Qed.

(** ** Letter case

    Every code point that [str.lower] puts out is left alone by a second
    lower-casing, so the text [s.lower()] and each of its words are fixed
    by [lower]; and the only texts [str.upper] takes to [NONE] are its
    sixteen ASCII spellings. *)

Module CaseFacts.

Import Unicode.
Local Open Scope N_scope.

Lemma in_run_members (c : N) (r : case_run) :
  run_step r <> 0 -> in_run c r = true -> In c (run_members r).
Proof.
  intros Hstep H. unfold in_run in H.
  apply andb_prop in H as [H Hmod]. apply andb_prop in H as [Hlo Hhi].
  apply N.leb_le in Hlo, Hhi. apply N.eqb_eq in Hmod.
  unfold run_members. apply in_map_iff.
  exists (N.to_nat ((c - run_lo r) / run_step r)). split.
  - rewrite N2Nat.id.
    pose proof (N.div_mod (c - run_lo r) (run_step r) Hstep) as Hdm.
    rewrite Hmod, N.add_0_r in Hdm.
    assert (Hq : (c - run_lo r) / run_step r * run_step r = c - run_lo r)
      by (rewrite N.mul_comm; symmetry; exact Hdm).
    rewrite Hq. lia.
  - assert (Hle : (c - run_lo r) / run_step r <= (run_hi r - run_lo r) / run_step r)
      by (apply N.Div0.div_le_mono; lia).
    revert Hle.
    generalize ((c - run_lo r) / run_step r), ((run_hi r - run_lo r) / run_step r).
    intros q q' Hle. apply in_seq. lia.
Qed.

Lemma lower_runs_checked :
  forallb (fun r => negb (run_step r =? 0)
                    && forallb (fun c => is_lower_stable (apply_run c r))
                               (run_members r)) lower_runs = true.
Proof. vm_compute. reflexivity. Qed.

Lemma lower_special_checked :
  forallb (fun e : N * list N => forallb is_lower_stable (snd e)) lower_special
  = true.
Proof. vm_compute. reflexivity. Qed.

Lemma tolower_full_stable (c : N) :
  c <> 931 -> forallb is_lower_stable (tolower_full c) = true.
Proof.
  intros Hc.
  destruct (List.find (fun e => fst e =? c) lower_special) as [e|] eqn:Es.
  - assert (Heq : tolower_full c = snd e)
      by (unfold tolower_full, case_map; rewrite Es; reflexivity).
    rewrite Heq. apply find_some in Es as [Hin _].
    pose proof lower_special_checked as Hall.
    rewrite forallb_forall in Hall. exact (Hall e Hin).
  - destruct (List.find (in_run c) lower_runs) as [r|] eqn:Er.
    + assert (Heq : tolower_full c = [apply_run c r])
        by (unfold tolower_full, case_map; rewrite Es, Er; reflexivity).
      rewrite Heq. apply find_some in Er as [Hin Hrun].
      pose proof lower_runs_checked as Hall.
      rewrite forallb_forall in Hall. specialize (Hall r Hin).
      apply andb_prop in Hall as [Hstep Hall].
      apply negb_true_iff, N.eqb_neq in Hstep.
      rewrite forallb_forall in Hall.
      simpl. rewrite (Hall c (in_run_members c r Hstep Hrun)). reflexivity.
    + assert (Heq : tolower_full c = [c])
        by (unfold tolower_full, case_map; rewrite Es, Er; reflexivity).
      rewrite Heq. simpl. unfold is_lower_stable. rewrite Heq.
      apply N.eqb_neq in Hc. rewrite Hc, N.eqb_refl. reflexivity.
Qed.

Import PyStr.

Lemma handle_capital_sigma_cases before after :
  handle_capital_sigma before after = 962
  \/ handle_capital_sigma before after = 963.
Proof.
  unfold handle_capital_sigma.
  destruct (skip_ignorable before) as [|c ?]; [auto|].
  destruct (is_cased c); [|auto].
  destruct (skip_ignorable after) as [|c' ?]; [auto|].
  destruct (is_cased c'); auto.
Qed.

Lemma lower_from_stable (s : str) : forall before,
  forallb is_lower_stable (lower_from before s) = true.
Proof.
  induction s as [|c r IH]; intros before; [reflexivity|].
  simpl. rewrite forallb_app, IH, andb_true_r.
  destruct (c =? 931) eqn:Ec.
  - destruct (handle_capital_sigma_cases before r) as [-> | ->];
      vm_compute; reflexivity.
  - apply tolower_full_stable. apply N.eqb_neq. exact Ec.
Qed.

Lemma lower_stable (s : str) : forallb is_lower_stable (lower s) = true.
Proof. apply lower_from_stable. Qed.

Lemma lower_from_fixed (s : str) : forall before,
  forallb is_lower_stable s = true -> lower_from before s = s.
Proof.
  induction s as [|c r IH]; intros before H; [reflexivity|].
  simpl in H. apply andb_prop in H as [Hc Hr].
  unfold is_lower_stable in Hc. apply andb_prop in Hc as [Hsigma Hmap].
  apply negb_true_iff in Hsigma. simpl. rewrite Hsigma.
  destruct (tolower_full c) as [|d [|]]; try discriminate.
  apply N.eqb_eq in Hmap. subst d. simpl. rewrite (IH _ Hr). reflexivity.
Qed.

(** A text made of stable code points is its own lower case. *)
Lemma lower_fixed (s : str) :
  forallb is_lower_stable s = true -> lower s = s.
Proof. apply lower_from_fixed. Qed.

Lemma forallb_rev_true (P : N -> bool) (l : list N) :
  forallb P l = true -> forallb P (rev l) = true.
Proof.
  rewrite !forallb_forall. intros H x Hin. apply H, in_rev. exact Hin.
Qed.

(** The words of a text are made of code points of the text. *)
Lemma split_from_forallb (P : N -> bool) (s : str) : forall tok,
  forallb P tok = true -> forallb P s = true ->
  forallb (forallb P) (split_from tok s) = true.
Proof.
  induction s as [|c r IH]; intros tok Htok Hs.
  - destruct tok as [|t tok']; [reflexivity|].
    cbn [split_from forallb].
    rewrite (forallb_rev_true P (t :: tok') Htok). reflexivity.
  - cbn [forallb] in Hs. apply andb_prop in Hs as [Hc Hr].
    cbn [split_from]. destruct (isspace c).
    + destruct tok as [|t tok']; [apply IH; auto|].
      cbn [forallb].
      rewrite (forallb_rev_true P (t :: tok') Htok), (IH [] eq_refl Hr).
      reflexivity.
    + apply IH; [cbn [forallb]; rewrite Hc, Htok; reflexivity | exact Hr].
Qed.

Lemma split_forallb (P : N -> bool) (s : str) :
  forallb P s = true -> forallb (forallb P) (split s) = true.
Proof. apply split_from_forallb. reflexivity. Qed.

Lemma upper_runs_checked :
  forallb (fun r => negb (run_step r =? 0)
                    && forallb (fun c => negb (is_NOE (apply_run c r))
                                         || (c =? apply_run c r + 32))
                               (run_members r)) upper_runs = true.
Proof. vm_compute. reflexivity. Qed.

Lemma upper_special_checked :
  forallb (fun e : N * list N =>
             match snd e with
             | [] => false
             | u :: _ => negb (is_NOE u)
             end) upper_special = true.
Proof. vm_compute. reflexivity. Qed.

(** The uppercase mapping of a code point is never empty, and it starts
    with one of [N], [O], [E] only for that letter itself and its small
    form. *)
Lemma toupper_full_NOE (c : N) :
  exists u rest,
    toupper_full c = u :: rest
    /\ (is_NOE u = true -> rest = [] /\ (c = u \/ c = u + 32)).
Proof.
  destruct (List.find (fun e => fst e =? c) upper_special) as [e|] eqn:Es.
  - assert (Heq : toupper_full c = snd e)
      by (unfold toupper_full, case_map; rewrite Es; reflexivity).
    rewrite Heq. apply find_some in Es as [Hin _].
    pose proof upper_special_checked as Hall.
    rewrite forallb_forall in Hall. specialize (Hall e Hin).
    destruct (snd e) as [|u rest]; [discriminate|].
    exists u, rest. split; [reflexivity|].
    intros Hu. rewrite Hu in Hall. discriminate.
  - destruct (List.find (in_run c) upper_runs) as [r|] eqn:Er.
    + assert (Heq : toupper_full c = [apply_run c r])
        by (unfold toupper_full, case_map; rewrite Es, Er; reflexivity).
      rewrite Heq. apply find_some in Er as [Hin Hrun].
      pose proof upper_runs_checked as Hall.
      rewrite forallb_forall in Hall. specialize (Hall r Hin).
      apply andb_prop in Hall as [Hstep Hall].
      apply negb_true_iff, N.eqb_neq in Hstep.
      rewrite forallb_forall in Hall.
      specialize (Hall c (in_run_members c r Hstep Hrun)).
      exists (apply_run c r), []. split; [reflexivity|].
      intros Hu. rewrite Hu in Hall. simpl in Hall.
      apply N.eqb_eq in Hall. auto.
    + assert (Heq : toupper_full c = [c])
        by (unfold toupper_full, case_map; rewrite Es, Er; reflexivity).
      rewrite Heq. exists c, []. auto.
Qed.

Lemma toupper_full_ascii (u : N) :
  is_NOE u = true -> toupper_full u = [u] /\ toupper_full (u + 32) = [u].
Proof.
  unfold is_NOE. intros H.
  apply orb_prop in H as [H|H]; [apply orb_prop in H as [H|H]|];
    apply N.eqb_eq in H; subst u; split; vm_compute; reflexivity.
Qed.

(** [upper] takes a text to a text of the letters [N], [O], [E] exactly
    when the two agree up to the case of ASCII letters. *)
Lemma upper_NOE (t : str) : forall s,
  forallb is_NOE t = true ->
  (upper s = t <-> eq_ascii_nocase s t = true).
Proof.
  induction t as [|u t IH]; intros s Ht.
  - destruct s as [|c s]; [split; reflexivity|].
    split; [|discriminate]. unfold upper. cbn [flat_map].
    destruct (toupper_full_NOE c) as (x & rest & -> & _). discriminate.
  - cbn [forallb] in Ht. apply andb_prop in Ht as [Hu Ht].
    destruct s as [|c s]; [split; discriminate|].
    unfold upper. cbn [flat_map eq_ascii_nocase].
    fold (upper s). split.
    + destruct (toupper_full_NOE c) as (x & rest & Heq & Hx).
      rewrite Heq. intros H. injection H as -> H.
      destruct (Hx Hu) as [-> Hc]. cbn [app] in H.
      apply (IH s Ht) in H. rewrite H, andb_true_r.
      destruct Hc as [-> | ->]; rewrite N.eqb_refl;
        [reflexivity | apply orb_true_r].
    + intros H. apply andb_prop in H as [Hc Hs].
      apply (IH s Ht) in Hs. rewrite Hs.
      destruct (toupper_full_ascii u Hu) as [H1 H2].
      apply orb_prop in Hc as [Hc|Hc]; apply N.eqb_eq in Hc; subst c;
        [rewrite H1 | rewrite H2]; reflexivity.
Qed.

Lemma upper_NONE (s : str) :
  upper s = lit "NONE" <-> eq_ascii_nocase s (lit "NONE") = true.
Proof. apply upper_NOE. reflexivity. Qed.

End CaseFacts.

(** ** The classifier *)

(** C9. With no candidates [ai_filter_circulars] returns the empty list at
    once: the list of requests made to the completion service is left as
    it was. *)
Theorem ai_filter_circulars_empty :
  forall (w : World) (profile : doc) (calls : list request),
    ai_filter_circulars w profile [] calls = (Ok [], calls).
Proof. reflexivity. Qed.

(** In the endpoint an empty candidate list means the classifier is not
    called at all: the response is empty and the only request made is the
    advisor's. *)
Lemma match_circulars_no_candidates :
  forall (w : World) (id : str) (calls calls' : list request)
         (response : CircularMatchResponse),
    match_circulars w id calls = (Ok ([], response), calls') ->
    circulars response = [] /\ total_relevant_circulars response = 0%Z /\
    exists req, calls' = calls ++ [req].
Proof.
  intros w id calls calls' response. unfold match_circulars.
  intros H.
  apply bindM_ok_inv in H as (ecosystem_data & c0 & Hfound & H).
  apply lift_inv in Hfound as [Hfound ->].
  destruct (negb (truthy ecosystem_data)); [discriminate|].
  apply bindM_ok_inv in H as (profile & c1 & H1 & H).
  apply lift_inv in H1 as [H1 ->].
  apply bindM_ok_inv in H as (suggested & c2 & H2 & H).
  apply bindM_ok_inv in H as (keywords & c3 & H3 & H).
  apply lift_inv in H3 as [H3 ->].
  apply bindM_ok_inv in H as (candidates & c9 & Hcands & H).
  apply lift_inv in Hcands as [Hcands ->].
  destruct candidates as [|d cands].
  - simpl in H.
    apply bindM_ok_inv in H as (rel & c0 & H0 & H).
    apply ret_inv in H0 as [H0 ->]. injection H0 as ->.
    apply bindM_ok_inv in H as (name & c4 & H4 & H).
    apply lift_inv in H4 as [H4 ->].
    apply bindM_ok_inv in H as (resp & c5 & H5 & H).
    apply lift_inv in H5 as [H5 ->].
    apply ret_inv in H as [H ->]. injection H as <-.
    unfold new_CircularMatchResponse in H5. destruct name; try discriminate.
    simpl in H5. injection H5 as <-. simpl.
    repeat split.
    unfold suggest_regulators in H2.
    apply bindM_ok_inv in H2 as (p & c6 & H6 & H2).
    apply lift_inv in H6 as [H6 ->].
    apply bindM_ok_inv in H2 as (choices & c7 & H7 & H2).
    unfold create in H7. injection H7 as H7 <-.
    apply bindM_ok_inv in H2 as (content & c8 & H8 & H2).
    apply lift_inv in H8 as [H8 ->].
    apply ret_inv in H2 as [_ ->]. eauto.
  - apply bindM_ok_inv in H as (rel & c4 & H4 & H).
    apply bindM_ok_inv in H as (name & c5 & H5 & H).
    apply bindM_ok_inv in H as (resp & c6 & H6 & H).
    apply ret_inv in H as [H _]. discriminate.
Qed.

(** C1. When the candidates are not empty and the prompt has been built,
    an exception raised by the completion call, or raised while the reply
    is read and parsed, is caught: the result is the list of candidates
    that was passed in, and the exception does not leave the function. *)
Theorem ai_filter_circulars_fails_open :
  forall (w : World) (profile : doc) (circulars : list doc)
         (calls : list request) (text user_prompt : prompt),
    circulars <> [] ->
    circulars_text_from 0 circulars = Ok text ->
    filter_prompt profile text = Ok user_prompt ->
    ((exists message,
        completions_create w calls (filter_request w user_prompt) = Raises message)
     \/
     (exists choices e,
        completions_create w calls (filter_request w user_prompt) = Response choices
        /\ read_reply circulars choices = Raise e)) ->
    ai_filter_circulars w profile circulars calls
    = (Ok circulars, calls ++ [filter_request w user_prompt]).
Proof.
  intros w profile circulars calls text user_prompt Hne Htext Hprompt Hfail.
  unfold ai_filter_circulars.
  destruct circulars as [|c cs]; [congruence|].
  rewrite (bindM_lift_ok _ _ _ _ Htext), (bindM_lift_ok _ _ _ _ Hprompt).
  unfold try_exceptM, bindM, create, lift, ret.
  destruct Hfail as [[message Hc] | (choices & e & Hc & Hr)]; rewrite Hc.
  - reflexivity.
  - rewrite Hr. reflexivity.
Qed.

Lemma ai_filter_circulars_fails_open_witness :
  ai_filter_circulars Sample.world_classifier_down Sample.bank Sample.store
    (Sample.advisor_call Sample.world_classifier_down)
  = (Ok Sample.store,
     Sample.advisor_call Sample.world_classifier_down
       ++ [filter_request Sample.world_classifier_down
             (Sample.prompt_of Sample.bank Sample.store)]).
Proof.
  apply (ai_filter_circulars_fails_open Sample.world_classifier_down Sample.bank
           Sample.store (Sample.advisor_call Sample.world_classifier_down)
           (Sample.text_of Sample.store)
           (Sample.prompt_of Sample.bank Sample.store)).
  - discriminate.
  - reflexivity.
  - reflexivity.
  - left. exists (lit "connection error"). reflexivity.
Defined.

Lemma list_index_in_range {A : Type} (xs : list A) (i : Z) :
  (0 <=? i)%Z && (i <? Z.of_nat (List.length xs))%Z = true ->
  exists x, nth_error xs (Z.to_nat i) = Some x /\ list_index xs i = Ok x.
Proof.
  intros H. apply andb_prop in H as [Hlo Hhi].
  apply Z.leb_le in Hlo. apply Z.ltb_lt in Hhi.
  destruct (nth_error xs (Z.to_nat i)) as [x|] eqn:E.
  - exists x. split; [reflexivity|]. unfold list_index.
    destruct (i <? 0)%Z eqn:Ei; [apply Z.ltb_lt in Ei; lia|].
    rewrite Ei, E. reflexivity.
  - apply nth_error_None in E. lia.
Qed.

(** Picking by index never raises: the indices are checked first. *)
Lemma pick_circulars_selection (circulars : list doc) (indices : list Z) :
  pick_circulars circulars indices = Ok (flat_map (circular_at circulars) indices).
Proof.
  unfold pick_circulars.
  induction indices as [|i r IH]; [reflexivity|].
  cbn [filter flat_map]. unfold circular_at at 1.
  destruct ((0 <=? i)%Z && (i <? Z.of_nat (List.length circulars))%Z) eqn:E.
  - destruct (list_index_in_range circulars i E) as (x & Hn & Hx).
    cbn [map_res]. rewrite Hx, IH, Hn. reflexivity.
  - exact IH.
Qed.

(** When the stripped reply is [NONE] in any letter case, nothing is
    selected. *)
Lemma read_reply_none (circulars : list doc) (reply : str)
    (others : list (option str)) :
  eq_ascii_nocase (strip reply) (lit "NONE") = true ->
  read_reply circulars (Some reply :: others) = Ok [].
Proof.
  intros H. apply CaseFacts.upper_NONE in H.
  unfold read_reply. cbn [first_content bind].
  rewrite H. reflexivity.
Qed.

(** When every field that passes the digit test converts to an integer,
    the result is the selection the reply describes. *)
Lemma read_reply_selection (circulars : list doc) (reply : str)
    (others : list (option str)) :
  eq_ascii_nocase (strip reply) (lit "NONE") = false ->
  (forall num, In num (split_on 44 (strip reply)) ->
     str_isdigit (strip num) = true -> int_of_str (strip num) <> None) ->
  read_reply circulars (Some reply :: others)
  = Ok (reply_selection circulars (strip reply)).
Proof.
  intros Hnone Hconv. unfold read_reply. cbn [first_content bind].
  destruct (str_eqb (upper (strip reply)) (lit "NONE")) eqn:E.
  { apply str_eqb_eq, CaseFacts.upper_NONE in E. congruence. }
  unfold relevant_indices, reply_selection.
  induction (split_on 44 (strip reply)) as [|num r IH]; [reflexivity|].
  cbn [filter flat_map].
  assert (Hr : forall num', In num' r ->
            str_isdigit (strip num') = true -> int_of_str (strip num') <> None)
    by (intros num' Hin; apply Hconv; right; exact Hin).
  specialize (IH Hr).
  destruct (str_isdigit (strip num)) eqn:Ed; [|exact IH].
  destruct (int_of_str (strip num)) as [n|] eqn:En;
    [|exfalso; exact (Hconv num (or_introl eq_refl) Ed En)].
  cbn [map_res]. rewrite En.
  destruct (map_res _ (filter _ r)) as [indices|e] eqn:Em;
    [|discriminate IH].
  cbn [bind] in IH |- *.
  rewrite pick_circulars_selection in IH |- *.
  injection IH as IH. cbn [flat_map]. rewrite IH. reflexivity.
Qed.

(** C2. When the candidates are not empty and the service answers with a
    reply text, every field of which passes the digit test only if it
    converts to an integer, [ai_filter_circulars] returns nothing if the
    stripped reply is [NONE] in any letter case, and otherwise the
    selection the reply describes: the reply is split on commas, the
    fields that once stripped are made of digits are read as positions
    counted from one, positions outside the candidates are left out, and
    the candidates at the others are returned in the order of the reply, a
    repeated position giving a repeated candidate. *)
Theorem ai_filter_circulars_reply :
  forall (w : World) (profile : doc) (circulars : list doc)
         (calls : list request) (text user_prompt : prompt)
         (reply : str) (others : list (option str)),
    circulars <> [] ->
    circulars_text_from 0 circulars = Ok text ->
    filter_prompt profile text = Ok user_prompt ->
    completions_create w calls (filter_request w user_prompt)
    = Response (Some reply :: others) ->
    (forall num, In num (split_on 44 (strip reply)) ->
       str_isdigit (strip num) = true -> int_of_str (strip num) <> None) ->
    ai_filter_circulars w profile circulars calls
    = (Ok (if eq_ascii_nocase (strip reply) (lit "NONE") then []
           else reply_selection circulars (strip reply)),
       calls ++ [filter_request w user_prompt]).
Proof.
  intros w profile circulars calls text user_prompt reply others
         Hne Htext Hprompt Hcall Hconv.
  unfold ai_filter_circulars.
  destruct circulars as [|c cs]; [congruence|].
  rewrite (bindM_lift_ok _ _ _ _ Htext), (bindM_lift_ok _ _ _ _ Hprompt).
  unfold try_exceptM, bindM, create, lift. rewrite Hcall.
  destruct (eq_ascii_nocase (strip reply) (lit "NONE")) eqn:E.
  - rewrite (read_reply_none _ _ _ E). reflexivity.
  - rewrite (read_reply_selection _ _ _ E Hconv). reflexivity.
Qed.

Lemma ai_filter_circulars_reply_witness :
  ai_filter_circulars Sample.world_first Sample.bank Sample.store
    (Sample.advisor_call Sample.world_first)
  = (Ok [Sample.circular_tagged],
     Sample.advisor_call Sample.world_first
       ++ [filter_request Sample.world_first
             (Sample.prompt_of Sample.bank Sample.store)]).
Proof.
  apply (ai_filter_circulars_reply Sample.world_first Sample.bank
           Sample.store (Sample.advisor_call Sample.world_first)
           (Sample.text_of Sample.store)
           (Sample.prompt_of Sample.bank Sample.store) (lit "1") []).
  - discriminate.
  - reflexivity.
  - reflexivity.
  - reflexivity.
  - intros num [<- | []] _. vm_compute. discriminate.
Defined.

(** The digit test is not the integer test.  The reply [+1] converts to
    the integer one and yet selects nothing, being no run of digits.  The
    reply made of a superscript two is a run of digits and yet converts
    to no integer: the conversion raises, the handler takes over, and all
    the candidates come back. *)
Lemma ai_filter_circulars_sign_and_superscript :
  (int_of_str (strip (lit "+1")) = Some 1%Z
   /\ ai_filter_circulars Sample.world_signed Sample.bank Sample.store
        (Sample.advisor_call Sample.world_signed)
      = (Ok [],
         Sample.advisor_call Sample.world_signed
           ++ [filter_request Sample.world_signed
                 (Sample.prompt_of Sample.bank Sample.store)]))
  /\ (int_of_str (strip [178%N]) = None
      /\ str_isdigit (strip [178%N]) = true
      /\ read_reply Sample.store [Some [178%N]] = Raise ValueError
      /\ ai_filter_circulars Sample.world_superscript Sample.bank Sample.store
           (Sample.advisor_call Sample.world_superscript)
         = (Ok Sample.store,
            Sample.advisor_call Sample.world_superscript
              ++ [filter_request Sample.world_superscript
                    (Sample.prompt_of Sample.bank Sample.store)])).
Proof. repeat split; vm_compute; reflexivity. Qed.

(** A reply is followed in its own order, repeats included; fields that
    are no numbers and numbers that name no candidate are passed over. *)
Example read_reply_order_and_repeats :
  read_reply Sample.store [Some (lit " 2, 1,2 ,9, x,0,")]
  = Ok [Sample.circular_cbn; Sample.circular_tagged; Sample.circular_cbn].
Proof. vm_compute. reflexivity. Qed.

(** A field of ASCII digits, at most 4300 of them, converts to the number
    it writes. *)
Lemma scan_digits_all (s : str) : forall acc digits,
  forallb ascii_digit s = true ->
  scan_digits acc digits false s
  = Some (fold_left (fun a c => (10 * a + Z.of_N (c - 48))%Z) s acc,
          (digits + List.length s)%nat, []).
Proof.
  induction s as [|c r IH]; intros acc digits H.
  - simpl. rewrite Nat.add_0_r. reflexivity.
  - cbn [forallb] in H. apply andb_prop in H as [Hc Hr].
    cbn [scan_digits fold_left List.length]. rewrite Hc, (IH _ _ Hr).
    rewrite Nat.add_succ_r. reflexivity.
Qed.

Lemma to_ascii_decimal_digits (s : str) :
  forallb ascii_digit s = true -> to_ascii_decimal s = s.
Proof.
  induction s as [|c r IH]; intros H; [reflexivity|].
  cbn [forallb] in H. apply andb_prop in H as [Hc Hr].
  cbn [to_ascii_decimal]. rewrite (IH Hr).
  unfold ascii_digit in Hc. apply andb_prop in Hc as [_ Hhi].
  apply N.leb_le in Hhi.
  destruct (c <? 127)%N eqn:E; [reflexivity|]. apply N.ltb_ge in E. lia.
Qed.

Lemma int_of_str_ascii_digits (s : str) :
  s <> [] -> forallb ascii_digit s = true ->
  (List.length s <= int_max_str_digits)%nat ->
  int_of_str s = Some (digits_value s).
Proof.
  intros Hne Hd Hlen. unfold int_of_str.
  rewrite (to_ascii_decimal_digits s Hd).
  destruct s as [|c r]; [congruence|].
  pose proof Hd as Hd'. cbn [forallb] in Hd'.
  apply andb_prop in Hd' as [Hc _].
  unfold ascii_digit in Hc. apply andb_prop in Hc as [Hlo Hhi].
  apply N.leb_le in Hlo, Hhi.
  assert (Hsp : c_isspace c = false).
  { unfold c_isspace. apply orb_false_iff. split.
    - apply andb_false_iff. right. apply N.leb_gt. lia.
    - apply N.eqb_neq. lia. }
  assert (H43 : (c =? 43)%N = false) by (apply N.eqb_neq; lia).
  assert (H45 : (c =? 45)%N = false) by (apply N.eqb_neq; lia).
  assert (H95 : (c =? 95)%N = false) by (apply N.eqb_neq; lia).
  cbn [skip_c_space]. rewrite Hsp. cbv zeta. rewrite H43, H45. cbn [orb].
  rewrite H95, (scan_digits_all (c :: r) 0%Z 0 Hd).
  cbn [Nat.add List.length skip_c_space].
  destruct (Nat.ltb int_max_str_digits (S (List.length r))) eqn:El.
  - apply Nat.ltb_lt in El. cbn [List.length] in Hlen. lia.
  - reflexivity.
Qed.

(** ** The advisor *)

(** C3. When the completion call raises, [suggest_regulators] raises too:
    nothing catches the exception, and the endpoint answers with status
    500 instead of going on with no suggestion. *)
Theorem suggest_regulators_propagates :
  suggest_regulators Sample.world_advisor_down Sample.bank []
  = (Raise (APIError (lit "connection error")),
     [suggest_request Sample.world_advisor_down
        (Sample.advisor_prompt_of Sample.bank)])
  /\ status_code
       (fst (match_circulars_for_company Sample.world_advisor_down
               Sample.company_id []))
     = 500.
Proof. split; vm_compute; reflexivity. Qed.

Lemma in_regulators_In (code : str) :
  in_regulators code = true -> In code (map fst regulators).
Proof.
  unfold in_regulators. rewrite existsb_exists.
  intros ((k, v) & Hin & Heq). simpl in Heq. unfold str_eqb in Heq.
  destruct (list_eq_dec N.eq_dec k code) as [->|]; [|discriminate].
  apply (in_map fst) in Hin. exact Hin.
Qed.

(** C6. When the service answers with a reply text, [suggest_regulators]
    returns the stripped comma-separated fields of that text that are keys
    of the table of seven regulators, in the order of the reply; a field
    that is no key is left out and no error is raised. *)
Theorem suggest_regulators_subset_of_table :
  forall (w : World) (profile : doc) (calls : list request)
         (user_prompt : prompt) (reply : str) (others : list (option str)),
    suggest_prompt profile = Ok user_prompt ->
    completions_create w calls (suggest_request w user_prompt)
    = Response (Some reply :: others) ->
    suggest_regulators w profile calls
    = (Ok (filter in_regulators (map strip (split_on 44 (strip reply)))),
       calls ++ [suggest_request w user_prompt])
    /\ (forall code,
          In code (filter in_regulators (map strip (split_on 44 (strip reply)))) ->
          In code (map fst regulators))
    /\ List.length regulators = 7.
Proof.
  intros w profile calls user_prompt reply others Hprompt Hcall.
  split; [|split].
  - unfold suggest_regulators.
    rewrite (bindM_lift_ok _ _ _ _ Hprompt).
    unfold bindM, create, lift, ret. rewrite Hcall. simpl.
    unfold valid_codes.
    destruct (filter in_regulators (map strip (split_on 44 (strip reply))));
      reflexivity.
  - intros code Hin. apply filter_In in Hin as [_ Hin].
    apply in_regulators_In. exact Hin.
  - reflexivity.
Qed.

Lemma suggest_regulators_subset_of_table_witness :
  suggest_regulators Sample.world_unknown_code Sample.bank []
  = (Ok [lit "CBN"; lit "SEC"],
     [suggest_request Sample.world_unknown_code
        (Sample.advisor_prompt_of Sample.bank)]).
Proof.
  exact (proj1 (suggest_regulators_subset_of_table Sample.world_unknown_code
                  Sample.bank [] (Sample.advisor_prompt_of Sample.bank)
                  (lit "CBN, FIRS ,ndpc, SEC") []
                  eq_refl eq_refl)).
Defined.

(** ** The company profile *)

(** C7. For a company document whose [country] field is absent or is a
    dictionary, building the profile raises nothing; a field of the
    document is taken as it is, an absent [name] becomes ["Unknown
    Company"], an absent [industry], [businessCategory],
    [businessSubCategory] or [description] the empty text, absent
    [services] the empty list, and [country] is the [name] of the country
    dictionary, or ["Nigeria"] when there is none. *)
Theorem company_profile_defaults :
  forall (d : doc),
    (lookup (lit "country") d = None
     \/ exists c, lookup (lit "country") d = Some (VDict c)) ->
    company_profile (VDict d)
    = Ok [ (lit "name", get d (lit "name") (VStr (lit "Unknown Company")));
           (lit "industry", get d (lit "industry") (VStr []));
           (lit "businessCategory", get d (lit "businessCategory") (VStr []));
           (lit "businessSubCategory", get d (lit "businessSubCategory") (VStr []));
           (lit "services", get d (lit "services") (VList []));
           (lit "description", get d (lit "description") (VStr []));
           (lit "country",
            match lookup (lit "country") d with
            | Some (VDict c) => get c (lit "name") (VStr (lit "Nigeria"))
            | _ => VStr (lit "Nigeria")
            end) ].
Proof.
  intros d Hcountry.
  assert (Hg : get d (lit "country") (VDict [])
               = VDict match lookup (lit "country") d with
                       | Some (VDict c) => c
                       | _ => []
                       end).
  { unfold get. destruct Hcountry as [-> | [c ->]]; reflexivity. }
  unfold company_profile, py_get. cbn [bind]. rewrite Hg.
  destruct Hcountry as [-> | [c ->]]; reflexivity.
Qed.

Lemma company_profile_defaults_witness :
  company_profile (VDict Sample.bank)
  = Ok [ (lit "name", VStr (lit "Acme Bank"));
         (lit "industry", VStr (lit "Banking"));
         (lit "businessCategory", VStr []);
         (lit "businessSubCategory", VStr []);
         (lit "services", VList [VStr (lit "Retail Lending")]);
         (lit "description", VStr []);
         (lit "country", VStr (lit "Nigeria")) ].
Proof.
  exact (company_profile_defaults Sample.bank (or_introl eq_refl)).
Defined.

(** The document with no field at all has no [name], and the profile
    built from it has a [name] that is neither the empty text nor the
    empty list. *)
Lemma company_profile_name_not_empty :
  lookup (lit "name") [] = None /\
  exists p,
    company_profile (VDict []) = Ok p /\
    lookup (lit "name") p = Some (VStr (lit "Unknown Company")) /\
    lookup (lit "name") p <> Some (VStr []) /\
    lookup (lit "name") p <> Some (VList []).
Proof.
  split; [reflexivity|].
  eexists. split; [reflexivity|]. repeat split; vm_compute; discriminate.
Qed.

(** A [country] field that holds a text instead of a dictionary makes the
    construction raise. *)
Example company_profile_country_text :
  company_profile (VDict [(lit "country", VStr (lit "Nigeria"))])
  = Raise AttributeError.
Proof. reflexivity. Qed.

(** ** Exceptions raised on the way

    Apart from the "not found" answer, nothing the endpoint runs raises an
    [HTTPException]. *)

Lemma bind_raise_inv {A B : Type} (r : res A) (k : A -> res B) e :
  bind r k = Raise e -> r = Raise e \/ exists a, r = Ok a /\ k a = Raise e.
Proof.
  destruct r as [a|e']; simpl; intros H; [eauto|].
  injection H as <-. left. reflexivity.
Qed.

Lemma bindM_raise_inv {A B : Type} (m : M A) (k : A -> M B) calls e calls'' :
  bindM m k calls = (Raise e, calls'') ->
  m calls = (Raise e, calls'')
  \/ exists a calls', m calls = (Ok a, calls') /\ k a calls' = (Raise e, calls'').
Proof.
  unfold bindM. destruct (m calls) as [[a|e'] calls'] eqn:E; intros H.
  - right. eauto.
  - injection H as <- <-. left. reflexivity.
Qed.

Lemma map_res_raise_inv {A B : Type} (f : A -> res B) (l : list A) e :
  map_res f l = Raise e -> exists a, In a l /\ f a = Raise e.
Proof.
  induction l as [|a l IH]; simpl; intros H; [discriminate|].
  destruct (f a) as [b|e'] eqn:Ea.
  - destruct (map_res f l) as [bs|e'']; [discriminate|].
    destruct (IH H) as (a' & Hin & Ha'). eauto.
  - injection H as <-. eauto.
Qed.

Create HintDb no_http.

Lemma py_get_no_http x k d e : py_get x k d = Raise e -> is_http e = false.
Proof. destruct x; simpl; intros H; try discriminate; injection H as <-; reflexivity. Qed.

Lemma slice_to_no_http n x e : slice_to n x = Raise e -> is_http e = false.
Proof. destruct x; simpl; intros H; try discriminate; injection H as <-; reflexivity. Qed.

Lemma iterate_no_http x e : iterate x = Raise e -> is_http e = false.
Proof. destruct x; simpl; intros H; try discriminate; injection H as <-; reflexivity. Qed.

Lemma as_str_no_http x e : as_str x = Raise e -> is_http e = false.
Proof. destruct x; simpl; intros H; try discriminate; injection H as <-; reflexivity. Qed.

Lemma lower_value_no_http x e : lower_value x = Raise e -> is_http e = false.
Proof. destruct x; simpl; intros H; try discriminate; injection H as <-; reflexivity. Qed.

Lemma subscript_no_http d k e : subscript d k = Raise e -> is_http e = false.
Proof.
  unfold subscript. destruct (lookup k d); intros H; try discriminate.
  injection H as <-. reflexivity.
Qed.

Lemma first_content_no_http choices e :
  first_content choices = Raise e -> is_http e = false.
Proof.
  destruct choices as [|[s|] r]; simpl; intros H; try discriminate;
    injection H as <-; reflexivity.
Qed.

Lemma join_value_no_http sep x e : join_value sep x = Raise e -> is_http e = false.
Proof.
  unfold join_value. destruct (iterate x) as [items|e'] eqn:Ei.
  - destruct (map_res as_str items) as [parts|e''] eqn:Em; intros H;
      [discriminate|].
    injection H as <-. apply map_res_raise_inv in Em as (a & _ & Ha).
    eapply as_str_no_http; eauto.
  - intros H. injection H as <-. eapply iterate_no_http; eauto.
Qed.

Lemma new_CircularMatchResponse_no_http name total docs e :
  new_CircularMatchResponse name total docs = Raise e -> is_http e = false.
Proof.
  unfold new_CircularMatchResponse.
  destruct name; try (intros H; injection H as <-; reflexivity).
  destruct docs; try (intros H; injection H as <-; reflexivity).
  destruct (forallb is_dict items); intros H; [discriminate|].
  injection H as <-. reflexivity.
Qed.

#[local] Hint Resolve py_get_no_http slice_to_no_http iterate_no_http
  as_str_no_http lower_value_no_http subscript_no_http first_content_no_http
  join_value_no_http new_CircularMatchResponse_no_http : no_http.

Ltac no_http :=
  repeat match goal with
    | H : bind ?r _ = Raise _ |- _ =>
        apply bind_raise_inv in H as [H | (? & _ & H)]
    | H : Ok _ = Raise _ |- _ => discriminate H
    end;
  eauto with no_http.

Lemma company_profile_no_http v e :
  company_profile v = Raise e -> is_http e = false.
Proof. unfold company_profile. intros H. no_http. Qed.

Lemma circular_text_no_http idx c e :
  circular_text idx c = Raise e -> is_http e = false.
Proof. unfold circular_text. intros H. no_http. Qed.

Lemma circulars_text_from_no_http cs : forall idx e,
  circulars_text_from idx cs = Raise e -> is_http e = false.
Proof.
  induction cs as [|c cs IH]; simpl; intros idx e H; [discriminate|].
  apply bind_raise_inv in H as [H | (block & _ & H)].
  - eapply circular_text_no_http; eauto.
  - apply bind_raise_inv in H as [H | (blocks & _ & H)]; [eauto | discriminate].
Qed.

Lemma filter_prompt_no_http p text e :
  filter_prompt p text = Raise e -> is_http e = false.
Proof. unfold filter_prompt. intros H. no_http. Qed.

Lemma suggest_prompt_no_http p e :
  suggest_prompt p = Raise e -> is_http e = false.
Proof. unfold suggest_prompt. intros H. no_http. Qed.

Lemma field_keywords_no_http p k e :
  field_keywords p k = Raise e -> is_http e = false.
Proof.
  unfold field_keywords. destruct (truthy (get p k VNone)); intros H;
    [no_http | discriminate].
Qed.

Lemma service_keywords_no_http services : forall e,
  service_keywords services = Raise e -> is_http e = false.
Proof.
  induction services as [|s r IH]; simpl; intros e H; [discriminate|].
  apply bind_raise_inv in H as [H | (l & _ & H)].
  - eapply lower_value_no_http; eauto.
  - apply bind_raise_inv in H as [H | (more & _ & H)]; [eauto | discriminate].
Qed.

Lemma search_keywords_no_http w p e :
  search_keywords w p = Raise e -> is_http e = false.
Proof.
  unfold search_keywords. intros H.
  apply bind_raise_inv in H as [H | (i & _ & H)];
    [eapply field_keywords_no_http; eauto|].
  apply bind_raise_inv in H as [H | (c & _ & H)];
    [eapply field_keywords_no_http; eauto|].
  apply bind_raise_inv in H as [H | (s & _ & H)];
    [eapply iterate_no_http; eauto|].
  apply bind_raise_inv in H as [H | (ws & _ & H)];
    [eapply service_keywords_no_http; eauto | discriminate].
Qed.

Lemma create_no_http w req calls e calls' :
  create w req calls = (Raise e, calls') -> is_http e = false.
Proof.
  unfold create. destruct (completions_create w calls req); intros H;
    [injection H as <- _; reflexivity | discriminate H].
Qed.

Lemma suggest_regulators_no_http w p calls e calls' :
  suggest_regulators w p calls = (Raise e, calls') -> is_http e = false.
Proof.
  unfold suggest_regulators. intros H.
  apply bindM_raise_inv in H as [H | (pr & c1 & _ & H)].
  { apply lift_inv in H as [H _]. eapply suggest_prompt_no_http; eauto. }
  apply bindM_raise_inv in H as [H | (choices & c2 & _ & H)].
  { eapply create_no_http; eauto. }
  apply bindM_raise_inv in H as [H | (content & c3 & _ & H)].
  { apply lift_inv in H as [H _]. eapply first_content_no_http; eauto. }
  apply ret_inv in H as [H _]. discriminate.
Qed.

Lemma ai_filter_circulars_no_http w p cs calls e calls' :
  ai_filter_circulars w p cs calls = (Raise e, calls') -> is_http e = false.
Proof.
  unfold ai_filter_circulars. destruct cs as [|c cs].
  { intros H. apply ret_inv in H as [H _]. discriminate. }
  intros H.
  apply bindM_raise_inv in H as [H | (text & c1 & _ & H)].
  { apply lift_inv in H as [H _]. eapply circulars_text_from_no_http; eauto. }
  apply bindM_raise_inv in H as [H | (pr & c2 & _ & H)].
  { apply lift_inv in H as [H _]. eapply filter_prompt_no_http; eauto. }
  unfold try_exceptM in H.
  match type of H with
  | match ?b with _ => _ end = _ => destruct b as [[a|e'] c3]
  end.
  - discriminate H.
  - apply ret_inv in H as [H _]. discriminate.
Qed.

(** ** The endpoint *)

Lemma list_index_In {A : Type} (xs : list A) (i : Z) (x : A) :
  list_index xs i = Ok x -> In x xs.
Proof.
  unfold list_index.
  destruct ((if (i <? 0)%Z then (i + Z.of_nat (List.length xs))%Z else i) <? 0)%Z;
    [discriminate|].
  destruct (nth_error xs _) as [y|] eqn:E; [|discriminate].
  intros H. injection H as <-. eapply nth_error_In; eauto.
Qed.

Lemma pick_circulars_In cs indices rel :
  pick_circulars cs indices = Ok rel -> forall d, In d rel -> In d cs.
Proof.
  unfold pick_circulars. intros H. apply map_res_ok_inv in H.
  induction H as [|i d l l' Hi _ IH]; intros d' Hin; [contradiction|].
  destruct Hin as [<-|Hin]; [eapply list_index_In; eauto | auto].
Qed.

Lemma read_reply_In cs choices rel :
  read_reply cs choices = Ok rel -> forall d, In d rel -> In d cs.
Proof.
  unfold read_reply. intros H.
  apply bind_ok_inv in H as (content & _ & H).
  destruct (str_eqb (upper (strip content)) (lit "NONE")).
  - injection H as <-. intros d [].
  - apply bind_ok_inv in H as (indices & _ & H).
    eapply pick_circulars_In; eauto.
Qed.

(** Whatever the service does, the classifier returns candidates only. *)
Lemma ai_filter_circulars_In w p cs calls rel calls' :
  ai_filter_circulars w p cs calls = (Ok rel, calls') ->
  forall d, In d rel -> In d cs.
Proof.
  unfold ai_filter_circulars. destruct cs as [|c cs].
  { intros H. apply ret_inv in H as [H _]. injection H as ->. intros d []. }
  intros H.
  apply bindM_ok_inv in H as (text & c1 & _ & H).
  apply bindM_ok_inv in H as (pr & c2 & _ & H).
  unfold try_exceptM in H.
  destruct (bindM (create w (filter_request w pr))
              (fun response => lift (read_reply (c :: cs) response)) c2)
    as [[a|e] c3] eqn:E.
  - injection H as <- <-.
    apply bindM_ok_inv in E as (choices & c4 & _ & E).
    apply lift_inv in E as [E _]. eapply read_reply_In; eauto.
  - apply ret_inv in H as [H _]. injection H as ->. auto.
Qed.

(** A query of the store raises nothing but the driver's error. *)
Lemma find_raise rs fl q coll e :
  find rs fl q coll = Raise e -> exists message, e = PyMongoError message.
Proof.
  unfold find. destruct (fl q) as [message|]; [|discriminate].
  intros H. injection H as <-. eauto.
Qed.

Lemma find_one_raise rs fl q coll e :
  find_one rs fl q coll = Raise e -> exists message, e = PyMongoError message.
Proof.
  unfold find_one. intros H. apply bind_raise_inv in H as [H | (l & _ & H)].
  - eapply find_raise; eauto.
  - discriminate H.
Qed.

(** A lookup by [_id] answers [None] or a document that has fields. *)
Lemma find_one_id_cases rs fl v coll x :
  find_one rs fl (Field (lit "_id") (QEq v)) coll = Ok x ->
  x = VNone \/ exists d, x = VDict d /\ d <> [].
Proof.
  unfold find_one, find. destruct (fl _); [discriminate|]. cbn [bind].
  destruct (filter _ coll) as [|d l] eqn:E; intros H; injection H as <-; [auto|].
  right. exists d. split; [reflexivity|].
  assert (Hin : In d (filter (matches rs (Field (lit "_id") (QEq v))) coll))
    by (rewrite E; left; reflexivity).
  apply filter_In in Hin as [_ Hm]. intros ->. discriminate Hm.
Qed.

(** The lookup answers with the result of one of its two queries. *)
Lemma find_company_eq w id :
  (exists oid, ObjectId id = Ok oid
               /\ find_company w id = find_one_by_id w oid
               /\ exists x, find_one_by_id w oid = Ok x)
  \/ find_company w id = find_one_by_id w (VStr id).
Proof.
  unfold find_company. destruct (ObjectId id) as [oid|e]; [|right; reflexivity].
  cbn [bind]. destruct (find_one_by_id w oid) as [x|e] eqn:E.
  - left. exists oid. repeat split; eauto.
  - right. reflexivity.
Qed.

Lemma find_company_cases w id x :
  find_company w id = Ok x -> x = VNone \/ exists d, x = VDict d /\ d <> [].
Proof.
  destruct (find_company_eq w id) as [(oid & _ & -> & _) | ->];
    apply find_one_id_cases.
Qed.

Lemma find_company_raise w id e :
  find_company w id = Raise e -> exists message, e = PyMongoError message.
Proof.
  destruct (find_company_eq w id) as [(oid & _ & -> & _) | ->];
    apply find_one_raise.
Qed.

Lemma match_circulars_raise w id calls e calls' :
  match_circulars w id calls = (Raise e, calls') ->
  (find_company w id = Ok VNone /\ is_http e = true
   /\ status_code (@Raise unit e) = 404)
  \/ (find_company w id <> Ok VNone /\ is_http e = false).
Proof.
  unfold match_circulars. intros H.
  apply bindM_raise_inv in H as [H | (ecosystem_data & c0 & Hfound & H)].
  { apply lift_inv in H as [H _]. right. split; [congruence|].
    apply find_company_raise in H as (message & ->). reflexivity. }
  apply lift_inv in Hfound as [Hfound ->].
  destruct (find_company_cases w id _ Hfound) as [-> | (d & -> & Hne)].
  - simpl in H. injection H as <- _. left. auto.
  - destruct d as [|kv d]; [congruence|]. simpl negb in H. cbv iota in H.
    right. split; [rewrite Hfound; discriminate|].
    apply bindM_raise_inv in H as [H | (profile & c1 & _ & H)].
    { apply lift_inv in H as [H _]. eapply company_profile_no_http; eauto. }
    apply bindM_raise_inv in H as [H | (suggested & c2 & _ & H)].
    { eapply suggest_regulators_no_http; eauto. }
    apply bindM_raise_inv in H as [H | (keywords & c3 & _ & H)].
    { apply lift_inv in H as [H _]. eapply search_keywords_no_http; eauto. }
    apply bindM_raise_inv in H as [H | (candidates & c9 & _ & H)].
    { apply lift_inv in H as [H _]. apply find_raise in H as (message & ->).
      reflexivity. }
    apply bindM_raise_inv in H as [H | (rel & c4 & _ & H)].
    { destruct (0 <? _)%Z.
      - eapply ai_filter_circulars_no_http; eauto.
      - apply ret_inv in H as [H _]. discriminate. }
    apply bindM_raise_inv in H as [H | (name & c5 & _ & H)].
    { apply lift_inv in H as [H _]. eapply subscript_no_http; eauto. }
    apply bindM_raise_inv in H as [H | (resp & c6 & _ & H)].
    { apply lift_inv in H as [H _].
      eapply new_CircularMatchResponse_no_http; eauto. }
    apply ret_inv in H as [H _]. discriminate.
Qed.

Lemma match_circulars_ok_found w id calls r calls' :
  match_circulars w id calls = (Ok r, calls') ->
  exists d, find_company w id = Ok (VDict d) /\ d <> [].
Proof.
  unfold match_circulars. intros H.
  apply bindM_ok_inv in H as (ecosystem_data & c0 & Hfound & H).
  apply lift_inv in Hfound as [Hfound ->].
  destruct (find_company_cases w id _ Hfound) as [-> | (d & -> & Hne)].
  - discriminate H.
  - eauto.
Qed.

Lemma match_circulars_for_company_eq w id calls :
  match_circulars_for_company w id calls
  = match match_circulars w id calls with
    | (Ok run, calls') => (Ok (snd run), calls')
    | (Raise e, calls') => (Raise e, calls')
    end.
Proof. reflexivity. Qed.

(** When the lookup itself raises, the endpoint raises the same error
    before any request is made. *)
Lemma match_circulars_lookup_raises w id calls e :
  find_company w id = Raise e ->
  match_circulars w id calls = (Raise e, calls).
Proof. intros H. unfold match_circulars, bindM, lift. rewrite H. reflexivity. Qed.

(** Twenty-four hexadecimal digits always build an [ObjectId]. *)
Lemma bytes_fromhex_digits (s : str) :
  forallb (fun c => match hex_value c with Some _ => true | None => false end) s
  = true ->
  Nat.even (List.length s) = true ->
  exists b, bytes_fromhex s = Some b /\ List.length s = (2 * List.length b)%nat.
Proof.
  assert (Hspace : forall c, hex_space c = true -> hex_value c = None).
  { intros c H. unfold hex_space in H. unfold hex_value.
    apply orb_true_iff in H as [H | H].
    - apply andb_true_iff in H as [H1 H2].
      apply N.leb_le in H1, H2.
      destruct (48 <=? c)%N eqn:E1; [apply N.leb_le in E1; lia|].
      destruct (97 <=? c)%N eqn:E2; [apply N.leb_le in E2; lia|].
      destruct (65 <=? c)%N eqn:E3; [apply N.leb_le in E3; lia|].
      reflexivity.
    - apply N.eqb_eq in H. subst c. reflexivity. }
  remember (List.length s) as n eqn:Hn. revert s Hn.
  induction n as [n IH] using lt_wf_ind. intros s Hn Hall Heven.
  destruct s as [|h [|l r]].
  - exists []. split; [reflexivity | subst n; reflexivity].
  - subst n. discriminate Heven.
  - cbn [forallb] in Hall.
    apply andb_true_iff in Hall as [Hh Hall].
    apply andb_true_iff in Hall as [Hl Hall].
    cbn [bytes_fromhex].
    destruct (hex_space h) eqn:Es.
    { rewrite (Hspace h Es) in Hh. discriminate Hh. }
    destruct (hex_value h) as [a|]; [|discriminate Hh].
    destruct (hex_value l) as [b|]; [|discriminate Hl].
    destruct (IH (List.length r)) with (s := r) as (bs & -> & Hlen);
      [subst n; simpl; lia | reflexivity | exact Hall
       | subst n; exact Heven |].
    exists ((16 * a + b)%N :: bs). split; [reflexivity|].
    subst n. simpl in *. lia.
Qed.

Lemma ObjectId_digits (s : str) :
  List.length s = 24%nat ->
  forallb (fun c => match hex_value c with Some _ => true | None => false end) s
  = true ->
  exists b, ObjectId s = Ok (VObjectId b) /\ List.length b = 12%nat.
Proof.
  intros Hlen Hall. unfold ObjectId. rewrite Hlen. cbn [Nat.eqb].
  destruct (bytes_fromhex_digits s Hall) as (b & -> & Hb).
  { rewrite Hlen. reflexivity. }
  exists b. split; [reflexivity | lia].
Qed.

(** C8. The company is looked up by [ObjectId] when the identifier builds
    one and that first lookup answers; it is looked up by the identifier
    as a text when building the [ObjectId] raises and when the first
    lookup raises, and in no other case.  The endpoint answers 404 exactly
    when the lookup whose answer it uses found nothing; when a document
    was found the pipeline runs, and the answer is 200 with the response
    when it completes and 500 when a stage raises; when the lookup by text
    raises, the endpoint raises the same error and the answer is 500. *)
Theorem match_circulars_status :
  forall (w : World) (id : str) (calls : list request),
    (forall oid ecosystem_data,
       ObjectId id = Ok oid ->
       find_one_by_id w oid = Ok ecosystem_data ->
       find_company w id = Ok ecosystem_data)
    /\ ((exists e, ObjectId id = Raise e)
        \/ (exists oid e, ObjectId id = Ok oid /\ find_one_by_id w oid = Raise e) ->
        find_company w id = find_one_by_id w (VStr id))
    /\ (status_code (fst (match_circulars_for_company w id calls)) = 404
        <-> find_company w id = Ok VNone)
    /\ (forall ecosystem_data,
          find_company w id = Ok ecosystem_data -> ecosystem_data <> VNone ->
          (exists response calls',
             match_circulars_for_company w id calls = (Ok response, calls')
             /\ status_code (fst (match_circulars_for_company w id calls)) = 200)
          \/ (exists e calls',
                match_circulars_for_company w id calls = (Raise e, calls')
                /\ status_code (fst (match_circulars_for_company w id calls)) = 500))
    /\ (forall e,
          find_company w id = Raise e ->
          match_circulars_for_company w id calls = (Raise e, calls)
          /\ status_code (fst (match_circulars_for_company w id calls)) = 500).
Proof.
  intros w id calls. split; [|split; [|split; [|split]]].
  - intros oid ecosystem_data H1 H2. unfold find_company.
    rewrite H1. cbn [bind]. rewrite H2. reflexivity.
  - intros [(e & H) | (oid & e & H1 & H2)]; unfold find_company.
    + rewrite H. reflexivity.
    + rewrite H1. cbn [bind]. rewrite H2. reflexivity.
  - rewrite match_circulars_for_company_eq.
    destruct (match_circulars w id calls) as [[r|e] c] eqn:E; simpl.
    + split; [discriminate|]. intros Hn.
      apply match_circulars_ok_found in E as (d & Hd & _). congruence.
    + apply match_circulars_raise in E as [(Hn & _ & Hs) | (Hf & He)].
      * simpl in Hs. tauto.
      * split; [|contradiction]. destruct e; simpl in *; congruence.
  - intros ecosystem_data Hfound Hf. rewrite match_circulars_for_company_eq.
    destruct (match_circulars w id calls) as [[r|e] c] eqn:E; simpl.
    + left. eauto.
    + right. exists e, c. split; [reflexivity|].
      apply match_circulars_raise in E as [(Hn & _) | (_ & He)];
        [congruence|].
      destruct e; simpl in *; congruence.
  - intros e H. rewrite match_circulars_for_company_eq.
    rewrite (match_circulars_lookup_raises w id calls e H).
    split; [reflexivity|].
    apply find_company_raise in H as (message & ->). reflexivity.
Qed.

Lemma match_circulars_status_witness :
  status_code
    (fst (match_circulars_for_company Sample.world_no_company Sample.company_id []))
  = 404
  /\ find_company Sample.world_lookup_fails Sample.company_id
     = Ok (VDict Sample.bank_text_key).
Proof.
  split.
  - apply (proj2 (proj1 (proj2 (proj2
             (match_circulars_status Sample.world_no_company Sample.company_id []))))).
    reflexivity.
  - rewrite (proj1 (proj2
               (match_circulars_status Sample.world_lookup_fails
                  Sample.company_id []))).
    + reflexivity.
    + right. eexists _, _. split; reflexivity.
Defined.

(** A company stored under its identifier as a text is not found when the
    identifier builds an [ObjectId] and the first lookup answers: the
    lookup by text, which would find it, is not made, and the answer is
    404. *)
Lemma match_circulars_text_key_not_found :
  (exists oid,
     ObjectId Sample.company_id = Ok oid /\
     find_one_by_id Sample.world_text_key oid = Ok VNone)
  /\ find_one_by_id Sample.world_text_key (VStr Sample.company_id)
     = Ok (VDict Sample.bank_text_key)
  /\ status_code
       (fst (match_circulars_for_company Sample.world_text_key Sample.company_id []))
     = 404.
Proof.
  split; [|split].
  - eexists. split; vm_compute; reflexivity.
  - vm_compute. reflexivity.
  - vm_compute. reflexivity.
Qed.

(** The same holds of an identifier of twenty-four characters that ends in
    spaces: [bytes.fromhex] skips them, an [ObjectId] of eleven bytes is
    built, and the lookup by text is not made. *)
Lemma match_circulars_spaced_id_not_found :
  ObjectId Sample.spaced_id
  = Ok (VObjectId [101; 161; 178; 195; 212; 229; 246; 7; 24; 41; 58]%N)
  /\ find_one_by_id Sample.world_spaced_key (VStr Sample.spaced_id)
     = Ok (VDict Sample.bank_spaced_key)
  /\ status_code
       (fst (match_circulars_for_company Sample.world_spaced_key Sample.spaced_id []))
     = 404.
Proof. split; [|split]; vm_compute; reflexivity. Qed.

Lemma new_CircularMatchResponse_ok name total rel response :
  new_CircularMatchResponse name total
    (serialize_doc (VList (map VDict rel))) = Ok response ->
  total_relevant_circulars response = total
  /\ circulars response = map (fun d => serialize_doc (VDict d)) rel.
Proof.
  unfold new_CircularMatchResponse. destruct name; try discriminate.
  cbn [serialize_doc].
  destruct (forallb is_dict (map serialize_doc (map VDict rel))); [|discriminate].
  intros H. injection H as <-. simpl. split; [reflexivity|].
  apply map_map.
Qed.

(** C4. In every run of the endpoint that completes, the response counts
    its circulars; the candidates are the documents the store answers to
    the query built from the advisor's suggestions and the profile's
    keywords, which are the stored regulations that match it; and each
    circular of the response is the serialised form of a document the
    classifier returned, which is one of those candidates: the classifier
    picks among the candidates and adds none. *)
Theorem match_circulars_narrows :
  forall (w : World) (id : str) (calls calls' : list request)
         (candidates : list doc) (response : CircularMatchResponse),
    match_circulars w id calls = (Ok (candidates, response), calls') ->
    match_circulars_for_company w id calls = (Ok response, calls')
    /\ total_relevant_circulars response
       = Z.of_nat (List.length (circulars response))
    /\ (exists ecosystem_data profile suggested keywords calls1,
          find_company w id = Ok ecosystem_data
          /\ company_profile ecosystem_data = Ok profile
          /\ suggest_regulators w profile calls = (Ok suggested, calls1)
          /\ search_keywords w
               (set_item profile (lit "suggested_regulators")
                         (VList (map VStr suggested)))
             = Ok keywords
          /\ find (regex_search w) (regulations_failure w)
                  (mongo_query suggested keywords) (regulations w)
             = Ok candidates
          /\ candidates
             = filter (matches (regex_search w) (mongo_query suggested keywords))
                      (regulations w))
    /\ exists relevant,
         circulars response = map (fun d => serialize_doc (VDict d)) relevant
         /\ forall d, In d relevant -> In d candidates.
Proof.
  intros w id calls calls' candidates response Hrun.
  split.
  { rewrite match_circulars_for_company_eq, Hrun. reflexivity. }
  unfold match_circulars in Hrun.
  apply bindM_ok_inv in Hrun as (ecosystem_data & c0 & Hfound & Hrun).
  apply lift_inv in Hfound as [Hfound ->].
  destruct (negb (truthy ecosystem_data)); [discriminate|].
  apply bindM_ok_inv in Hrun as (profile & c1 & Hprofile & H).
  apply lift_inv in Hprofile as [Hprofile ->].
  apply bindM_ok_inv in H as (suggested & c2 & Hsuggested & H).
  apply bindM_ok_inv in H as (keywords & c3 & Hkeywords & H).
  apply lift_inv in Hkeywords as [Hkeywords ->].
  apply bindM_ok_inv in H as (found & c9 & Hcands & H).
  apply lift_inv in Hcands as [Hcands ->].
  apply bindM_ok_inv in H as (rel & c4 & Hrel & H).
  apply bindM_ok_inv in H as (name & c5 & _ & H).
  apply bindM_ok_inv in H as (resp & c6 & Hresp & H).
  apply lift_inv in Hresp as [Hresp _].
  apply ret_inv in H as [H _]. injection H as -> ->.
  apply new_CircularMatchResponse_ok in Hresp as [Htotal Hcirc].
  split; [|split].
  - rewrite Htotal, Hcirc, length_map. reflexivity.
  - exists ecosystem_data, profile, suggested, keywords, c2.
    repeat (split; [assumption|]).
    unfold find in Hcands. destruct (regulations_failure w _); [discriminate|].
    injection Hcands as <-. reflexivity.
  - exists rel. split; [exact Hcirc|].
    destruct (0 <? _)%Z.
    + eapply ai_filter_circulars_In; eauto.
    + apply ret_inv in Hrel as [Hrel _]. injection Hrel as ->. intros d [].
Qed.

Lemma match_circulars_narrows_witness :
  match_circulars_for_company Sample.world_first Sample.company_id []
  = (Ok Sample.first_response, snd Sample.first_run)
  /\ Sample.first_candidates = [Sample.circular_tagged; Sample.circular_cbn]
  /\ circulars Sample.first_response
     = [serialize_doc (VDict Sample.circular_tagged)].
Proof.
  split; [|split; vm_compute; reflexivity].
  refine (proj1 (match_circulars_narrows Sample.world_first Sample.company_id []
                   (snd Sample.first_run) Sample.first_candidates
                   Sample.first_response _)).
  vm_compute. reflexivity.
Defined.

(** The circular in the response is the serialised candidate, its
    [ObjectId] turned into text, and so it is none of the candidates
    themselves. *)
Lemma match_circulars_serialized_not_candidate :
  exists candidates response calls',
    match_circulars Sample.world_first Sample.company_id []
    = (Ok (candidates, response), calls')
    /\ exists c, In c (circulars response) /\ ~ In c (map VDict candidates).
Proof.
  eexists _, _, _. split; [vm_compute; reflexivity|].
  eexists. split; [left; reflexivity|].
  intros [H | [H | []]]; discriminate H.
Qed.

(** ** The keyword filter *)

Lemma value_eqb_VStr (x : value) (s : str) :
  value_eqb x (VStr s) = true <-> x = VStr s.
Proof.
  destruct x; simpl; try (split; [discriminate | intros H; discriminate H]).
  rewrite str_eqb_eq. split; congruence.
Qed.

Lemma field_keywords_text (profile : doc) (key s : str) :
  lookup key profile = Some (VStr s) ->
  field_keywords profile key
  = Ok match s with [] => [] | _ => [lower s] end.
Proof.
  intros H. unfold field_keywords, get, subscript. rewrite H.
  destruct s; reflexivity.
Qed.

Lemma service_keywords_texts (services : list str) :
  service_keywords (map VStr services)
  = Ok (flat_map (fun s => split (lower s)) services).
Proof.
  induction services as [|s r IH]; [reflexivity|].
  simpl. rewrite IH. reflexivity.
Qed.

Lemma lower_nil_or (s t : str) :
  (3 <? len t)%Z = true ->
  In t match s with [] => [] | _ => [lower s] end <-> t = lower s.
Proof.
  intros Hlen. destruct s as [|c r].
  - split; [intros []|]. intros ->. discriminate Hlen.
  - split; [intros [H|[]]; auto | intros ->; left; reflexivity].
Qed.

(** C5. For a profile whose [industry] and [businessCategory] are texts
    and whose [services] is a list of texts, the keywords are, each once,
    the texts longer than three characters among the lower-cased
    [industry], the lower-cased [businessCategory] and the
    whitespace-separated words of each lower-cased service.  The query is
    the disjunction of: [regulator.code] among the suggested regulators;
    [tags] among the keywords; and [affected_entities] matching, letter
    case ignored, the first five keywords joined by a bar -- or, exactly
    when there is no keyword, [affected_entities] being present. *)
Theorem keyword_filter_query :
  forall (w : World) (profile : doc) (industry category : str)
         (services suggested : list str),
    set_order_ok w ->
    lookup (lit "industry") profile = Some (VStr industry) ->
    lookup (lit "businessCategory") profile = Some (VStr category) ->
    lookup (lit "services") profile = Some (VList (map VStr services)) ->
    exists keywords third,
      search_keywords w profile = Ok keywords
      /\ NoDup keywords
      /\ (forall t,
            In t keywords <->
            (3 < len t)%Z
            /\ (t = lower industry \/ t = lower category
                \/ exists s, In s services /\ In t (split (lower s))))
      /\ mongo_query suggested keywords
         = Or [ Field (lit "regulator.code") (QIn (map VStr suggested));
                Field (lit "tags") (QIn (map VStr keywords));
                third ]
      /\ (keywords = [] -> third = Field (lit "affected_entities") (QExists true))
      /\ (keywords <> [] ->
          third = Field (lit "affected_entities")
                        (QRegex (join (lit "|") (firstn 5 keywords)) (lit "i"))).
Proof.
  intros w profile industry category services suggested Hset Hi Hc Hs.
  set (raw := match industry with [] => [] | _ => [lower industry] end
              ++ match category with [] => [] | _ => [lower category] end
              ++ flat_map (fun s => split (lower s)) services).
  set (keywords := list_of_set w (filter (fun kw => (3 <? len kw)%Z) raw)).
  assert (Hk : search_keywords w profile = Ok keywords).
  { unfold search_keywords.
    rewrite (field_keywords_text _ _ _ Hi), (field_keywords_text _ _ _ Hc).
    unfold get. rewrite Hs. cbn [bind iterate].
    rewrite service_keywords_texts. reflexivity. }
  exists keywords,
    match keywords with
    | [] => Field (lit "affected_entities") (QExists true)
    | _ => Field (lit "affected_entities")
                 (QRegex (join (lit "|") (firstn 5 keywords)) (lit "i"))
    end.
  split; [exact Hk|]. split; [apply Hset|]. split; [|split; [|split]].
  - intros t. unfold keywords. rewrite (proj2 (Hset _) t), filter_In.
    rewrite Z.ltb_lt. unfold raw. rewrite !in_app_iff, in_flat_map.
    split.
    + intros [Hin Hlen]. split; [exact Hlen|].
      apply Z.ltb_lt in Hlen.
      rewrite !(lower_nil_or _ _ Hlen) in Hin. exact Hin.
    + intros [Hlen Hin]. split; [|exact Hlen].
      apply Z.ltb_lt in Hlen.
      rewrite !(lower_nil_or _ _ Hlen). exact Hin.
  - unfold mongo_query. destruct keywords; reflexivity.
  - intros ->. reflexivity.
  - intros Hne. destruct keywords; [congruence | reflexivity].
Qed.

Lemma dedupe_ok (companies circulars : list doc) (advisor classifier : outcome) :
  set_order_ok (Sample.world companies circulars advisor classifier).
Proof.
  intros xs. simpl. unfold Sample.dedupe. split.
  - apply NoDup_nodup.
  - intros x. apply nodup_In.
Qed.

Lemma keyword_filter_query_witness :
  exists keywords third,
    search_keywords Sample.world_first Sample.bank_profile = Ok keywords
    /\ NoDup keywords
    /\ (forall t,
          In t keywords <->
          (3 < len t)%Z
          /\ (t = lower (lit "Banking") \/ t = lower []
              \/ exists s, In s [lit "Retail Lending"] /\ In t (split (lower s))))
    /\ mongo_query [lit "CBN"] keywords
       = Or [ Field (lit "regulator.code") (QIn (map VStr [lit "CBN"]));
              Field (lit "tags") (QIn (map VStr keywords));
              third ]
    /\ (keywords = [] -> third = Field (lit "affected_entities") (QExists true))
    /\ (keywords <> [] ->
        third = Field (lit "affected_entities")
                      (QRegex (join (lit "|") (firstn 5 keywords)) (lit "i"))).
Proof.
  apply (keyword_filter_query Sample.world_first Sample.bank_profile
           (lit "Banking") [] [lit "Retail Lending"] [lit "CBN"]).
  - apply dedupe_ok.
  - reflexivity.
  - reflexivity.
  - reflexivity.
Defined.

Lemma lower_value_ok_stable (v : value) (s : str) :
  lower_value v = Ok s -> forallb Unicode.is_lower_stable s = true.
Proof.
  destruct v; simpl; intros H; try discriminate.
  injection H as <-. apply CaseFacts.lower_stable.
Qed.

Lemma field_keywords_stable (profile : doc) (key : str) (kws : list str) :
  field_keywords profile key = Ok kws ->
  forall kw, In kw kws -> forallb Unicode.is_lower_stable kw = true.
Proof.
  unfold field_keywords. destruct (truthy (get profile key VNone)).
  - intros H. apply bind_ok_inv in H as (v & _ & H).
    apply bind_ok_inv in H as (s & Hs & H). injection H as <-.
    intros kw [<-|[]]. eapply lower_value_ok_stable; eauto.
  - intros H. injection H as <-. intros kw [].
Qed.

Lemma service_keywords_stable (services : list value) : forall kws,
  service_keywords services = Ok kws ->
  forall kw, In kw kws -> forallb Unicode.is_lower_stable kw = true.
Proof.
  induction services as [|v r IH]; simpl; intros kws H.
  - injection H as <-. intros kw [].
  - apply bind_ok_inv in H as (s & Hs & H).
    apply bind_ok_inv in H as (more & Hmore & H). injection H as <-.
    intros kw Hin. apply in_app_or in Hin as [Hin|Hin].
    + pose proof (CaseFacts.split_forallb Unicode.is_lower_stable s
                    (lower_value_ok_stable _ _ Hs)) as Hall.
      rewrite forallb_forall in Hall. exact (Hall kw Hin).
    + eapply IH; eauto.
Qed.

(** Every keyword is in lower case: lower-casing it again changes
    nothing. *)
Lemma search_keywords_lower (w : World) (profile : doc) (keywords : list str) :
  set_order_ok w ->
  search_keywords w profile = Ok keywords ->
  forall kw, In kw keywords -> lower kw = kw.
Proof.
  intros Hset H kw Hin. unfold search_keywords in H.
  apply bind_ok_inv in H as (ind & Hind & H).
  apply bind_ok_inv in H as (cat & Hcat & H).
  apply bind_ok_inv in H as (services & _ & H).
  apply bind_ok_inv in H as (words & Hwords & H).
  injection H as <-.
  apply (proj1 (proj2 (Hset _) kw)) in Hin. apply filter_In in Hin as [Hin _].
  apply CaseFacts.lower_fixed.
  rewrite !in_app_iff in Hin. destruct Hin as [Hin | [Hin | Hin]].
  - exact (field_keywords_stable _ _ _ Hind kw Hin).
  - exact (field_keywords_stable _ _ _ Hcat kw Hin).
  - exact (service_keywords_stable _ _ Hwords kw Hin).
Qed.

Lemma matches_tags (rs : str -> str -> str -> bool) (keywords : list str) (d : doc) :
  matches rs (Field (lit "tags") (QIn (map VStr keywords))) d = true
  <-> exists t, In (VStr t) (tags_of d) /\ In t keywords.
Proof.
  change (matches rs (Field (lit "tags") (QIn (map VStr keywords))) d)
    with (existsb (fun x => existsb (value_eqb x) (map VStr keywords)) (tags_of d)).
  rewrite existsb_exists. split.
  - intros (x & Hx & Hm). apply existsb_exists in Hm as (y & Hy & Heq).
    apply in_map_iff in Hy as (t & <- & Ht).
    apply value_eqb_VStr in Heq. subst x. eauto.
  - intros (t & Ht & Hk). exists (VStr t). split; [exact Ht|].
    apply existsb_exists. exists (VStr t). split.
    + apply in_map. exact Hk.
    + apply value_eqb_VStr. reflexivity.
Qed.

(** C10. The second alternative of the query is the [tags] condition,
    and it is tested by equality: it selects a document exactly when the
    [tags] field, or one of its elements when it is an array, is a text
    equal to one of the keywords.  The keywords are all in lower case, so
    a document whose tags all contain a letter that lower-casing would
    change is not selected by this alternative. *)
Theorem tags_matched_exactly :
  forall (w : World) (profile : doc) (keywords suggested : list str) (d : doc),
    set_order_ok w ->
    search_keywords w profile = Ok keywords ->
    (exists first third,
       mongo_query suggested keywords
       = Or [first; Field (lit "tags") (QIn (map VStr keywords)); third])
    /\ (forall kw, In kw keywords -> lower kw = kw)
    /\ (matches (regex_search w) (Field (lit "tags") (QIn (map VStr keywords))) d
        = true
        <-> exists t, In (VStr t) (tags_of d) /\ In t keywords)
    /\ ((forall t, In (VStr t) (tags_of d) -> lower t <> t) ->
        matches (regex_search w) (Field (lit "tags") (QIn (map VStr keywords))) d
        = false).
Proof.
  intros w profile keywords suggested d Hset Hk.
  pose proof (search_keywords_lower w profile keywords Hset Hk) as Hlower.
  split; [|split; [|split]].
  - unfold mongo_query. eauto.
  - exact Hlower.
  - apply matches_tags.
  - intros Hcase.
    destruct (matches (regex_search w)
                (Field (lit "tags") (QIn (map VStr keywords))) d) eqn:E;
      [|reflexivity].
    apply matches_tags in E as (t & Ht & Hin).
    exfalso. exact (Hcase t Ht (Hlower t Hin)).
Qed.

Lemma tags_matched_exactly_witness :
  matches (regex_search Sample.world_first)
    (Field (lit "tags")
       (QIn (map VStr [lit "banking"; lit "retail"; lit "lending"])))
    (Sample.circular 4 "Prudential guidelines" "XYZ" ["Banking"%string])
  = false.
Proof.
  apply (proj2 (proj2 (proj2
           (tags_matched_exactly Sample.world_first Sample.bank_profile
              [lit "banking"; lit "retail"; lit "lending"] [lit "CBN"]
              (Sample.circular 4 "Prudential guidelines" "XYZ" ["Banking"%string])
              (dedupe_ok _ _ _ _) eq_refl)))).
  intros t [H | [H | []]]; try discriminate H.
  injection H as <-. vm_compute. discriminate.
Defined.

(** * Further properties *)

(** ** Serialising documents *)

(** Induction on values, through lists and dictionaries. *)
Lemma value_induction (P : value -> Prop) :
  P VNone ->
  (forall b, P (VBool b)) ->
  (forall n, P (VInt n)) ->
  (forall s, P (VStr s)) ->
  (forall b, P (VObjectId b)) ->
  (forall items, Forall P items -> P (VList items)) ->
  (forall fields, Forall (fun kv => P (snd kv)) fields -> P (VDict fields)) ->
  forall v, P v.
Proof.
  intros HNone HBool HInt HStr HOid HList HDict.
  fix IH 1. intros [ | b | n | s | b | items | fields].
  - exact HNone.
  - apply HBool.
  - apply HInt.
  - apply HStr.
  - apply HOid.
  - apply HList. induction items as [|x r IHr]; constructor; [apply IH | exact IHr].
  - apply HDict. induction fields as [|[k x] r IHr]; constructor;
      [apply IH | exact IHr].
Qed.

(** X1. A serialised value holds no [ObjectId] at any depth. *)
Theorem serialize_doc_no_objectid :
  forall v : value, Documents.has_objectid (serialize_doc v) = false.
Proof.
  induction v as [ | b | n | s | b | items IH | fields IH] using value_induction;
    try reflexivity.
  - cbn [serialize_doc Documents.has_objectid].
    induction IH as [|x r Hx _ IHr]; [reflexivity|].
    cbn [map existsb]. rewrite Hx, IHr. reflexivity.
  - cbn [serialize_doc Documents.has_objectid].
    induction IH as [|[k x] r Hx _ IHr]; [reflexivity|].
    cbn [map existsb]. simpl in Hx. rewrite Hx, IHr. reflexivity.
Qed.

(** X2. A value that holds no [ObjectId] is returned as it is. *)
Theorem serialize_doc_unchanged :
  forall v : value, Documents.has_objectid v = false -> serialize_doc v = v.
Proof.
  induction v as [ | b | n | s | b | items IH | fields IH] using value_induction;
    intros H; try reflexivity.
  - discriminate H.
  - cbn [serialize_doc]. f_equal. cbn [Documents.has_objectid] in H.
    induction IH as [|x r Hx _ IHr]; [reflexivity|].
    cbn [existsb] in H. apply orb_false_iff in H as [H1 H2].
    cbn [map]. rewrite (Hx H1), (IHr H2). reflexivity.
  - cbn [serialize_doc]. f_equal. cbn [Documents.has_objectid] in H.
    induction IH as [|[k x] r Hx _ IHr]; [reflexivity|].
    cbn [existsb] in H. apply orb_false_iff in H as [H1 H2].
    cbn [map]. simpl in Hx. rewrite (Hx H1), (IHr H2). reflexivity.
Qed.

Lemma serialize_doc_unchanged_witness :
  serialize_doc (VDict Sample.bank_text_key) = VDict Sample.bank_text_key.
Proof.
  apply (serialize_doc_unchanged (VDict Sample.bank_text_key)).
  vm_compute. reflexivity.
Defined.

(** X3. Serialising twice is serialising once. *)
Theorem serialize_doc_idempotent :
  forall v : value, serialize_doc (serialize_doc v) = serialize_doc v.
Proof.
  induction v as [ | b | n | s | b | items IH | fields IH] using value_induction;
    try reflexivity.
  - cbn [serialize_doc]. f_equal.
    induction IH as [|x r Hx _ IHr]; [reflexivity|].
    cbn [map]. rewrite Hx, IHr. reflexivity.
  - cbn [serialize_doc]. f_equal.
    induction IH as [|[k x] r Hx _ IHr]; [reflexivity|].
    cbn [map]. simpl in Hx. rewrite Hx, IHr. reflexivity.
Qed.

(** ** Requests made to the completion service *)

Lemma extends_refl w n calls : extends w n calls calls.
Proof.
  exists []. rewrite app_nil_r. repeat split; [simpl; lia | intros req []].
Qed.

Lemma extends_bind {A B : Type} w a b (m : M A) (k : A -> M B) calls :
  extends w a calls (snd (m calls)) ->
  (forall x calls1, extends w b calls1 (snd (k x calls1))) ->
  extends w (a + b) calls (snd (bindM m k calls)).
Proof.
  intros (new1 & H1 & Hlen1 & Hm1) Hk. unfold bindM.
  destruct (m calls) as [[x|e] c1]; simpl in H1; subst c1.
  - destruct (Hk x (calls ++ new1)) as (new2 & H2 & Hlen2 & Hm2).
    exists (new1 ++ new2). rewrite H2, app_assoc. split; [reflexivity|].
    split; [rewrite length_app; lia|].
    intros req Hin. apply in_app_or in Hin as [Hin|Hin]; auto.
  - exists new1. repeat split; [lia | exact Hm1].
Qed.

Lemma extends_one {X : Type} w calls req (r : res X) :
  model req = AZURE_OPENAI_DEPLOYMENT w ->
  extends w 1 calls (snd (r, calls ++ [req])).
Proof.
  intros Hm. exists [req]. repeat split; [simpl; lia|].
  intros req' [<-|[]]. exact Hm.
Qed.

Lemma suggest_regulators_extends w p calls :
  extends w 1 calls (snd (suggest_regulators w p calls)).
Proof.
  unfold suggest_regulators, bindM, lift, create, ret.
  destruct (suggest_prompt p) as [up|e]; [|apply extends_refl].
  destruct (completions_create w calls (suggest_request w up)) as [m|choices];
    [apply extends_one; reflexivity|].
  destruct (first_content choices); apply extends_one; reflexivity.
Qed.

Lemma ai_filter_circulars_extends w p cs calls :
  extends w 1 calls (snd (ai_filter_circulars w p cs calls)).
Proof.
  unfold ai_filter_circulars. destruct cs as [|c cs]; [apply extends_refl|].
  unfold bindM, lift, try_exceptM, create, ret.
  destruct (circulars_text_from 0 (c :: cs)) as [text|e]; [|apply extends_refl].
  destruct (filter_prompt p text) as [up|e]; [|apply extends_refl].
  destruct (completions_create w calls (filter_request w up)) as [m|choices];
    [apply extends_one; reflexivity|].
  destruct (read_reply (c :: cs) choices); apply extends_one; reflexivity.
Qed.

Lemma match_circulars_extends w id calls :
  extends w 2 calls (snd (match_circulars w id calls)).
Proof.
  unfold match_circulars.
  apply (extends_bind w 0 2); [apply extends_refl|]. intros ecosystem_data c0.
  destruct (negb (truthy ecosystem_data)); [apply extends_refl|].
  apply (extends_bind w 0 2); [apply extends_refl|]. intros profile c1.
  apply (extends_bind w 1 1); [apply suggest_regulators_extends|].
  intros suggested c2.
  apply (extends_bind w 0 1); [apply extends_refl|]. intros keywords c3.
  apply (extends_bind w 0 1); [apply extends_refl|]. intros candidates c9.
  apply (extends_bind w 1 0).
  { destruct (0 <? _)%Z; [apply ai_filter_circulars_extends | apply extends_refl]. }
  intros rel c4.
  apply (extends_bind w 0 0); [apply extends_refl|]. intros name c5.
  apply (extends_bind w 0 0); [apply extends_refl|]. intros resp c6.
  apply extends_refl.
Qed.

(** X4. Whatever the outcome, one run of the matching endpoint adds at
    most two requests to those already made to the completion service and
    keeps the earlier ones; when the company is not found, and when the
    lookup raises, it adds none; and every request it makes names the
    configured deployment. *)
Theorem match_circulars_requests :
  forall (w : World) (id : str) (calls : list request),
    exists new,
      snd (match_circulars_for_company w id calls) = calls ++ new
      /\ (List.length new <= 2)%nat
      /\ (find_company w id = Ok VNone -> new = [])
      /\ (forall e, find_company w id = Raise e -> new = [])
      /\ forall req, In req new -> model req = AZURE_OPENAI_DEPLOYMENT w.
Proof.
  intros w id calls.
  assert (Hsnd : snd (match_circulars_for_company w id calls)
                 = snd (match_circulars w id calls)).
  { rewrite match_circulars_for_company_eq.
    destruct (match_circulars w id calls) as [[r|e] c]; reflexivity. }
  rewrite Hsnd.
  destruct (match_circulars_extends w id calls) as (new & Hnew & Hlen & Hmodel).
  exists new. repeat split; auto.
  - intros Hn. unfold match_circulars, bindM, lift in Hnew.
    rewrite Hn in Hnew. simpl in Hnew.
    rewrite <- (app_nil_r calls) in Hnew at 1.
    apply app_inv_head in Hnew. symmetry. exact Hnew.
  - intros e He. unfold match_circulars, bindM, lift in Hnew.
    rewrite He in Hnew. simpl in Hnew.
    rewrite <- (app_nil_r calls) in Hnew at 1.
    apply app_inv_head in Hnew. symmetry. exact Hnew.
Qed.

(** ** Documents of the expected shape *)

Lemma forallb_is_text (items : list value) :
  forallb Documents.is_text items = true -> exists ts, items = map VStr ts.
Proof.
  induction items as [|x r IH]; intros H; [exists []; reflexivity|].
  cbn [forallb] in H. apply andb_prop in H as [Hx Hr].
  destruct x; try discriminate Hx. destruct (IH Hr) as (ts & ->).
  exists (s :: ts). reflexivity.
Qed.

Lemma absent_or_text d key dflt :
  Documents.absent_or Documents.is_text d key = true ->
  exists s, get d (lit key) (VStr dflt) = VStr s.
Proof.
  unfold Documents.absent_or, get. destruct (lookup (lit key) d) as [v|]; eauto.
  destruct v; try discriminate. eauto.
Qed.

Lemma absent_or_texts d key :
  Documents.absent_or Documents.is_texts d key = true ->
  exists ts, get d (lit key) (VList []) = VList (map VStr ts).
Proof.
  unfold Documents.absent_or, get. destruct (lookup (lit key) d) as [v|].
  - destruct v; try discriminate. intros H.
    destruct (forallb_is_text _ H) as (ts & ->). eauto.
  - exists []. reflexivity.
Qed.

Lemma absent_or_dict d key :
  Documents.absent_or is_dict d key = true ->
  exists c, get d (lit key) (VDict []) = VDict c.
Proof.
  unfold Documents.absent_or, get. destruct (lookup (lit key) d) as [v|]; eauto.
  destruct v; try discriminate. eauto.
Qed.

Lemma map_res_as_str (ts : list str) : map_res as_str (map VStr ts) = Ok ts.
Proof.
  induction ts as [|t r IH]; [reflexivity|]. cbn [map map_res as_str].
  rewrite IH. reflexivity.
Qed.

Lemma join_value_texts sep (ts : list str) :
  join_value sep (VList (map VStr ts)) = Ok (join sep ts).
Proof.
  unfold join_value. cbn [iterate]. rewrite map_res_as_str. reflexivity.
Qed.

Lemma slice_to_texts n (ts : list str) :
  slice_to n (VList (map VStr ts)) = Ok (VList (map VStr (firstn n ts))).
Proof. cbn [slice_to]. rewrite firstn_map. reflexivity. Qed.

Lemma company_profile_shaped (d : doc) :
  Documents.company_shape d = true ->
  exists name industry category subcategory services description country,
    App.company_profile (VDict d)
    = Ok (Documents.shaped_profile name industry category subcategory services
            description country).
Proof.
  unfold Documents.company_shape. intros H.
  repeat (apply andb_prop in H as [H ?]).
  destruct (absent_or_text d "name" (lit "Unknown Company") H) as (n & Hn).
  destruct (absent_or_text d "industry" [] H4) as (i & Hi).
  destruct (absent_or_text d "businessCategory" [] H3) as (c & Hc).
  destruct (absent_or_texts d "services" H2) as (sv & Hsv).
  destruct (absent_or_text d "description" [] H1) as (ds & Hds).
  destruct (absent_or_dict d "country" H0) as (co & Hco).
  exists n, i, c, (get d (lit "businessSubCategory") (VStr [])), sv, ds,
    (get co (lit "name") (VStr (lit "Nigeria"))).
  unfold App.company_profile, py_get. cbn [bind].
  rewrite Hn, Hi, Hc, Hsv, Hds, Hco. reflexivity.
Qed.

Lemma circular_text_shaped (idx : nat) (c : doc) :
  Documents.circular_shape c = true -> exists t, circular_text idx c = Ok t.
Proof.
  unfold Documents.circular_shape. intros H.
  repeat (apply andb_prop in H as [H ?]).
  destruct (absent_or_texts c "tags" H0) as (tags & Htags).
  destruct (absent_or_texts c "affected_entities" H1) as (ents & Hents).
  assert (Hd : exists s,
            py_get (get c (lit "description") (VDict [])) (lit "summary")
                   (VStr (lit "N/A")) = Ok (VStr s)).
  { unfold Documents.absent_or in H. unfold get at 1.
    destruct (lookup (lit "description") c) as [v|].
    - destruct v; try discriminate H.
      destruct (absent_or_text fields "summary" (lit "N/A") H) as (s & Hs).
      exists s. cbn [py_get]. rewrite Hs. reflexivity.
    - eexists. reflexivity. }
  destruct Hd as (s & Hd).
  unfold circular_text. rewrite Hd. cbn [bind slice_to].
  rewrite Hents, slice_to_texts. cbn [bind]. rewrite join_value_texts.
  cbn [bind]. rewrite Htags, slice_to_texts. cbn [bind].
  rewrite join_value_texts. cbn [bind]. eauto.
Qed.

Lemma circulars_text_from_shaped (cs : list doc) : forall idx,
  forallb Documents.circular_shape cs = true ->
  exists t, circulars_text_from idx cs = Ok t.
Proof.
  induction cs as [|c r IH]; intros idx H; [eexists; reflexivity|].
  cbn [forallb] in H. apply andb_prop in H as [Hc Hr].
  destruct (circular_text_shaped idx c Hc) as (t & Ht).
  destruct (IH (S idx) Hr) as (ts & Hts).
  cbn [circulars_text_from]. rewrite Ht. cbn [bind]. rewrite Hts. cbn [bind].
  eauto.
Qed.

(** Once its prompt is built, the classifier raises nothing. *)
Lemma ai_filter_circulars_total w p cs calls text up :
  circulars_text_from 0 cs = Ok text ->
  filter_prompt p text = Ok up ->
  exists rel calls', ai_filter_circulars w p cs calls = (Ok rel, calls').
Proof.
  intros Htext Hprompt. unfold ai_filter_circulars.
  destruct cs as [|c cs]; [eexists _, _; reflexivity|].
  rewrite (bindM_lift_ok _ _ _ _ Htext), (bindM_lift_ok _ _ _ _ Hprompt).
  unfold try_exceptM, bindM, create, lift, ret.
  destruct (completions_create w calls (filter_request w up)) as [m|choices];
    [eexists _, _; reflexivity|].
  destruct (read_reply (c :: cs) choices); eexists _, _; reflexivity.
Qed.

Lemma serialized_dicts (rel : list doc) :
  forallb is_dict (map serialize_doc (map VDict rel)) = true.
Proof. induction rel as [|d r IH]; [reflexivity | exact IH]. Qed.

Lemma forallb_filter {A : Type} (p q : A -> bool) (l : list A) :
  forallb p l = true -> forallb p (filter q l) = true.
Proof.
  rewrite !forallb_forall. intros H x Hin. apply filter_In in Hin as [Hin _].
  auto.
Qed.

(** The endpoint after its first stages: what is left is the query of the
    store, the classifier and the response. *)
Lemma match_circulars_stages w id calls d profile suggested calls1 keywords :
  find_company w id = Ok (VDict d) -> d <> [] ->
  App.company_profile (VDict d) = Ok profile ->
  suggest_regulators w profile calls = (Ok suggested, calls1) ->
  search_keywords w
    (set_item profile (lit "suggested_regulators") (VList (map VStr suggested)))
  = Ok keywords ->
  match_circulars w id calls
  = match find (regex_search w) (regulations_failure w)
               (mongo_query suggested keywords) (regulations w) with
    | Raise e => (Raise e, calls1)
    | Ok candidates =>
        let profile' :=
          set_item profile (lit "suggested_regulators")
                   (VList (map VStr suggested)) in
        (relevant <-
           (if (0 <? Z.of_nat (List.length candidates))%Z
            then ai_filter_circulars w profile' candidates
            else ret []) ;;
         name <- lift (subscript profile' (lit "name")) ;;
         response <-
           lift (new_CircularMatchResponse name
                   (Z.of_nat (List.length relevant))
                   (serialize_doc (VList (map VDict relevant)))) ;;
         ret (candidates, response))%M calls1
    end.
Proof.
  intros Hfound Hne Hprofile Hsuggest Hkw. unfold match_circulars.
  rewrite (bindM_lift_ok _ _ _ _ Hfound).
  destruct d as [|kv d]; [congruence|]. cbn [truthy negb].
  rewrite (bindM_lift_ok _ _ _ _ Hprofile), (bindM_ok _ _ _ _ _ Hsuggest).
  rewrite (bindM_lift_ok _ _ _ _ Hkw).
  destruct (find _ _ _ _) as [candidates|e]; reflexivity.
Qed.

(** X5. When the company document and the stored regulations have the
    expected shape (texts, lists of texts and dictionaries where they are
    present) and the service answers the advisor's request with a reply
    text, the first stages complete, and the answer of the endpoint is
    decided by the store alone.  When the store answers the query built
    from the suggestions and the keywords, the endpoint answers 200:
    whatever the classifier's call does -- answer, raise or send nonsense
    -- no later stage fails.  When the store does not answer it -- the
    keywords go into the [$regex] as they are, so they may form no regular
    expression -- the endpoint raises the store's error after the
    advisor's request, and the answer is 500. *)
Theorem match_circulars_well_formed :
  forall (w : World) (id : str) (calls : list request) (d : doc),
    find_company w id = Ok (VDict d) ->
    Documents.company_shape d = true ->
    forallb Documents.circular_shape (regulations w) = true ->
    (forall req, exists reply others,
        completions_create w calls req = Response (Some reply :: others)) ->
    exists profile suggested keywords calls1,
      App.company_profile (VDict d) = Ok profile
      /\ suggest_regulators w profile calls = (Ok suggested, calls1)
      /\ search_keywords w
           (set_item profile (lit "suggested_regulators")
                     (VList (map VStr suggested)))
         = Ok keywords
      /\ (regulations_failure w (mongo_query suggested keywords) = None ->
          exists response calls',
            match_circulars_for_company w id calls = (Ok response, calls')
            /\ status_code (fst (match_circulars_for_company w id calls)) = 200)
      /\ (forall message,
            regulations_failure w (mongo_query suggested keywords) = Some message ->
            match_circulars_for_company w id calls
            = (Raise (PyMongoError message), calls1)
            /\ status_code (fst (match_circulars_for_company w id calls)) = 500).
Proof.
  intros w id calls d Hfound Hshape Hregs Hservice.
  assert (Hne : d <> []).
  { destruct (find_company_cases w id _ Hfound) as [H | (d' & H & Hne)];
      [discriminate|].
    injection H as ->. exact Hne. }
  destruct (company_profile_shaped d Hshape)
    as (n & i & c & sub & sv & ds & co & Hprofile).
  set (profile := Documents.shaped_profile n i c sub sv ds co) in *.
  assert (Hsp : exists up, suggest_prompt profile = Ok up).
  { unfold suggest_prompt.
    change (get profile (lit "services") (VList [])) with (VList (map VStr sv)).
    rewrite join_value_texts. cbn [bind]. eauto. }
  destruct Hsp as (up & Hup).
  destruct (Hservice (suggest_request w up)) as (reply & others & Hcall).
  assert (Hsuggest : exists suggested,
            suggest_regulators w profile calls
            = (Ok suggested, calls ++ [suggest_request w up])).
  { unfold suggest_regulators. rewrite (bindM_lift_ok _ _ _ _ Hup).
    unfold bindM, create, lift, ret. rewrite Hcall. cbn [first_content].
    eauto. }
  destruct Hsuggest as (suggested & Hsuggest).
  set (profile' := set_item profile (lit "suggested_regulators")
                            (VList (map VStr suggested))).
  assert (Hkw : exists keywords, search_keywords w profile' = Ok keywords).
  { unfold search_keywords.
    rewrite (field_keywords_text profile' (lit "industry") i eq_refl).
    rewrite (field_keywords_text profile' (lit "businessCategory") c eq_refl).
    cbn [bind].
    change (get profile' (lit "services") (VList [])) with (VList (map VStr sv)).
    cbn [iterate bind]. rewrite service_keywords_texts. cbn [bind]. eauto. }
  destruct Hkw as (keywords & Hkw).
  exists profile, suggested, keywords, (calls ++ [suggest_request w up]).
  split; [exact Hprofile|]. split; [exact Hsuggest|]. split; [exact Hkw|].
  pose proof (match_circulars_stages w id calls d profile suggested _ keywords
                Hfound Hne Hprofile Hsuggest Hkw) as Hrun.
  unfold find in Hrun. split.
  - intros Hanswer. rewrite Hanswer in Hrun. cbv zeta in Hrun.
    fold profile' in Hrun.
    set (candidates := filter (matches (regex_search w)
                                       (mongo_query suggested keywords))
                              (regulations w)) in *.
    assert (Hcs : forallb Documents.circular_shape candidates = true)
      by (apply forallb_filter; exact Hregs).
    destruct (circulars_text_from_shaped candidates 0 Hcs) as (text & Htext).
    assert (Hfp : exists up2, filter_prompt profile' text = Ok up2).
    { unfold filter_prompt.
      change (get profile' (lit "services") (VList [])) with (VList (map VStr sv)).
      rewrite join_value_texts. cbn [bind].
      change (get profile' (lit "description") (VStr (lit "N/A"))) with (VStr ds).
      cbn [slice_to bind]. eauto. }
    destruct Hfp as (up2 & Hfp).
    assert (Hrel : exists rel c4,
              (if (0 <? Z.of_nat (List.length candidates))%Z
               then ai_filter_circulars w profile' candidates
               else ret []) (calls ++ [suggest_request w up])
              = (Ok rel, c4)).
    { destruct (0 <? _)%Z.
      - eapply ai_filter_circulars_total; eauto.
      - eexists _, _. reflexivity. }
    destruct Hrel as (rel & c4 & Hrel).
    rewrite (bindM_ok _ _ _ _ _ Hrel) in Hrun.
    assert (Hname : subscript profile' (lit "name") = Ok (VStr n)) by reflexivity.
    rewrite (bindM_lift_ok _ _ _ _ Hname) in Hrun.
    unfold new_CircularMatchResponse in Hrun. cbn [serialize_doc] in Hrun.
    rewrite serialized_dicts in Hrun.
    unfold bindM, lift, ret in Hrun.
    rewrite match_circulars_for_company_eq, Hrun. eexists _, _.
    split; reflexivity.
  - intros message Hrefused. rewrite Hrefused in Hrun.
    rewrite match_circulars_for_company_eq, Hrun. split; reflexivity.
Qed.

Lemma match_circulars_well_formed_witness :
  exists response calls',
    match_circulars_for_company Sample.world_classifier_down Sample.company_id []
    = (Ok response, calls')
    /\ status_code
         (fst (match_circulars_for_company Sample.world_classifier_down
                 Sample.company_id []))
       = 200.
Proof.
  destruct (match_circulars_well_formed Sample.world_classifier_down
              Sample.company_id [] Sample.bank)
    as (profile & suggested & keywords & calls1 & _ & _ & _ & Hanswered & _).
  - vm_compute. reflexivity.
  - vm_compute. reflexivity.
  - vm_compute. reflexivity.
  - intros req. exists (lit "CBN"), []. reflexivity.
  - apply Hanswered. reflexivity.
Defined.

(** A company with the service [Loans (SME]: the keywords joined are no
    regular expression, the store refuses the query, and the answer is
    500 after the advisor's request. *)
Lemma match_circulars_unescaped_keywords :
  search_keywords Sample.world_lender
    (set_item Sample.lender_profile (lit "suggested_regulators")
              (VList [VStr (lit "CBN")]))
  = Ok [lit "banking"; lit "loans"; lit "(sme"]
  /\ match_circulars_for_company Sample.world_lender Sample.company_id []
     = (Raise (PyMongoError (lit "Regular expression is invalid")),
        [suggest_request Sample.world_lender
           (Sample.advisor_prompt_of Sample.lender_profile)])
  /\ status_code
       (fst (match_circulars_for_company Sample.world_lender Sample.company_id []))
     = 500.
Proof. split; [|split]; vm_compute; reflexivity. Qed.

(** ** What the classifier's handler does not cover *)

Lemma circular_text_bad_description idx c v :
  lookup (lit "description") c = Some v -> is_dict v = false ->
  circular_text idx c = Raise AttributeError.
Proof.
  intros Hl Hv. unfold circular_text, get. rewrite Hl.
  destruct v; try reflexivity. discriminate Hv.
Qed.

Lemma circulars_text_from_raises (cs : list doc) : forall idx,
  (exists c v, In c cs /\ lookup (lit "description") c = Some v
               /\ is_dict v = false) ->
  exists e, circulars_text_from idx cs = Raise e.
Proof.
  induction cs as [|c r IH]; intros idx (c' & v & Hin & Hl & Hv);
    [contradiction|].
  cbn [circulars_text_from].
  destruct (circular_text idx c) as [block|e] eqn:Eb; [|eexists; reflexivity].
  destruct Hin as [->|Hin].
  - rewrite (circular_text_bad_description idx c' v Hl Hv) in Eb. discriminate.
  - destruct (IH (S idx)) as (e & He); [eauto|].
    cbn [bind]. rewrite He. eexists. reflexivity.
Qed.

(** X6. The texts describing the candidates are built before the [try]:
    when some candidate has a [description] field that is not a
    dictionary, [ai_filter_circulars] raises instead of falling back to
    the candidates, and no request is made to the service. *)
Theorem ai_filter_circulars_bad_candidate :
  forall (w : World) (profile : doc) (circulars : list doc)
         (calls : list request),
    (exists c v, In c circulars /\ lookup (lit "description") c = Some v
                 /\ is_dict v = false) ->
    exists e,
      ai_filter_circulars w profile circulars calls = (Raise e, calls)
      /\ is_http e = false.
Proof.
  intros w profile circulars calls Hbad.
  destruct (circulars_text_from_raises circulars 0 Hbad) as (e & He).
  exists e. split.
  - unfold ai_filter_circulars.
    destruct circulars as [|c cs];
      [destruct Hbad as (c & v & [] & _)|].
    unfold bindM, lift. rewrite He. reflexivity.
  - eapply circulars_text_from_no_http; eauto.
Qed.

Lemma ai_filter_circulars_bad_candidate_witness :
  exists e,
    ai_filter_circulars Sample.world_first Sample.bank
      [Sample.circular_tagged; (lit "description", VStr (lit "Notice")) :: Sample.circular_cbn]
      []
    = (Raise e, [])
    /\ is_http e = false.
Proof.
  apply (ai_filter_circulars_bad_candidate Sample.world_first Sample.bank
           [Sample.circular_tagged;
            (lit "description", VStr (lit "Notice")) :: Sample.circular_cbn] []).
  exists ((lit "description", VStr (lit "Notice")) :: Sample.circular_cbn),
    (VStr (lit "Notice")).
  split; [right; left; reflexivity|]. split; reflexivity.
Defined.

(** ** The suggestion endpoint *)

Lemma suggest_regulators_same_prompt w p p' :
  suggest_prompt p = suggest_prompt p' ->
  suggest_regulators w p = suggest_regulators w p'.
Proof. intros H. unfold suggest_regulators. rewrite H. reflexivity. Qed.

Lemma profiles_agree (v : value) (profile : doc) :
  App.company_profile v = Ok profile ->
  exists profile' name,
    Suggest.company_profile v = Ok profile'
    /\ suggest_prompt profile' = suggest_prompt profile
    /\ py_get v (lit "name") (VStr (lit "Unknown Company")) = Ok name
    /\ forall x, subscript (set_item profile (lit "suggested_regulators") x)
                           (lit "name") = Ok name.
Proof.
  destruct v; try discriminate.
  unfold App.company_profile, Suggest.company_profile, py_get. cbn [bind].
  destruct (get fields (lit "country") (VDict [])); try discriminate.
  cbn [bind]. intros H. injection H as <-.
  eexists _, _. split; [reflexivity|]. split; [reflexivity|].
  split; reflexivity.
Qed.

Lemma suggest_regulators_codes w p calls suggested calls' :
  suggest_regulators w p calls = (Ok suggested, calls') ->
  (forall code, In code suggested -> In code (map fst regulators))
  /\ exists req, calls' = calls ++ [req].
Proof.
  unfold suggest_regulators. intros H.
  apply bindM_ok_inv in H as (up & c1 & H1 & H).
  apply lift_inv in H1 as [_ ->].
  apply bindM_ok_inv in H as (choices & c2 & H2 & H).
  unfold create in H2. injection H2 as _ <-.
  apply bindM_ok_inv in H as (content & c3 & H3 & H).
  apply lift_inv in H3 as [_ ->].
  apply ret_inv in H as [H ->]. injection H as ->.
  split; [|eauto].
  intros code Hin.
  assert (Hv : In code (valid_codes content))
    by (destruct (valid_codes content); [destruct Hin | exact Hin]).
  unfold valid_codes in Hv. apply filter_In in Hv as [_ Hv].
  apply in_regulators_In. exact Hv.
Qed.

(** X7. The suggestion endpoint answers 404, without any request to the
    service, when the company lookup finds nothing; when it completes,
    the company was found, every regulator in its response is a code of
    the table and exactly one request was made. *)
Theorem suggest_regulators_for_company_answers :
  forall (w : World) (id : str) (calls : list request),
    (find_company w id = Ok VNone ->
     Suggest.suggest_regulators_for_company w id calls
     = (Raise (HTTPException 404 (lit "Company not found in ecosystem database")),
        calls))
    /\ forall response calls',
         Suggest.suggest_regulators_for_company w id calls = (Ok response, calls') ->
         (exists d, find_company w id = Ok (VDict d) /\ d <> [])
         /\ (forall code, In code (Suggest.suggested_regulators response) ->
                          In code (map fst regulators))
         /\ exists req, calls' = calls ++ [req].
Proof.
  intros w id calls. unfold Suggest.suggest_regulators_for_company. split.
  - intros H. rewrite (bindM_lift_ok _ _ _ _ H). reflexivity.
  - intros response calls' H.
    apply bindM_ok_inv in H as (ecosystem_data & c0 & Hfound & H).
    apply lift_inv in Hfound as [Hfound ->].
    split.
    { destruct (find_company_cases w id _ Hfound) as [-> | (d & -> & Hne)];
        [discriminate H | eauto]. }
    destruct (negb (truthy ecosystem_data)); [discriminate H|].
    apply bindM_ok_inv in H as (profile & c1 & H1 & H).
    apply lift_inv in H1 as [_ ->].
    apply bindM_ok_inv in H as (suggested & c2 & H2 & H).
    apply bindM_ok_inv in H as (name & c3 & H3 & H).
    apply lift_inv in H3 as [_ ->].
    apply lift_inv in H as [H ->].
    unfold Suggest.new_RegulatorSuggestionResponse in H.
    destruct name; try discriminate H. injection H as <-. simpl.
    eapply suggest_regulators_codes; eauto.
Qed.

Lemma suggest_regulators_for_company_answers_witness :
  Suggest.suggest_regulators_for_company Sample.world_no_company
    Sample.company_id []
  = (Raise (HTTPException 404 (lit "Company not found in ecosystem database")),
     []).
Proof.
  apply (proj1 (suggest_regulators_for_company_answers Sample.world_no_company
                  Sample.company_id [])).
  reflexivity.
Defined.

(** A completed call of the advisor: its one request, and the outcome of
    the service its result was read from. *)
Lemma suggest_regulators_ok_inv w p calls suggested calls' :
  suggest_regulators w p calls = (Ok suggested, calls') ->
  exists up choices message_content,
    suggest_prompt p = Ok up
    /\ calls' = calls ++ [suggest_request w up]
    /\ completions_create w calls (suggest_request w up) = Response choices
    /\ first_content choices = Ok message_content
    /\ suggested = match valid_codes message_content with
                   | [] => []
                   | _ => valid_codes message_content
                   end.
Proof.
  unfold suggest_regulators. intros H.
  apply bindM_ok_inv in H as (up & c1 & H1 & H).
  apply lift_inv in H1 as [H1 ->].
  apply bindM_ok_inv in H as (choices & c2 & H2 & H).
  unfold create in H2.
  destruct (completions_create w calls (suggest_request w up)) as [m|choices']
    eqn:Ecall; [discriminate H2|].
  injection H2 as -> <-.
  apply bindM_ok_inv in H as (content & c3 & H3 & H).
  apply lift_inv in H3 as [H3 ->].
  apply ret_inv in H as [H ->]. injection H as ->.
  exists up, choices, content. auto.
Qed.

(** X8. The two endpoints put the same question to the advisor.  For one
    company identifier, take a completed run of the matching endpoint and
    a completed run of the suggestion endpoint, each started from its own
    list of requests already made.  Both report the same company name; the
    one request the suggestion endpoint makes is the first request the
    matching endpoint makes; and if the service gave that request the same
    outcome in the two runs, the regulators the suggestion endpoint
    reports are the very regulators the matching endpoint puts in its
    query.  Of two runs the service answered differently nothing of the
    kind is said. *)
Theorem endpoints_agree :
  forall (w : World) (id : str)
         (calls_m calls_m' calls_s calls_s' : list request)
         (candidates : list doc) (response : CircularMatchResponse)
         (suggestion : Suggest.RegulatorSuggestionResponse),
    match_circulars w id calls_m = (Ok (candidates, response), calls_m') ->
    Suggest.suggest_regulators_for_company w id calls_s
    = (Ok suggestion, calls_s') ->
    Suggest.company_name suggestion = company_name response
    /\ exists req later,
         calls_m' = calls_m ++ req :: later
         /\ calls_s' = calls_s ++ [req]
         /\ (completions_create w calls_m req = completions_create w calls_s req ->
             exists keywords,
               find (regex_search w) (regulations_failure w)
                    (mongo_query (Suggest.suggested_regulators suggestion)
                                 keywords)
                    (regulations w)
               = Ok candidates).
Proof.
  intros w id calls_m calls_m' calls_s calls_s' candidates response suggestion
         Hm Hs.
  unfold match_circulars in Hm. unfold Suggest.suggest_regulators_for_company in Hs.
  apply bindM_ok_inv in Hm as (ecosystem_data & c0 & Hfound & Hm).
  apply lift_inv in Hfound as [Hfound ->].
  rewrite (bindM_lift_ok _ _ _ _ Hfound) in Hs.
  destruct (negb (truthy ecosystem_data)); [discriminate Hm|].
  apply bindM_ok_inv in Hm as (profile & c1 & Hp & Hm).
  apply lift_inv in Hp as [Hp ->].
  destruct (profiles_agree _ _ Hp) as (profile' & name & Hp' & Hprompt & Hname & Hsub).
  rewrite (bindM_lift_ok _ _ _ _ Hp') in Hs.
  rewrite (suggest_regulators_same_prompt w _ _ Hprompt) in Hs.
  apply bindM_ok_inv in Hm as (suggested & c2 & Hsug & Hm).
  apply bindM_ok_inv in Hs as (suggested_s & c2s & Hsug_s & Hs).
  rewrite (bindM_lift_ok _ _ _ _ Hname) in Hs.
  apply lift_inv in Hs as [Hs ->].
  apply bindM_ok_inv in Hm as (keywords & c3 & Hkw & Hm).
  apply lift_inv in Hkw as [_ ->].
  apply bindM_ok_inv in Hm as (found & c9 & Hcands & Hm).
  apply lift_inv in Hcands as [Hcands ->].
  apply bindM_ok_inv in Hm as (rel & c4 & Hrel & Hm).
  rewrite (bindM_lift_ok _ _ _ _ (Hsub _)) in Hm.
  apply bindM_ok_inv in Hm as (resp & c5 & Hresp & Hm).
  apply lift_inv in Hresp as [Hresp ->].
  apply ret_inv in Hm as [Hm ->]. injection Hm as -> ->.
  unfold Suggest.new_RegulatorSuggestionResponse in Hs.
  unfold new_CircularMatchResponse in Hresp.
  destruct name; try discriminate Hs. injection Hs as <-.
  cbn [serialize_doc] in Hresp.
  destruct (forallb is_dict _); [|discriminate Hresp].
  injection Hresp as <-. cbn [Suggest.company_name company_name
                              Suggest.suggested_regulators].
  split; [reflexivity|].
  apply suggest_regulators_ok_inv in Hsug
    as (up & choices & content & Hup & -> & Hcall & Hcontent & Hcodes).
  apply suggest_regulators_ok_inv in Hsug_s
    as (up_s & choices_s & content_s & Hup_s & -> & Hcall_s & Hcontent_s & Hcodes_s).
  rewrite Hup in Hup_s. injection Hup_s as <-.
  assert (Hlater : exists later, c4 = (calls_m ++ [suggest_request w up]) ++ later).
  { destruct (0 <? _)%Z.
    - pose proof (ai_filter_circulars_extends w
                    (set_item profile (lit "suggested_regulators")
                              (VList (map VStr suggested)))
                    found (calls_m ++ [suggest_request w up]))
        as (new & Hnew & _).
      rewrite Hrel in Hnew. eauto.
    - apply ret_inv in Hrel as [_ ->]. exists []. rewrite app_nil_r. reflexivity. }
  destruct Hlater as (later & ->).
  exists (suggest_request w up), later.
  split; [rewrite <- app_assoc; reflexivity|]. split; [reflexivity|].
  intros Hsame. rewrite Hcall, Hcall_s in Hsame. injection Hsame as <-.
  rewrite Hcontent in Hcontent_s. injection Hcontent_s as <-.
  exists keywords. rewrite Hcodes_s, <- Hcodes. exact Hcands.
Qed.

Lemma endpoints_agree_witness :
  Suggest.company_name SampleRuns.suggestion
  = company_name SampleRuns.response
  /\ Suggest.suggested_regulators SampleRuns.suggestion = [lit "CBN"]
  /\ exists keywords,
       find (regex_search SampleRuns.world_by_request)
            (regulations_failure SampleRuns.world_by_request)
            (mongo_query (Suggest.suggested_regulators SampleRuns.suggestion)
                         keywords)
            (regulations SampleRuns.world_by_request)
       = Ok SampleRuns.candidates.
Proof.
  destruct (endpoints_agree SampleRuns.world_by_request Sample.company_id []
              (snd SampleRuns.matching) (snd SampleRuns.matching)
              (snd SampleRuns.suggesting)
              SampleRuns.candidates SampleRuns.response SampleRuns.suggestion)
    as (Hname & req & later & _ & _ & Hsame).
  - vm_compute. reflexivity.
  - vm_compute. reflexivity.
  - split; [exact Hname|]. split; [vm_compute; reflexivity|].
    apply Hsame. reflexivity.
Defined.

(** ** Received webhooks *)





(** ** Sending tasks to RegComply *)

Lemma accepted_status (r : RegComply.reply) :
  RegComply.accepted r = true
  <-> exists status text,
        r = RegComply.PostResponse status text
        /\ (status = 200 \/ status = 201 \/ status = 202)%Z.
Proof.
  destruct r as [|status text]; cbn [RegComply.accepted existsb].
  - split; [discriminate | intros (s & t & H & _); discriminate H].
  - rewrite orb_false_r, !orb_true_iff, !Z.eqb_eq. split.
    + intros H. exists status, text. split; [reflexivity|].
      destruct H as [H|[H|H]]; auto.
    + intros (s & t & H & Hs). injection H as -> ->.
      destruct Hs as [H|[H|H]]; auto.
Qed.

(** X11. [send_tasks_to_regcomply] answers [True] exactly when a URL is
    configured and the post comes back with status 200, 201 or 202; an
    exception of the client or any other status gives [False].  With no
    URL nothing is posted; otherwise exactly one post is made, to that
    URL, carrying the payload as it was given, and the secret header is in
    it exactly when a secret is configured. *)
Theorem send_tasks_to_regcomply_answer :
  forall (h : RegComply.Hook) (payload : doc) (posts : list RegComply.post),
    (fst (RegComply.send_tasks_to_regcomply h payload posts) = true
     <-> RegComply.REGCOMPLY_WEBHOOK_URL (RegComply.settings h) <> []
         /\ exists status text,
              RegComply.http_post h posts (RegComply.task_post h payload)
              = RegComply.PostResponse status text
              /\ (status = 200 \/ status = 201 \/ status = 202)%Z)
    /\ snd (RegComply.send_tasks_to_regcomply h payload posts)
       = match RegComply.REGCOMPLY_WEBHOOK_URL (RegComply.settings h) with
         | [] => posts
         | _ => posts ++ [RegComply.task_post h payload]
         end
    /\ RegComply.url (RegComply.task_post h payload)
       = RegComply.REGCOMPLY_WEBHOOK_URL (RegComply.settings h)
    /\ RegComply.json (RegComply.task_post h payload) = payload
    /\ forall x,
         In (lit "X-Webhook-Secret", x)
            (RegComply.headers (RegComply.task_post h payload))
         <-> x = RegComply.REGCOMPLY_WEBHOOK_SECRET (RegComply.settings h)
             /\ RegComply.REGCOMPLY_WEBHOOK_SECRET (RegComply.settings h) <> [].
Proof.
  intros h payload posts.
  unfold RegComply.send_tasks_to_regcomply.
  split; [|split; [|split; [|split]]].
  - destruct (RegComply.REGCOMPLY_WEBHOOK_URL (RegComply.settings h)) as [|c u];
      cbn [fst].
    + split; [discriminate | intros [H _]; congruence].
    + rewrite accepted_status. split; [intros H; split; [discriminate | exact H]|].
      intros [_ H]. exact H.
  - destruct (RegComply.REGCOMPLY_WEBHOOK_URL (RegComply.settings h)); reflexivity.
  - reflexivity.
  - reflexivity.
  - intros x. unfold RegComply.task_post. cbn [RegComply.headers].
    destruct (RegComply.REGCOMPLY_WEBHOOK_SECRET (RegComply.settings h))
      as [|c sec].
    + split.
      * intros [H|[]]. discriminate H.
      * intros [_ H]. congruence.
    + split.
      * intros [H|[H|[]]]; [discriminate H|]. injection H as <-.
        split; [reflexivity | discriminate].
      * intros [-> _]. right. left. reflexivity.
Qed.

Lemma existsb_pointwise {A : Type} (f g : A -> bool) (l : list A) :
  (forall x, f x = g x) -> existsb f l = existsb g l.
Proof.
  intros H. induction l as [|x r IH]; [reflexivity|].
  cbn [existsb]. rewrite H, IH. reflexivity.
Qed.

Lemma existsb_shift (f : nat -> bool) (n : nat) :
  existsb f (seq 1 n) = existsb (fun k => f (S k)) (seq 0 n).
Proof.
  rewrite <- seq_shift. induction (seq 0 n) as [|x r IH]; [reflexivity|].
  cbn [map existsb]. rewrite IH. reflexivity.
Qed.

Lemma send_each_spec (h : RegComply.Hook) (tasks : list doc) :
  forall flag posts,
    RegComply.REGCOMPLY_WEBHOOK_URL (RegComply.settings h) <> [] ->
    RegComply.send_each h tasks flag posts
    = (flag
       || existsb (fun k =>
                     RegComply.accepted
                       (RegComply.http_post h
                          (posts ++ firstn k (map (RegComply.task_post h) tasks))
                          (RegComply.task_post h (nth k tasks []))))
                  (seq 0 (List.length tasks)),
       posts ++ map (RegComply.task_post h) tasks).
Proof.
  induction tasks as [|t rest IH]; intros flag posts Hurl.
  - simpl. rewrite orb_false_r, app_nil_r. reflexivity.
  - cbn [RegComply.send_each]. unfold RegComply.send_tasks_to_regcomply.
    destruct (RegComply.REGCOMPLY_WEBHOOK_URL (RegComply.settings h)) as [|c u] eqn:Eu;
      [congruence|].
    rewrite IH by exact Hurl.
    cbn [List.length seq existsb map]. rewrite existsb_shift.
    cbn [firstn nth]. rewrite app_nil_r.
    rewrite (existsb_pointwise
               (fun k =>
                  RegComply.accepted
                    (RegComply.http_post h
                       (posts ++ firstn (S k) (RegComply.task_post h t
                                               :: map (RegComply.task_post h) rest))
                       (RegComply.task_post h (nth (S k) (t :: rest) []))))
               (fun k =>
                  RegComply.accepted
                    (RegComply.http_post h
                       ((posts ++ [RegComply.task_post h t])
                          ++ firstn k (map (RegComply.task_post h) rest))
                       (RegComply.task_post h (nth k rest []))))).
    2:{ intros k. cbn [firstn nth]. rewrite <- app_assoc. reflexivity. }
    rewrite <- app_assoc. cbn [app].
    destruct (RegComply.accepted _); destruct flag; reflexivity.
Qed.

(** X12. The loop that sends the tasks one by one makes, when a URL is
    configured, one post per task, in the order of the tasks and each
    carrying its task, and reports success exactly when at least one of
    these posts was accepted; with no URL, or no task, it posts nothing
    and reports failure. *)
Theorem send_all_reports :
  forall (h : RegComply.Hook) (tasks : list doc) (posts : list RegComply.post),
    (RegComply.REGCOMPLY_WEBHOOK_URL (RegComply.settings h) = [] ->
     RegComply.send_all h tasks posts = (false, posts))
    /\ (RegComply.REGCOMPLY_WEBHOOK_URL (RegComply.settings h) <> [] ->
        snd (RegComply.send_all h tasks posts)
        = posts ++ map (RegComply.task_post h) tasks
        /\ (fst (RegComply.send_all h tasks posts) = true
            <-> exists k,
                  (k < List.length tasks)%nat
                  /\ RegComply.accepted
                       (RegComply.http_post h
                          (posts ++ firstn k (map (RegComply.task_post h) tasks))
                          (RegComply.task_post h (nth k tasks [])))
                     = true)).
Proof.
  intros h tasks posts. split.
  - intros Hurl. unfold RegComply.send_all.
    destruct tasks as [|t rest]; [reflexivity|].
    generalize (t :: rest). clear t rest. intros tasks.
    induction tasks as [|t rest IH]; [reflexivity|].
    cbn [RegComply.send_each]. unfold RegComply.send_tasks_to_regcomply.
    rewrite Hurl. exact IH.
  - intros Hurl.
    assert (Hall : RegComply.send_all h tasks posts
                   = RegComply.send_each h tasks false posts)
      by (destruct tasks; reflexivity).
    rewrite Hall, (send_each_spec h tasks false posts Hurl). cbn [fst snd orb].
    split; [reflexivity|].
    rewrite existsb_exists. split.
    + intros (k & Hin & Hk). apply in_seq in Hin. exists k. split; [lia | exact Hk].
    + intros (k & Hlt & Hk). exists k. split; [apply in_seq; lia | exact Hk].
Qed.

(** ** The standards of a regulation *)

Lemma ordered_pairs_snoc {A : Type} (R : A -> A -> Prop) (l : list A) (x : A) :
  ForallOrdPairs R l -> Forall (fun a => R a x) l ->
  ForallOrdPairs R (l ++ [x]).
Proof.
  induction 1 as [|a l Ha Hl IH]; intros Hx.
  - simpl. constructor; [constructor | constructor].
  - inversion Hx as [|a' l' Hax Hlx]; subst. simpl. constructor.
    + apply Forall_app. split; [exact Ha | constructor; [exact Hax | constructor]].
    + apply IH. exact Hlx.
Qed.

Lemma py_in_false (x : value) (l : list value) :
  RegComply.py_in x l = false ->
  Forall (fun el => RegComply.py_eqb el x = false) l.
Proof.
  unfold RegComply.py_in. induction l as [|a l IH]; intros H; [constructor|].
  cbn [existsb] in H. apply orb_false_iff in H. destruct H as [Ha Hl].
  constructor; [exact Ha | exact (IH Hl)].
Qed.

Lemma py_eqb_text (el : value) (s : str) :
  RegComply.py_eqb el (VStr s) = true -> el = VStr s.
Proof.
  destruct el; cbn; try discriminate.
  intros H. apply str_eqb_eq in H. congruence.
Qed.

Lemma py_in_text (s : str) (l : list value) :
  RegComply.py_in (VStr s) l = true -> In (VStr s) l.
Proof.
  unfold RegComply.py_in. intros H. apply existsb_exists in H.
  destruct H as (el & Hin & Heq). apply py_eqb_text in Heq. congruence.
Qed.

(** What one step of the inner loop does to the list. *)
Lemma add_standards_step (standard : value) (rest l l' : list value) :
  RegComply.add_standards (standard :: rest) l = Ok l' ->
  exists fields,
    standard = VDict fields
    /\ RegComply.add_standards rest
         (if truthy (get fields (lit "standard_name") (VStr []))
             && negb (RegComply.py_in
                        (get fields (lit "standard_name") (VStr [])) l)
          then l ++ [get fields (lit "standard_name") (VStr [])]
          else l)
       = Ok l'.
Proof.
  cbn [RegComply.add_standards]. intros H.
  apply bind_ok_inv in H. destruct H as (name & Hget & H).
  destruct standard; try discriminate Hget.
  cbn [py_get] in Hget. injection Hget as <-. eauto.
Qed.

Lemma add_obligations_step (obligation : value) (rest l l' : list value) :
  RegComply.add_obligations (obligation :: rest) l = Ok l' ->
  exists fields mapped l1,
    obligation = VDict fields
    /\ iterate (get fields (lit "mapped_standards") (VList [])) = Ok mapped
    /\ RegComply.add_standards mapped l = Ok l1
    /\ RegComply.add_obligations rest l1 = Ok l'.
Proof.
  cbn [RegComply.add_obligations]. intros H.
  apply bind_ok_inv in H. destruct H as (m & Hget & H).
  apply bind_ok_inv in H. destruct H as (mapped & Hit & H).
  apply bind_ok_inv in H. destruct H as (l1 & Hstd & H).
  destruct obligation; try discriminate Hget.
  cbn [py_get] in Hget. injection Hget as <-.
  exists fields, mapped, l1. auto.
Qed.

Lemma add_standards_distinct (ms : list value) :
  forall l l',
    RegComply.add_standards ms l = Ok l' ->
    RegComply.standards_distinct l -> RegComply.standards_distinct l'.
Proof.
  induction ms as [|standard rest IH]; intros l l' H Hl.
  - cbn in H. injection H as <-. exact Hl.
  - apply add_standards_step in H. destruct H as (fields & -> & H).
    apply (IH _ _ H).
    destruct (truthy (get fields (lit "standard_name") (VStr []))) eqn:Et;
      [|exact Hl].
    destruct (RegComply.py_in (get fields (lit "standard_name") (VStr [])) l)
      eqn:Ein; [exact Hl|].
    cbn [andb negb]. destruct Hl as [Ht Hd]. split.
    + apply Forall_app. split; [exact Ht | constructor; [exact Et | constructor]].
    + apply ordered_pairs_snoc; [exact Hd | apply py_in_false; exact Ein].
Qed.

Lemma add_obligations_distinct (obligations : list value) :
  forall l l',
    RegComply.add_obligations obligations l = Ok l' ->
    RegComply.standards_distinct l -> RegComply.standards_distinct l'.
Proof.
  induction obligations as [|obligation rest IH]; intros l l' H Hl.
  - cbn in H. injection H as <-. exact Hl.
  - apply add_obligations_step in H.
    destruct H as (fields & mapped & l1 & -> & _ & Hstd & H).
    apply (IH _ _ H). exact (add_standards_distinct _ _ _ Hstd Hl).
Qed.

(** X13. The standards gathered from a regulation are all truthy (no
    empty name, no [None]) and no two of them are equal under [==],
    whatever the obligations hold. *)
Theorem standards_truthy_distinct :
  forall (regulation : doc) (l : list value),
    RegComply.standards regulation = Ok l ->
    Forall (fun v => truthy v = true) l
    /\ ForallOrdPairs (fun a b => RegComply.py_eqb a b = false) l.
Proof.
  intros regulation l H. unfold RegComply.standards in H.
  apply bind_ok_inv in H. destruct H as (obligations & _ & H).
  apply (add_obligations_distinct _ _ _ H).
  split; constructor.
Qed.

Lemma standards_truthy_distinct_witness :
  RegComply.standards RegComply.regulation_with_standards
  = Ok [VStr (lit "ISO 27001"); VStr (lit "NIST CSF"); VStr (lit "PCI DSS")]
  /\ Forall (fun v => truthy v = true)
       [VStr (lit "ISO 27001"); VStr (lit "NIST CSF"); VStr (lit "PCI DSS")]
  /\ ForallOrdPairs (fun a b => RegComply.py_eqb a b = false)
       [VStr (lit "ISO 27001"); VStr (lit "NIST CSF"); VStr (lit "PCI DSS")].
Proof.
  split; [reflexivity|].
  apply (standards_truthy_distinct RegComply.regulation_with_standards).
  reflexivity.
Defined.

Lemma get_truthy_lookup (fields : doc) (k : str) :
  truthy (get fields k (VStr [])) = true ->
  lookup k fields = Some (get fields k (VStr [])).
Proof.
  unfold get. destruct (lookup k fields); [reflexivity | discriminate].
Qed.

Lemma add_standards_from (ms : list value) :
  forall l l',
    RegComply.add_standards ms l = Ok l' ->
    forall x, In x l' -> In x l \/ RegComply.offers ms x.
Proof.
  induction ms as [|standard rest IH]; intros l l' H x Hx.
  - cbn in H. injection H as <-. left. exact Hx.
  - apply add_standards_step in H. destruct H as (fields & -> & H).
    destruct (IH _ _ H x Hx) as [Hin | (st & Hst & Hname)].
    + destruct (truthy (get fields (lit "standard_name") (VStr []))) eqn:Et;
        [|left; exact Hin].
      destruct (negb (RegComply.py_in _ l)); [|left; exact Hin].
      cbn [andb] in Hin. apply in_app_or in Hin.
      destruct Hin as [Hin | [<- | []]]; [left; exact Hin|].
      right. exists fields. split; [left; reflexivity|].
      apply get_truthy_lookup. exact Et.
    + right. exists st. split; [right; exact Hst | exact Hname].
Qed.

Lemma add_standards_keeps (ms : list value) :
  forall l l',
    RegComply.add_standards ms l = Ok l' ->
    forall x, In x l -> In x l'.
Proof.
  induction ms as [|standard rest IH]; intros l l' H x Hx.
  - cbn in H. injection H as <-. exact Hx.
  - apply add_standards_step in H. destruct H as (fields & -> & H).
    apply (IH _ _ H).
    destruct (_ && _); [apply in_or_app; left; exact Hx | exact Hx].
Qed.

Lemma add_standards_takes (ms : list value) :
  forall l l',
    RegComply.add_standards ms l = Ok l' ->
    forall s, s <> [] -> RegComply.offers ms (VStr s) -> In (VStr s) l'.
Proof.
  induction ms as [|standard rest IH]; intros l l' H s Hs (st & Hst & Hname).
  - destruct Hst.
  - apply add_standards_step in H. destruct H as (fields & Hf & H).
    destruct Hst as [Hst | Hst].
    + rewrite Hf in Hst. injection Hst as ->.
      apply (add_standards_keeps _ _ _ H).
      unfold get. rewrite Hname.
      assert (Ht : truthy (VStr s) = true) by (destruct s; [congruence | reflexivity]).
      rewrite Ht. cbn [andb].
      destruct (RegComply.py_in (VStr s) l) eqn:Ein; cbn [negb].
      * apply py_in_text. exact Ein.
      * apply in_or_app. right. left. reflexivity.
    + apply (IH _ _ H s Hs). exists st. split; assumption.
Qed.

Lemma add_obligations_from (obligations : list value) :
  forall l l',
    RegComply.add_obligations obligations l = Ok l' ->
    forall x, In x l' -> In x l \/ RegComply.obligations_offer obligations x.
Proof.
  induction obligations as [|obligation rest IH]; intros l l' H x Hx.
  - cbn in H. injection H as <-. left. exact Hx.
  - apply add_obligations_step in H.
    destruct H as (fields & mapped & l1 & -> & Hit & Hstd & H).
    destruct (IH _ _ H x Hx) as [Hin | (ob & m & Hob & Hm & Hoff)].
    + destruct (add_standards_from _ _ _ Hstd x Hin) as [Hl | Hoff];
        [left; exact Hl|].
      right. exists fields, mapped. split; [left; reflexivity | split; assumption].
    + right. exists ob, m. split; [right; exact Hob | split; assumption].
Qed.

Lemma add_obligations_keeps (obligations : list value) :
  forall l l',
    RegComply.add_obligations obligations l = Ok l' ->
    forall x, In x l -> In x l'.
Proof.
  induction obligations as [|obligation rest IH]; intros l l' H x Hx.
  - cbn in H. injection H as <-. exact Hx.
  - apply add_obligations_step in H.
    destruct H as (fields & mapped & l1 & -> & Hit & Hstd & H).
    apply (IH _ _ H). exact (add_standards_keeps _ _ _ Hstd x Hx).
Qed.

Lemma add_obligations_takes (obligations : list value) :
  forall l l',
    RegComply.add_obligations obligations l = Ok l' ->
    forall s, s <> [] -> RegComply.obligations_offer obligations (VStr s) ->
    In (VStr s) l'.
Proof.
  induction obligations as [|obligation rest IH];
    intros l l' H s Hs (ob & m & Hob & Hm & Hoff).
  - destruct Hob.
  - apply add_obligations_step in H.
    destruct H as (fields & mapped & l1 & Hf & Hit & Hstd & H).
    destruct Hob as [Hob | Hob].
    + rewrite Hf in Hob. injection Hob as ->.
      apply (add_obligations_keeps _ _ _ H).
      rewrite Hit in Hm. injection Hm as ->.
      exact (add_standards_takes _ _ _ Hstd s Hs Hoff).
    + apply (IH _ _ H s Hs). exists ob, m. split; [exact Hob | split; assumption].
Qed.

(** X14. Every standard gathered from a regulation is the
    [standard_name] entry of a mapped standard of one of its obligations,
    and every non-empty text that is such an entry is among the standards
    gathered. *)
Theorem standards_gathered :
  forall (regulation : doc) (obligations l : list value),
    iterate (get regulation (lit "obligations") (VList [])) = Ok obligations ->
    RegComply.standards regulation = Ok l ->
    (forall name, In name l -> RegComply.obligations_offer obligations name)
    /\ (forall s, s <> [] -> RegComply.obligations_offer obligations (VStr s) ->
        In (VStr s) l).
Proof.
  intros regulation obligations l Hob H. unfold RegComply.standards in H.
  rewrite Hob in H. cbn [bind] in H. split.
  - intros name Hin.
    destruct (add_obligations_from _ _ _ H name Hin) as [[] | Hoff]. exact Hoff.
  - intros s Hs Hoff. exact (add_obligations_takes _ _ _ H s Hs Hoff).
Qed.

Lemma standards_gathered_witness :
  (forall name,
     In name [VStr (lit "ISO 27001"); VStr (lit "NIST CSF"); VStr (lit "PCI DSS")] ->
     RegComply.obligations_offer RegComply.obligations_with_standards name)
  /\ (forall s, s <> [] ->
      RegComply.obligations_offer RegComply.obligations_with_standards (VStr s) ->
      In (VStr s)
         [VStr (lit "ISO 27001"); VStr (lit "NIST CSF"); VStr (lit "PCI DSS")]).
Proof.
  apply (standards_gathered RegComply.regulation_with_standards); reflexivity.
Defined.
